(** * Chrome installer (setup.exe): install / update orchestration

    A shallow embedding of the orchestration logic of
    [chrome/installer/setup/setup_main.cc]: [UnPackArchive],
    [RenameChromeExecutables], [CheckPreInstallConditions] and
    [InstallChrome].

    The functions are sequences of calls into collaborators that live outside
    this file (LZMA unpacking, file utilities, the registry, the work-item
    list, Google Update reporting).  Each collaborator is a field of
    [Externals]: a function over an abstract world [W].  A modelled function
    is a computation [M A = W -> A * W * list Event]: it threads the world and
    returns the calls it made, in order, each with the result it got back. *)

From Stdlib Require Import ZArith List String Ascii Bool Lia DecimalString.
Import ListNotations.
Local Open Scope string_scope.
Local Open Scope list_scope.
Local Open Scope Z_scope.

(** ** Data *)

(** [installer_util::InstallStatus]: the enumerators this file names.  The
    enumeration itself is declared in util_constants.h; its numbering is a
    field of [Constants] below. *)
Inductive InstallStatus : Set :=
  | FIRST_INSTALL_SUCCESS
  | NEW_VERSION_UPDATED
  | EXISTING_VERSION_LAUNCHED
  | HIGHER_VERSION_EXISTS
  | USER_LEVEL_INSTALL_EXISTS
  | SYSTEM_LEVEL_INSTALL_EXISTS
  | INSTALL_FAILED
  | SETUP_PATCH_FAILED
  | OS_NOT_SUPPORTED
  | OS_ERROR
  | TEMP_DIR_FAILED
  | UNCOMPRESSION_FAILED
  | INVALID_ARCHIVE
  | INSUFFICIENT_RIGHTS
  | CHROME_NOT_INSTALLED
  | UNKNOWN_STATUS
  | RENAME_SUCCESSFUL
  | RENAME_FAILED
  | EULA_REJECTED
  | EULA_ACCEPTED
  | EULA_ACCEPTED_OPT_IN
  | INSTALL_DIR_IN_USE
  | UNINSTALL_REQUIRES_REBOOT
  | IN_USE_UPDATED
  | SAME_VERSION_REPAIR_FAILED
  | REENTRY_SYS_UPDATE
  | SXS_OPTION_NOT_SUPPORTED.

Scheme Equality for InstallStatus.

(** Modelled from the spec: [installer::Version] (version.h is not part of
    this file).  "An ordered tuple of non-negative integers". *)
Definition Version : Set := list N.

(** Modelled from the spec: the two tuples compared component by
    component over [n] components, a missing component counting as zero. *)
Fixpoint compare_padded (n : nat) (a b : Version) : comparison :=
  match n with
  | O => Eq
  | S n' =>
      match N.compare (hd 0%N a) (hd 0%N b) with
      | Eq => compare_padded n' (tl a) (tl b)
      | c => c
      end
  end.

(** Modelled from the spec: the comparison of VersionProbe, "a pure, total,
    lexicographic tuple comparison over the integer components (shorter
    tuples are padded with zero on the right before comparing)". *)
Definition Version_compare (a b : Version) : comparison :=
  compare_padded (Nat.max (List.length a) (List.length b)) a b.

(** Modelled from the spec: [Version::IsHigherThan], the "strict
    greater-than comparison" of the data model. *)
Definition IsHigherThan (this other : Version) : bool :=
  match Version_compare this other with
  | Gt => true
  | _ => false
  end.

Inductive HKEY : Set := HKEY_LOCAL_MACHINE | HKEY_CURRENT_USER.

(** [WorkItem::CopyOverWriteOption]: the enumerator this file names (the
    enumeration is declared in work_item.h). *)
Inductive CopyOverWriteOption : Set :=
  | IF_DIFFERENT.

(** The work items this file creates, by the [Add...WorkItem] call that
    creates them, with the arguments of the call. *)
Inductive WorkItem : Set :=
  | DeleteTreeWorkItem (root_path key_path : string)
  | CopyTreeWorkItem (source_path dest_path temp_dir : string)
                     (overwrite_option : CopyOverWriteOption)
                     (alternative_path : string)
  | DeleteRegValueWorkItem (predefined_root : HKEY)
                           (key_path value_name : string)
                           (is_str_type : bool).

(** A [WorkItemList] owns its items in the order they were added. *)
Definition WorkItemList : Set := list WorkItem.

Definition AddDeleteTreeWorkItem (l : WorkItemList) (root_path key_path : string)
  : WorkItemList :=
  l ++ [DeleteTreeWorkItem root_path key_path].

Definition AddCopyTreeWorkItem (l : WorkItemList)
    (source_path dest_path temp_dir : string)
    (overwrite_option : CopyOverWriteOption) (alternative_path : string)
  : WorkItemList :=
  l ++ [CopyTreeWorkItem source_path dest_path temp_dir overwrite_option
          alternative_path].

Definition AddDeleteRegValueWorkItem (l : WorkItemList) (predefined_root : HKEY)
    (key_path value_name : string) (is_str_type : bool) : WorkItemList :=
  l ++ [DeleteRegValueWorkItem predefined_root key_path value_name is_str_type].

Definition empty (s : string) : bool :=
  match s with EmptyString => true | _ => false end.

(** The one-character string holding a double quote. *)
Definition dquote : string := String (ascii_of_nat 34) EmptyString.

(** ** Machine integers *)

(** A C++ [int] / [int32] result, as the signed 32-bit value. *)
Definition wrap_int32 (z : Z) : Z := (z + 2 ^ 31) mod 2 ^ 32 - 2 ^ 31.

(** Conversion to [DWORD] (unsigned 32 bits). *)
Definition to_DWORD (z : Z) : Z := z mod 2 ^ 32.

Definition NO_ERROR : Z := 0.

(** ** Calls into collaborators *)

Inductive Event : Set :=
  | EvLzmaUnPackArchive (archive output_dir : string) (ret : Z)
                        (unpacked_file : string)
  | EvPathExists (path : string) (result : bool)
  | EvApplyDiffPatch (src patch dest : string) (ret : Z)
  | EvCreateNewTempDirectory (prefix : string) (new_temp_path : option string)
  | EvDelete (path : string) (recursive : bool) (result : bool)
  | EvDo (items : WorkItemList) (result : bool)
  | EvRollback (items : WorkItemList)
  | EvGetChromeVersion (system_install : bool) (result : option Version)
  | EvWriteInstallerResult (system_install : bool) (status : InstallStatus)
                           (string_resource_id : Z) (launch_cmd : option string)
  | EvLaunchApp (cmdline : string) (wait start_hidden : bool)
  | EvGetVersionFromDir (chrome_path : string) (result : option Version)
  | EvInstallOrUpdateChrome (exe_path archive_path install_temp_path
                             prefs_path : string)
                            (new_version : Version)
                            (installed_version : option Version)
                            (result : InstallStatus)
  | EvLaunchChrome (system_install : bool)
  | EvRemoveLegacyRegistryKeys
  | EvLaunchUserExperiment (status : InstallStatus) (version : option Version)
                           (system_install : bool)
  | EvScheduleDirectoryForDeletion (dir_name : string)
  | EvUpdateDiffInstallStatus (system_install incremental_install : bool)
                              (install_status : InstallStatus).

(** The collaborators.  Those that read or change the machine take and
    return the world; path arithmetic and configuration lookups are pure. *)
Record Externals (W : Type) : Type := {
  (* opaque classes and their readers *)
  DictionaryValue : Type;
  CommandLine : Type;
  program : CommandLine -> string;
  HasSwitch : CommandLine -> string -> bool;
  GetSwitchValue : CommandLine -> string -> string;
  GetDistroBooleanPreference :
    option DictionaryValue -> string -> bool -> bool;
  (* calls *)
  ext_UnPackArchive : string -> string -> W -> (Z * string) * W;
  ext_PathExists : string -> W -> bool * W;
  ext_ApplyDiffPatch : string -> string -> string -> W -> Z * W;
  ext_CreateNewTempDirectory : string -> W -> option string * W;
  ext_Delete : string -> bool -> W -> bool * W;
  ext_Do : WorkItemList -> W -> bool * W;
  ext_Rollback : WorkItemList -> W -> W;
  ext_GetChromeVersion : bool -> W -> option Version * W;
  ext_WriteInstallerResult :
    bool -> InstallStatus -> Z -> option string -> W -> W;
  ext_LaunchApp : string -> bool -> bool -> W -> W;
  ext_GetVersionFromDir : string -> W -> option Version * W;
  ext_InstallOrUpdateChrome :
    string -> string -> string -> string -> option DictionaryValue ->
    Version -> option Version -> W -> InstallStatus * W;
  ext_LaunchChrome : bool -> W -> W;
  ext_RemoveLegacyRegistryKeys : W -> W;
  ext_LaunchUserExperiment : InstallStatus -> option Version -> bool -> W -> W;
  ext_ScheduleDirectoryForDeletion : string -> W -> W;
  ext_UpdateDiffInstallStatus : bool -> bool -> InstallStatus -> W -> W;
  (* pure *)
  GetChromeInstallPath : bool -> string;
  AppendToPath : string -> string -> string;
  GetDirectoryFromPath : string -> string;
  GetString : Version -> string
}.

Arguments DictionaryValue {W}.
Arguments CommandLine {W}.
Arguments program {W}.
Arguments HasSwitch {W}.
Arguments GetSwitchValue {W}.
Arguments GetDistroBooleanPreference {W}.
Arguments ext_UnPackArchive {W}.
Arguments ext_PathExists {W}.
Arguments ext_ApplyDiffPatch {W}.
Arguments ext_CreateNewTempDirectory {W}.
Arguments ext_Delete {W}.
Arguments ext_Do {W}.
Arguments ext_Rollback {W}.
Arguments ext_GetChromeVersion {W}.
Arguments ext_WriteInstallerResult {W}.
Arguments ext_LaunchApp {W}.
Arguments ext_GetVersionFromDir {W}.
Arguments ext_InstallOrUpdateChrome {W}.
Arguments ext_LaunchChrome {W}.
Arguments ext_RemoveLegacyRegistryKeys {W}.
Arguments ext_LaunchUserExperiment {W}.
Arguments ext_ScheduleDirectoryForDeletion {W}.
Arguments ext_UpdateDiffInstallStatus {W}.
Arguments GetChromeInstallPath {W}.
Arguments AppendToPath {W}.
Arguments GetDirectoryFromPath {W}.
Arguments GetString {W}.

(** Constants declared in headers outside this file: file names, switch and
    preference names, registry names, string resource ids, and the numbering
    of [InstallStatus]. *)
Record Constants : Set := {
  kChromeArchive : string;
  kChromeCompressedArchive : string;
  kChromeExe : string;
  kChromeOldExe : string;
  kChromeNewExe : string;
  kInstallerDir : string;
  kInstallSourceDir : string;
  kInstallSourceChromeDir : string;
  kRegOldVersionField : string;
  kRegRenameCmdField : string;
  GetVersionKey : string;
  kFirstRun : string;
  kInstallArchive : string;
  kInstallerData : string;
  kSystemLevel : string;
  kDoNotRegisterForUpdateLaunch : string;
  kDoNotLaunchChrome : string;
  IDS_INSTALL_OS_ERROR_BASE : Z;
  IDS_INSTALL_USER_LEVEL_EXISTS_BASE : Z;
  IDS_INSTALL_SYSTEM_LEVEL_EXISTS_BASE : Z;
  IDS_INSTALL_DIR_IN_USE_BASE : Z;
  IDS_INSTALL_TEMP_DIR_FAILED_BASE : Z;
  IDS_INSTALL_UNCOMPRESSION_FAILED_BASE : Z;
  IDS_INSTALL_INVALID_ARCHIVE_BASE : Z;
  IDS_INSTALL_HIGHER_VERSION_BASE : Z;
  IDS_INSTALL_FAILED_BASE : Z;
  IDS_SAME_VERSION_REPAIR_FAILED_BASE : Z;
  status_code : InstallStatus -> Z
}.

(** ** The monad of calls *)

Definition M (W A : Type) : Type := W -> A * W * list Event.

Definition mret {W A : Type} (a : A) : M W A := fun w => (a, w, []).

Definition bind {W A B : Type} (m : M W A) (f : A -> M W B) : M W B :=
  fun w =>
    let '(a, w1, e1) := m w in
    let '(b, w2, e2) := f a w1 in
    (b, w2, e1 ++ e2).

(** A call that returns a value. *)
Definition call {W A : Type} (f : W -> A * W) (ev : A -> Event) : M W A :=
  fun w => let (a, w') := f w in (a, w', [ev a]).

(** A call whose result is not looked at. *)
Definition call_ {W : Type} (f : W -> W) (ev : Event) : M W unit :=
  fun w => (tt, f w, [ev]).

Declare Scope call_scope.
Delimit Scope call_scope with call.
Notation "x <- m ;; k" := (bind m (fun x => k))
  (at level 61, m at next level, right associativity) : call_scope.
Notation "' p <- m ;; k" := (bind m (fun x => let 'p := x in k))
  (at level 61, p pattern, m at next level, right associativity) : call_scope.
Notation "m ;;; k" := (bind m (fun _ => k))
  (at level 61, right associativity) : call_scope.
Local Open Scope call_scope.

Definition result {W A : Type} (r : A * W * list Event) : A := fst (fst r).
Definition world {W A : Type} (r : A * W * list Event) : W := snd (fst r).
Definition events {W A : Type} (r : A * W * list Event) : list Event := snd r.

(** ** The functions of setup_main.cc *)

Section Setup.

Context {W : Type}.
Variable X : Externals W.
Variable K : Constants.

Notation "a // b" := (AppendToPath X a b) (at level 40, left associativity).

(** *** Wrappers: one per collaborator, recording the call *)

Definition LzmaUtil_UnPackArchive (archive output_dir : string)
  : M W (Z * string) :=
  call (fun w => let '(r, f, w') := ext_UnPackArchive X archive output_dir w in
                 (wrap_int32 r, f, w'))
       (fun rf => EvLzmaUnPackArchive archive output_dir (fst rf) (snd rf)).

Definition PathExists (path : string) : M W bool :=
  call (ext_PathExists X path) (EvPathExists path).

Definition ApplyDiffPatch (src patch dest : string) : M W Z :=
  call (fun w => let (i, w') := ext_ApplyDiffPatch X src patch dest w in
                 (wrap_int32 i, w'))
       (EvApplyDiffPatch src patch dest).

Definition CreateNewTempDirectory (prefix : string) : M W (option string) :=
  call (ext_CreateNewTempDirectory X prefix) (EvCreateNewTempDirectory prefix).

Definition Delete (path : string) (recursive : bool) : M W bool :=
  call (ext_Delete X path recursive) (EvDelete path recursive).

Definition Do (l : WorkItemList) : M W bool :=
  call (ext_Do X l) (EvDo l).

Definition Rollback (l : WorkItemList) : M W unit :=
  call_ (ext_Rollback X l) (EvRollback l).

Definition GetChromeVersion (system_install : bool) : M W (option Version) :=
  call (ext_GetChromeVersion X system_install)
       (EvGetChromeVersion system_install).

Definition WriteInstallerResult (system_install : bool)
    (status : InstallStatus) (string_resource_id : Z)
    (launch_cmd : option string) : M W unit :=
  call_ (ext_WriteInstallerResult X system_install status string_resource_id
           launch_cmd)
        (EvWriteInstallerResult system_install status string_resource_id
           launch_cmd).

Definition LaunchApp (cmdline : string) (wait start_hidden : bool)
  : M W unit :=
  call_ (ext_LaunchApp X cmdline wait start_hidden)
        (EvLaunchApp cmdline wait start_hidden).

Definition GetVersionFromDir (chrome_path : string) : M W (option Version) :=
  call (ext_GetVersionFromDir X chrome_path) (EvGetVersionFromDir chrome_path).

Definition InstallOrUpdateChrome
    (exe_path archive_path install_temp_path prefs_path : string)
    (prefs : option (DictionaryValue X)) (new_version : Version)
    (installed_version : option Version) : M W InstallStatus :=
  call (ext_InstallOrUpdateChrome X exe_path archive_path install_temp_path
          prefs_path prefs new_version installed_version)
       (EvInstallOrUpdateChrome exe_path archive_path install_temp_path
          prefs_path new_version installed_version).

Definition LaunchChrome (system_install : bool) : M W unit :=
  call_ (ext_LaunchChrome X system_install) (EvLaunchChrome system_install).

Definition RemoveLegacyRegistryKeys : M W unit :=
  call_ (ext_RemoveLegacyRegistryKeys X) EvRemoveLegacyRegistryKeys.

Definition LaunchUserExperiment (status : InstallStatus)
    (version : option Version) (system_install : bool) : M W unit :=
  call_ (ext_LaunchUserExperiment X status version system_install)
        (EvLaunchUserExperiment status version system_install).

Definition ScheduleDirectoryForDeletion (dir_name : string) : M W unit :=
  call_ (ext_ScheduleDirectoryForDeletion X dir_name)
        (EvScheduleDirectoryForDeletion dir_name).

Definition UpdateDiffInstallStatus (system_install incremental_install : bool)
    (install_status : InstallStatus) : M W unit :=
  call_ (ext_UpdateDiffInstallStatus X system_install incremental_install
           install_status)
        (EvUpdateDiffInstallStatus system_install incremental_install
           install_status).

(** *** UnPackArchive (lines 57-98)

    Returns the [DWORD] result and the value left in the in/out parameter
    [incremental_install]. *)
Definition UnPackArchive (archive : string) (system_install : bool)
    (installed_version : option Version) (temp_path path : string)
    (incremental_install : bool) : M W (Z * bool) :=
  '(ret, unpacked_file) <- LzmaUtil_UnPackArchive archive temp_path ;;
  if negb (ret =? NO_ERROR) then mret (to_DWORD ret, incremental_install)
  else
    let uncompressed_archive := temp_path // kChromeArchive K in
    found <- PathExists uncompressed_archive ;;
    if negb found then
      let incremental_install := true in
      match installed_version with
      | None =>
          mret (to_DWORD (status_code K CHROME_NOT_INSTALLED),
                incremental_install)
      | Some v =>
          let existing_archive :=
            GetChromeInstallPath X system_install // GetString X v
              // kInstallerDir K // kChromeArchive K in
          i <- ApplyDiffPatch existing_archive unpacked_file
                 uncompressed_archive ;;
          if negb (i =? 0) then mret (to_DWORD i, incremental_install)
          else
            '(ret2, _) <- LzmaUtil_UnPackArchive uncompressed_archive path ;;
            mret (to_DWORD ret2, incremental_install)
      end
    else
      '(ret2, _) <- LzmaUtil_UnPackArchive uncompressed_archive path ;;
      mret (to_DWORD ret2, incremental_install).

(** *** RenameChromeExecutables (lines 106-147)

    [RenameChromeExecutables_run] also returns the local [install_list] as
    it stands when the function returns. *)
Definition RenameChromeExecutables_run (system_install : bool)
  : M W (InstallStatus * WorkItemList) :=
  let chrome_path := GetChromeInstallPath X system_install in
  let chrome_exe := chrome_path // kChromeExe K in
  let chrome_old_exe := chrome_path // kChromeOldExe K in
  let chrome_new_exe := chrome_path // kChromeNewExe K in
  let install_list : WorkItemList := [] in
  let install_list := AddDeleteTreeWorkItem install_list chrome_old_exe "" in
  created <- CreateNewTempDirectory "chrome_" ;;
  match created with
  | None => mret (RENAME_FAILED, install_list)
  | Some temp_path =>
      let install_list :=
        AddCopyTreeWorkItem install_list chrome_new_exe chrome_exe temp_path
          IF_DIFFERENT "" in
      let reg_root :=
        if system_install then HKEY_LOCAL_MACHINE else HKEY_CURRENT_USER in
      let install_list :=
        AddDeleteRegValueWorkItem install_list reg_root (GetVersionKey K)
          (kRegOldVersionField K) true in
      let install_list :=
        AddDeleteTreeWorkItem install_list chrome_new_exe "" in
      let install_list :=
        AddDeleteRegValueWorkItem install_list reg_root (GetVersionKey K)
          (kRegRenameCmdField K) true in
      done <- Do install_list ;;
      ret <- (if negb done
              then Rollback install_list ;;; mret RENAME_FAILED
              else mret RENAME_SUCCESSFUL) ;;
      Delete temp_path true ;;;
      mret (ret, install_list)
  end.

Definition RenameChromeExecutables (system_install : bool)
  : M W InstallStatus :=
  r <- RenameChromeExecutables_run system_install ;; mret (fst r).

(** *** CheckPreInstallConditions (lines 149-215)

    Returns the [bool] result and the value left in the in/out parameter
    [status]. *)
Definition CheckPreInstallConditions (installed_version : option Version)
    (system_install : bool) (status : InstallStatus)
  : M W (bool * InstallStatus) :=
  let is_first_install :=
    match installed_version with None => true | Some _ => false end in
  chrome_version <- GetChromeVersion (negb system_install) ;;
  match chrome_version with
  | Some _ =>
      if negb system_install && is_first_install then
        let chrome_exe := GetChromeInstallPath X (negb system_install) in
        if empty chrome_exe then
          let status := OS_ERROR in
          WriteInstallerResult system_install status
            (IDS_INSTALL_OS_ERROR_BASE K) None ;;;
          mret (false, status)
        else
          let status := EXISTING_VERSION_LAUNCHED in
          let chrome_exe := chrome_exe // kChromeExe K in
          let chrome_exe := (dquote ++ chrome_exe ++ dquote ++ " --"
                             ++ kFirstRun K)%string in
          WriteInstallerResult system_install status 0 None ;;;
          LaunchApp chrome_exe false false ;;;
          mret (false, status)
      else
        let status := if system_install then USER_LEVEL_INSTALL_EXISTS
                      else SYSTEM_LEVEL_INSTALL_EXISTS in
        let str_id := if system_install
                      then IDS_INSTALL_USER_LEVEL_EXISTS_BASE K
                      else IDS_INSTALL_SYSTEM_LEVEL_EXISTS_BASE K in
        WriteInstallerResult system_install status str_id None ;;;
        mret (false, status)
  | None =>
      if is_first_install then
        let install_path := GetChromeInstallPath X system_install in
        found <- PathExists install_path ;;
        in_use <- (if found then d <- Delete install_path true ;; mret (negb d)
                   else mret false) ;;
        if in_use then
          let status := INSTALL_DIR_IN_USE in
          WriteInstallerResult system_install status
            (IDS_INSTALL_DIR_IN_USE_BASE K) None ;;;
          mret (false, status)
        else mret (true, status)
      else mret (true, status)
  end.

(** [a == b] on [InstallStatus]. *)
Definition status_eqb (a b : InstallStatus) : bool :=
  if InstallStatus_eq_dec a b then true else false.

(** *** InstallChrome (lines 217-381) *)

(** Lines 297-313: the status, the message and the chrome.exe command to
    report for the status that [InstallOrUpdateChrome] returned. *)
Definition installer_result (system_level : bool)
    (install_status : InstallStatus) : InstallStatus * Z * string :=
  let install_msg_base := IDS_INSTALL_FAILED_BASE K in
  let chrome_exe := "" in
  if status_eqb install_status SAME_VERSION_REPAIR_FAILED then
    (install_status, IDS_SAME_VERSION_REPAIR_FAILED_BASE K, chrome_exe)
  else if negb (status_eqb install_status INSTALL_FAILED) then
    let chrome_exe := GetChromeInstallPath X system_level in
    if empty chrome_exe then
      (OS_ERROR, IDS_INSTALL_OS_ERROR_BASE K, chrome_exe)
    else
      let chrome_exe := chrome_exe // kChromeExe K in
      (install_status, 0, (dquote ++ chrome_exe ++ dquote)%string)
  else (install_status, install_msg_base, chrome_exe).

(** Lines 325-337: what follows the report of [install_status]. *)
Definition post_install (prefs : option (DictionaryValue X)) (system_level : bool)
    (install_status : InstallStatus) : M W unit :=
  if status_eqb install_status FIRST_INSTALL_SUCCESS then
    let do_not_launch_chrome :=
      GetDistroBooleanPreference X prefs (kDoNotLaunchChrome K) false in
    if negb system_level && negb do_not_launch_chrome
    then LaunchChrome system_level
    else mret tt
  else if status_eqb install_status NEW_VERSION_UPDATED
          || status_eqb install_status IN_USE_UPDATED
  then RemoveLegacyRegistryKeys
  else mret tt.

(** Lines 286-338: the branch that installs.  [InstallOrUpdateChrome]
    decides the status; the result is written and the post-install action
    taken. *)
Definition InstallChrome_install (cmd_line : CommandLine X)
    (installed_version : option Version) (prefs : option (DictionaryValue X))
    (system_level : bool) (temp_path : string) (installer_version : Version)
  : M W InstallStatus :=
  let archive_to_copy := temp_path // kChromeArchive K in
  let prefs_source_path := GetSwitchValue X cmd_line (kInstallerData K) in
  install_status <- InstallOrUpdateChrome (program X cmd_line) archive_to_copy
                      temp_path prefs_source_path prefs installer_version
                      installed_version ;;
  let '(install_status, install_msg_base, chrome_exe) :=
    installer_result system_level install_status in
  let value :=
    GetDistroBooleanPreference X prefs (kDoNotRegisterForUpdateLaunch K) false in
  let write_chrome_launch_string :=
    negb value && negb (status_eqb install_status IN_USE_UPDATED) in
  WriteInstallerResult system_level install_status install_msg_base
    (if write_chrome_launch_string then Some chrome_exe else None) ;;;
  post_install prefs system_level install_status ;;;
  mret install_status.

(** Lines 265-349: the branch taken when [UnPackArchive] returned zero.

    Line 347 applies [operator*] to [installer_version] on every path of
    this branch.  When no version was found the pointer is null: the
    assertion of [scoped_ptr] fails there, and without the assertion the
    behaviour is undefined.  That run does not go on: it returns [None],
    no status, with the calls it made up to that line. *)
Definition InstallChrome_unpacked (cmd_line : CommandLine X)
    (installed_version : option Version) (prefs : option (DictionaryValue X))
    (system_level : bool) (temp_path unpack_path : string)
  : M W (option InstallStatus) :=
  let src_path := unpack_path // kInstallSourceChromeDir K in
  installer_version <- GetVersionFromDir src_path ;;
  match installer_version with
  | None =>
      WriteInstallerResult system_level INVALID_ARCHIVE
        (IDS_INSTALL_INVALID_ARCHIVE_BASE K) None ;;;
      mret None
  | Some new_version =>
      install_status <-
        (if match installed_version with
            | Some v => IsHigherThan v new_version
            | None => false
            end
         then
           WriteInstallerResult system_level HIGHER_VERSION_EXISTS
             (IDS_INSTALL_HIGHER_VERSION_BASE K) None ;;;
           mret HIGHER_VERSION_EXISTS
         else
           InstallChrome_install cmd_line installed_version prefs system_level
             temp_path new_version) ;;
      LaunchUserExperiment install_status (Some new_version) system_level ;;;
      mret (Some install_status)
  end.

(** Lines 351-380: delete the temporary files, schedule them for deletion
    at reboot when a delete failed, report the differential-install status
    and return [install_status]. *)
Definition InstallChrome_cleanup (cmd_line : CommandLine X)
    (system_level : bool) (temp_path : string) (incremental_install : bool)
    (install_status : InstallStatus) : M W InstallStatus :=
  cleanup_success <- Delete temp_path true ;;
  cleanup_success <-
    (if HasSwitch X cmd_line (kInstallerData K) then
       let prefs_path := GetSwitchValue X cmd_line (kInstallerData K) in
       d <- Delete prefs_path true ;;
       mret (d && cleanup_success)
     else mret cleanup_success) ;;
  (if negb cleanup_success then
     ScheduleDirectoryForDeletion temp_path ;;;
     (if HasSwitch X cmd_line (kInstallerData K) then
        let prefs_path := GetSwitchValue X cmd_line (kInstallerData K) in
        ScheduleDirectoryForDeletion prefs_path
      else mret tt)
   else mret tt) ;;;
  UpdateDiffInstallStatus system_level incremental_install install_status ;;;
  mret install_status.

(** Lines 253-349: unpack the archive and decide the status of the run.
    Returns [install_status] and [incremental_install] as they stand when
    the cleanup starts; no status when the run stopped at line 347. *)
Definition InstallChrome_decide (cmd_line : CommandLine X)
    (installed_version : option Version) (prefs : option (DictionaryValue X))
    (system_level : bool) (archive temp_path : string)
  : M W (option InstallStatus * bool) :=
  let unpack_path := temp_path // kInstallSourceDir K in
  '(ret, incremental_install) <-
    UnPackArchive archive system_level installed_version temp_path
      unpack_path false ;;
  install_status <-
    (if negb (ret =? 0) then
       WriteInstallerResult system_level UNCOMPRESSION_FAILED
         (IDS_INSTALL_UNCOMPRESSION_FAILED_BASE K) None ;;;
       mret (Some UNCOMPRESSION_FAILED)
     else
       InstallChrome_unpacked cmd_line installed_version prefs system_level
         temp_path unpack_path) ;;
  mret (install_status, incremental_install).

(** Lines 253-380: everything after the temporary directory exists.  A
    run that stopped at line 347 does not reach the cleanup. *)
Definition InstallChrome_in_temp (cmd_line : CommandLine X)
    (installed_version : option Version) (prefs : option (DictionaryValue X))
    (system_level : bool) (archive temp_path : string)
  : M W (option InstallStatus) :=
  '(decided, incremental_install) <-
    InstallChrome_decide cmd_line installed_version prefs system_level
      archive temp_path ;;
  match decided with
  | None => mret None
  | Some install_status =>
      install_status <-
        InstallChrome_cleanup cmd_line system_level temp_path
          incremental_install install_status ;;
      mret (Some install_status)
  end.

(** The archive to install: next to setup.exe unless --install-archive
    names another one (lines 227-237). *)
Definition install_archive (cmd_line : CommandLine X) : string :=
  let archive :=
    GetDirectoryFromPath X (program X cmd_line) // kChromeCompressedArchive K in
  if HasSwitch X cmd_line (kInstallArchive K)
  then GetSwitchValue X cmd_line (kInstallArchive K)
  else archive.

(** [InstallChrome] returns the status of the run, or [None] for a run
    that stopped at line 347. *)
Definition InstallChrome (cmd_line : CommandLine X)
    (installed_version : option Version) (prefs : option (DictionaryValue X))
  : M W (option InstallStatus) :=
  let system_level :=
    GetDistroBooleanPreference X prefs (kSystemLevel K) false in
  let install_status := UNKNOWN_STATUS in
  '(ok, install_status) <-
    CheckPreInstallConditions installed_version system_level install_status ;;
  if negb ok then mret (Some install_status)
  else
    let archive := install_archive cmd_line in
    created <- CreateNewTempDirectory "chrome_" ;;
    match created with
    | None =>
        WriteInstallerResult system_level TEMP_DIR_FAILED
          (IDS_INSTALL_TEMP_DIR_FAILED_BASE K) None ;;;
        mret (Some TEMP_DIR_FAILED)
    | Some temp_path =>
        InstallChrome_in_temp cmd_line installed_version prefs system_level
          archive temp_path
    end.

End Setup.

Arguments UnPackArchive {W} X K.
Arguments RenameChromeExecutables_run {W} X K.
Arguments RenameChromeExecutables {W} X K.
Arguments CheckPreInstallConditions {W} X K.
Arguments installer_result {W} X K.
Arguments post_install {W} X K.
Arguments InstallChrome_install {W} X K.
Arguments InstallChrome_unpacked {W} X K.
Arguments InstallChrome_cleanup {W} X K.
Arguments InstallChrome_decide {W} X K.
Arguments InstallChrome_in_temp {W} X K.
Arguments install_archive {W} X K.
Arguments InstallChrome {W} X K.

(** ** A concrete machine

    A scripted world for running the model: every collaborator answers from
    a [Scenario], the world itself carries nothing. *)
Module Machine.

Record Scenario : Set := {
  sc_unpack : string -> Z * string;
  sc_exists : string -> bool;
  sc_patch : Z;
  sc_temp : option string;
  sc_delete : string -> bool;
  sc_do : bool;
  sc_chrome_version : bool -> option Version;
  sc_version_from_dir : option Version;
  sc_install : InstallStatus;
  sc_install_path : bool -> string
}.

(** The preferences: the boolean entries of the distribution dictionary,
    by name. *)
Definition Preferences : Set := list (string * bool).

Fixpoint lookup {A : Set} (name : string) (l : list (string * A)) : option A :=
  match l with
  | [] => None
  | (k, v) :: l' => if String.eqb k name then Some v else lookup name l'
  end.

(** [value] is overwritten only when the preference is present. *)
Definition distro_boolean (prefs : option Preferences) (name : string)
    (value : bool) : bool :=
  match prefs with
  | None => value
  | Some d => match lookup name d with Some b => b | None => value end
  end.

(** The command line: the program path and the switches with their
    values. *)
Record Command : Set := {
  cmd_program : string;
  cmd_switches : list (string * string)
}.

Definition has_switch (c : Command) (name : string) : bool :=
  match lookup name (cmd_switches c) with Some _ => true | None => false end.

Definition switch_value (c : Command) (name : string) : string :=
  match lookup name (cmd_switches c) with Some v => v | None => "" end.

Definition decimal (n : N) : string :=
  DecimalString.NilZero.string_of_uint (N.to_uint n).

Definition machine (s : Scenario) : Externals unit := {|
  DictionaryValue := Preferences;
  CommandLine := Command;
  program := cmd_program;
  HasSwitch := has_switch;
  GetSwitchValue := switch_value;
  GetDistroBooleanPreference := distro_boolean;
  ext_UnPackArchive := fun archive _ w => (sc_unpack s archive, w);
  ext_PathExists := fun p w => (sc_exists s p, w);
  ext_ApplyDiffPatch := fun _ _ _ w => (sc_patch s, w);
  ext_CreateNewTempDirectory := fun _ w => (sc_temp s, w);
  ext_Delete := fun p _ w => (sc_delete s p, w);
  ext_Do := fun _ w => (sc_do s, w);
  ext_Rollback := fun _ w => w;
  ext_GetChromeVersion := fun b w => (sc_chrome_version s b, w);
  ext_WriteInstallerResult := fun _ _ _ _ w => w;
  ext_LaunchApp := fun _ _ _ w => w;
  ext_GetVersionFromDir := fun _ w => (sc_version_from_dir s, w);
  ext_InstallOrUpdateChrome := fun _ _ _ _ _ _ _ w => (sc_install s, w);
  ext_LaunchChrome := fun _ w => w;
  ext_RemoveLegacyRegistryKeys := fun w => w;
  ext_LaunchUserExperiment := fun _ _ _ w => w;
  ext_ScheduleDirectoryForDeletion := fun _ w => w;
  ext_UpdateDiffInstallStatus := fun _ _ _ w => w;
  GetChromeInstallPath := sc_install_path s;
  AppendToPath := fun a b => (a ++ "\" ++ b)%string;
  GetDirectoryFromPath := fun _ => "C:\Downloads";
  GetString := fun v => String.concat "." (map decimal v)
|}.

(** A numbering of [InstallStatus] that agrees with the compile-time
    assertion of [CheckPreInstallConditions],
    [SXS_OPTION_NOT_SUPPORTED == 33]. *)
Definition numbering (s : InstallStatus) : Z :=
  match s with
  | FIRST_INSTALL_SUCCESS => 0
  | NEW_VERSION_UPDATED => 2
  | EXISTING_VERSION_LAUNCHED => 3
  | HIGHER_VERSION_EXISTS => 4
  | USER_LEVEL_INSTALL_EXISTS => 5
  | SYSTEM_LEVEL_INSTALL_EXISTS => 6
  | INSTALL_FAILED => 7
  | SETUP_PATCH_FAILED => 8
  | OS_NOT_SUPPORTED => 9
  | OS_ERROR => 10
  | TEMP_DIR_FAILED => 11
  | UNCOMPRESSION_FAILED => 12
  | INVALID_ARCHIVE => 13
  | INSUFFICIENT_RIGHTS => 14
  | CHROME_NOT_INSTALLED => 15
  | UNKNOWN_STATUS => 22
  | RENAME_SUCCESSFUL => 23
  | RENAME_FAILED => 24
  | EULA_REJECTED => 25
  | EULA_ACCEPTED => 26
  | EULA_ACCEPTED_OPT_IN => 27
  | INSTALL_DIR_IN_USE => 28
  | UNINSTALL_REQUIRES_REBOOT => 29
  | IN_USE_UPDATED => 30
  | SAME_VERSION_REPAIR_FAILED => 31
  | REENTRY_SYS_UPDATE => 32
  | SXS_OPTION_NOT_SUPPORTED => 33
  end.

Definition constants : Constants := {|
  kChromeArchive := "chrome.7z";
  kChromeCompressedArchive := "chrome.packed.7z";
  kChromeExe := "chrome.exe";
  kChromeOldExe := "old_chrome.exe";
  kChromeNewExe := "new_chrome.exe";
  kInstallerDir := "Installer";
  kInstallSourceDir := "source";
  kInstallSourceChromeDir := "Chrome-bin";
  kRegOldVersionField := "opv";
  kRegRenameCmdField := "cmd";
  GetVersionKey := "Software\Chromium";
  kFirstRun := "first-run";
  kInstallArchive := "install-archive";
  kInstallerData := "installerdata";
  kSystemLevel := "system_level";
  kDoNotRegisterForUpdateLaunch := "do_not_register_for_update_launch";
  kDoNotLaunchChrome := "do_not_launch_chrome";
  IDS_INSTALL_OS_ERROR_BASE := 1601;
  IDS_INSTALL_USER_LEVEL_EXISTS_BASE := 1602;
  IDS_INSTALL_SYSTEM_LEVEL_EXISTS_BASE := 1603;
  IDS_INSTALL_DIR_IN_USE_BASE := 1604;
  IDS_INSTALL_TEMP_DIR_FAILED_BASE := 1605;
  IDS_INSTALL_UNCOMPRESSION_FAILED_BASE := 1606;
  IDS_INSTALL_INVALID_ARCHIVE_BASE := 1607;
  IDS_INSTALL_HIGHER_VERSION_BASE := 1608;
  IDS_INSTALL_FAILED_BASE := 1609;
  IDS_SAME_VERSION_REPAIR_FAILED_BASE := 1610;
  status_code := numbering
|}.

(** A healthy machine: a full archive unpacks, nothing is installed yet,
    every file operation succeeds. *)
Definition healthy : Scenario := {|
  sc_unpack := fun _ => (0, "C:\Temp\chrome_1\chrome.7z");
  sc_exists := fun p => String.eqb p "C:\Temp\chrome_1\chrome.7z";
  sc_patch := 0;
  sc_temp := Some "C:\Temp\chrome_1";
  sc_delete := fun _ => true;
  sc_do := true;
  sc_chrome_version := fun _ => None;
  sc_version_from_dir := Some [10; 0]%N;
  sc_install := FIRST_INSTALL_SUCCESS;
  sc_install_path := fun b => if b then "C:\Program Files\Chromium\Application"
                              else "C:\Users\u\Chromium\Application"
|}.

(** The download unpacks to a patch: no chrome.7z appears. *)
Definition patch_only : Scenario := {|
  sc_unpack := fun _ => (0, "C:\Temp\chrome_1\chrome_patch.diff");
  sc_exists := fun _ => false;
  sc_patch := 0;
  sc_temp := sc_temp healthy;
  sc_delete := fun _ => true;
  sc_do := true;
  sc_chrome_version := fun _ => None;
  sc_version_from_dir := sc_version_from_dir healthy;
  sc_install := FIRST_INSTALL_SUCCESS;
  sc_install_path := sc_install_path healthy
|}.

(** The unpacked payload holds no version directory. *)
Definition no_version : Scenario := {|
  sc_unpack := sc_unpack healthy;
  sc_exists := sc_exists healthy;
  sc_patch := 0;
  sc_temp := sc_temp healthy;
  sc_delete := fun _ => true;
  sc_do := true;
  sc_chrome_version := fun _ => None;
  sc_version_from_dir := None;
  sc_install := FIRST_INSTALL_SUCCESS;
  sc_install_path := sc_install_path healthy
|}.

(** Nothing can be deleted; the install itself succeeds. *)
Definition locked_temp : Scenario := {|
  sc_unpack := sc_unpack healthy;
  sc_exists := sc_exists healthy;
  sc_patch := 0;
  sc_temp := sc_temp healthy;
  sc_delete := fun _ => false;
  sc_do := true;
  sc_chrome_version := fun _ => None;
  sc_version_from_dir := sc_version_from_dir healthy;
  sc_install := FIRST_INSTALL_SUCCESS;
  sc_install_path := sc_install_path healthy
|}.

(** An update of an installed Chrome: [InstallOrUpdateChrome] answers
    [NEW_VERSION_UPDATED]. *)
Definition updating : Scenario := {|
  sc_unpack := sc_unpack healthy;
  sc_exists := sc_exists healthy;
  sc_patch := 0;
  sc_temp := sc_temp healthy;
  sc_delete := fun _ => true;
  sc_do := true;
  sc_chrome_version := fun _ => None;
  sc_version_from_dir := sc_version_from_dir healthy;
  sc_install := NEW_VERSION_UPDATED;
  sc_install_path := sc_install_path healthy
|}.

Definition setup_exe : Command :=
  {| cmd_program := "C:\Downloads\setup.exe"; cmd_switches := [] |}.

(** The temporary directory cannot be created. *)
Definition no_temp_dir : Scenario := {|
  sc_unpack := sc_unpack healthy;
  sc_exists := sc_exists healthy;
  sc_patch := 0;
  sc_temp := None;
  sc_delete := fun _ => true;
  sc_do := true;
  sc_chrome_version := fun _ => None;
  sc_version_from_dir := sc_version_from_dir healthy;
  sc_install := FIRST_INSTALL_SUCCESS;
  sc_install_path := sc_install_path healthy
|}.

(** A system-level Chrome 9.0 is installed; [system_path] is what
    [GetChromeInstallPath(true)] answers. *)
Definition system_chrome (system_path : string) : Scenario := {|
  sc_unpack := sc_unpack healthy;
  sc_exists := sc_exists healthy;
  sc_patch := 0;
  sc_temp := sc_temp healthy;
  sc_delete := fun _ => true;
  sc_do := true;
  sc_chrome_version := fun b => if b then Some [9; 0]%N else None;
  sc_version_from_dir := sc_version_from_dir healthy;
  sc_install := FIRST_INSTALL_SUCCESS;
  sc_install_path := fun b => if b then system_path
                              else "C:\Users\u\Chromium\Application"
|}.

(** A directory is left over at the user-level install path; [deletable]
    says whether it can be deleted.  [unpack_ret] is what unpacking the
    downloaded archive returns. *)
Definition stale_dir (deletable : bool) (unpack_ret : Z) : Scenario := {|
  sc_unpack := fun _ => (unpack_ret, "C:\Temp\chrome_1\chrome.7z");
  sc_exists := fun p =>
    String.eqb p "C:\Users\u\Chromium\Application"
    || String.eqb p "C:\Temp\chrome_1\chrome.7z";
  sc_patch := 0;
  sc_temp := sc_temp healthy;
  sc_delete := fun p =>
    if String.eqb p "C:\Users\u\Chromium\Application" then deletable
    else true;
  sc_do := true;
  sc_chrome_version := fun _ => None;
  sc_version_from_dir := sc_version_from_dir healthy;
  sc_install := FIRST_INSTALL_SUCCESS;
  sc_install_path := sc_install_path healthy
|}.

(** Executing the rename work list fails. *)
Definition rename_fails : Scenario := {|
  sc_unpack := sc_unpack healthy;
  sc_exists := sc_exists healthy;
  sc_patch := 0;
  sc_temp := sc_temp healthy;
  sc_delete := fun _ => true;
  sc_do := false;
  sc_chrome_version := fun _ => None;
  sc_version_from_dir := sc_version_from_dir healthy;
  sc_install := FIRST_INSTALL_SUCCESS;
  sc_install_path := sc_install_path healthy
|}.

(** A command line whose --installerdata names the user-level install
    directory. *)
Definition setup_exe_data_at_install_path : Command :=
  {| cmd_program := "C:\Downloads\setup.exe";
     cmd_switches := [("installerdata", "C:\Users\u\Chromium\Application")]
  |}.

End Machine.

(** ** Vocabulary of the properties *)

Section Vocabulary.

Context {W : Type}.
Variable X : Externals W.
Variable K : Constants.

(** The five items of the rename transaction, in order. *)
Definition rename_items (system_install : bool) (temp_path : string)
  : WorkItemList :=
  let chrome_path := GetChromeInstallPath X system_install in
  let chrome_exe := AppendToPath X chrome_path (kChromeExe K) in
  let chrome_old_exe := AppendToPath X chrome_path (kChromeOldExe K) in
  let chrome_new_exe := AppendToPath X chrome_path (kChromeNewExe K) in
  let reg_root :=
    if system_install then HKEY_LOCAL_MACHINE else HKEY_CURRENT_USER in
  [ DeleteTreeWorkItem chrome_old_exe "";
    CopyTreeWorkItem chrome_new_exe chrome_exe temp_path IF_DIFFERENT "";
    DeleteRegValueWorkItem reg_root (GetVersionKey K) (kRegOldVersionField K)
      true;
    DeleteTreeWorkItem chrome_new_exe "";
    DeleteRegValueWorkItem reg_root (GetVersionKey K) (kRegRenameCmdField K)
      true ].

(** The command line that launches the installed chrome.exe of a scope for
    its first run. *)
Definition first_run_command (system_install : bool) : string :=
  (dquote
   ++ AppendToPath X (GetChromeInstallPath X system_install) (kChromeExe K)
   ++ dquote ++ " --" ++ kFirstRun K)%string.

(** What a run may do without touching the install location: read, report,
    and write or delete inside its temporary directory [temp_path] and at
    the preferences file named by --installer-data. *)
Definition confined_to_temp (cmd_line : CommandLine X) (temp_path : string)
    (e : Event) : bool :=
  let scratch p :=
    String.eqb p temp_path
    || (HasSwitch X cmd_line (kInstallerData K)
        && String.eqb p (GetSwitchValue X cmd_line (kInstallerData K))) in
  match e with
  | EvLzmaUnPackArchive _ output_dir _ _ =>
      String.eqb output_dir temp_path
      || String.eqb output_dir (AppendToPath X temp_path (kInstallSourceDir K))
  | EvApplyDiffPatch _ _ dest _ =>
      String.eqb dest (AppendToPath X temp_path (kChromeArchive K))
  | EvDelete p _ _ => scratch p
  | EvScheduleDirectoryForDeletion p => scratch p
  | EvInstallOrUpdateChrome _ _ _ _ _ _ _ => false
  | EvDo _ _ => false
  | EvRollback _ => false
  | EvLaunchApp _ _ _ => false
  | EvLaunchChrome _ => false
  | EvRemoveLegacyRegistryKeys => false
  | EvPathExists _ _ => true
  | EvCreateNewTempDirectory _ _ => true
  | EvGetChromeVersion _ _ => true
  | EvWriteInstallerResult _ _ _ _ => true
  | EvGetVersionFromDir _ _ => true
  | EvLaunchUserExperiment _ _ _ => true
  | EvUpdateDiffInstallStatus _ _ _ => true
  end.

(** The sub-step of [UnPackArchive] recorded by a call failed: a
    decompression or a patch returned non-zero, or chrome.7z was not found
    while no version is installed (the function then returns the code of
    [CHROME_NOT_INSTALLED]). *)
Definition failed_step (installed_version : option Version) (e : Event)
  : Prop :=
  match e with
  | EvLzmaUnPackArchive _ _ ret _ => ret <> 0
  | EvApplyDiffPatch _ _ _ ret => ret <> 0
  | EvPathExists _ found =>
      found = false /\ installed_version = None
      /\ to_DWORD (status_code K CHROME_NOT_INSTALLED) <> 0
  | _ => False
  end.

End Vocabulary.

Arguments rename_items {W} X K.
Arguments first_run_command {W} X K.
Arguments confined_to_temp {W} X K.

(** Classes of calls. *)
Definition is_mutate (e : Event) : bool :=
  match e with EvInstallOrUpdateChrome _ _ _ _ _ _ _ => true | _ => false end.

Definition is_version_probe (e : Event) : bool :=
  match e with EvGetVersionFromDir _ _ => true | _ => false end.

Definition is_write_result (e : Event) : bool :=
  match e with EvWriteInstallerResult _ _ _ _ => true | _ => false end.

Definition is_launch (e : Event) : bool :=
  match e with
  | EvLaunchApp _ _ _ | EvLaunchChrome _ => true
  | _ => false
  end.

Definition is_patch (e : Event) : bool :=
  match e with EvApplyDiffPatch _ _ _ _ => true | _ => false end.

Definition count (p : Event -> bool) (l : list Event) : nat :=
  List.length (filter p l).

Definition none (p : Event -> bool) (l : list Event) : bool :=
  forallb (fun e => negb (p e)) l.

(** The calls each phase of a run can make. *)
Definition preflight_event (e : Event) : bool :=
  match e with
  | EvGetChromeVersion _ _ | EvPathExists _ _ | EvDelete _ _ _
  | EvWriteInstallerResult _ _ _ _ | EvLaunchApp _ _ _ => true
  | _ => false
  end.

Definition unpack_event (e : Event) : bool :=
  match e with
  | EvLzmaUnPackArchive _ _ _ _ | EvPathExists _ _ | EvApplyDiffPatch _ _ _ _ =>
      true
  | _ => false
  end.

Definition cleanup_event (e : Event) : bool :=
  match e with
  | EvDelete _ _ _ | EvScheduleDirectoryForDeletion _
  | EvUpdateDiffInstallStatus _ _ _ => true
  | _ => false
  end.

Section Shapes.

Context {W : Type}.
Variable X : Externals W.
Variable K : Constants.

(** The shapes of lines 253-349, by the status they decide: the calls of
    [UnPackArchive] first, then the calls of the branch taken.  The run
    that found no version in the payload decides no status: it stops at
    line 347, after the [INVALID_ARCHIVE] result was written. *)
Inductive Decided (cmd_line : CommandLine X) (installed_version : option Version)
    (prefs : option (DictionaryValue X)) (system_level : bool)
    (temp_path : string) : option InstallStatus -> list Event -> Prop :=
  | Decided_unpack_failed :
      forall unpacking,
        forallb unpack_event unpacking = true ->
        forallb (confined_to_temp X K cmd_line temp_path) unpacking = true ->
        Decided cmd_line installed_version prefs system_level temp_path
          (Some UNCOMPRESSION_FAILED)
          (unpacking ++
           [EvWriteInstallerResult system_level UNCOMPRESSION_FAILED
              (IDS_INSTALL_UNCOMPRESSION_FAILED_BASE K) None])
  | Decided_invalid_archive :
      forall unpacking src_path,
        forallb unpack_event unpacking = true ->
        forallb (confined_to_temp X K cmd_line temp_path) unpacking = true ->
        Decided cmd_line installed_version prefs system_level temp_path
          None
          (unpacking ++
           [EvGetVersionFromDir src_path None;
            EvWriteInstallerResult system_level INVALID_ARCHIVE
              (IDS_INSTALL_INVALID_ARCHIVE_BASE K) None])
  | Decided_higher_version :
      forall unpacking src_path v new_version,
        forallb unpack_event unpacking = true ->
        forallb (confined_to_temp X K cmd_line temp_path) unpacking = true ->
        installed_version = Some v ->
        IsHigherThan v new_version = true ->
        Decided cmd_line installed_version prefs system_level temp_path
          (Some HIGHER_VERSION_EXISTS)
          (unpacking ++
           [EvGetVersionFromDir src_path (Some new_version);
            EvWriteInstallerResult system_level HIGHER_VERSION_EXISTS
              (IDS_INSTALL_HIGHER_VERSION_BASE K) None;
            EvLaunchUserExperiment HIGHER_VERSION_EXISTS (Some new_version)
              system_level])
  | Decided_install :
      forall unpacking src_path new_version returned status msg chrome_exe
             launch w,
        forallb unpack_event unpacking = true ->
        forallb (confined_to_temp X K cmd_line temp_path) unpacking = true ->
        (forall v, installed_version = Some v ->
                   IsHigherThan v new_version = false) ->
        installer_result X K system_level returned
        = (status, msg, chrome_exe) ->
        Decided cmd_line installed_version prefs system_level temp_path
          (Some status)
          (unpacking ++
           [EvGetVersionFromDir src_path (Some new_version);
            EvInstallOrUpdateChrome (program X cmd_line)
              (AppendToPath X temp_path (kChromeArchive K)) temp_path
              (GetSwitchValue X cmd_line (kInstallerData K)) new_version
              installed_version returned;
            EvWriteInstallerResult system_level status msg launch]
           ++ events (post_install X K prefs system_level status w)
           ++ [EvLaunchUserExperiment status (Some new_version)
                 system_level]).

End Shapes.

(** ** The rest of setup_main.cc

    [UninstallChrome], [ShowEULADialog], [HandleNonInstallCmdLineOptions],
    [ShowRebootDialog], [AutoCom] and [wWinMain] call further
    collaborators.  Their calls are the [SetupEvent]s; a call of the first
    part of the file is carried as [Core]. *)

(** [installer::EulaHTMLDialog::Outcome]: the two enumerators this file
    names, and [ACCEPTED] for every other one. *)
Inductive Outcome : Set :=
  | REJECTED
  | ACCEPTED_OPT_IN
  | ACCEPTED.

Inductive SetupEvent : Set :=
  | Core (e : Event)
  | EvSetupUninstallChrome (exe_path : string)
                           (system_uninstall remove_all force_uninstall : bool)
                           (cmd_params : string) (result : InstallStatus)
  | EvGetLocalizedEulaResource (result : string)
  | EvShowModal (eula_path : string) (outcome : Outcome)
  | EvSetEULAConsent (consented : bool)
  | EvRegisterChromeBrowser (chrome_exe unique_suffix : string)
                            (elevate_if_not_admin : bool) (result : bool)
  | EvDeleteChromeRegistrationKeys (root : HKEY) (browser_entry_suffix : string)
                                   (exit_code : InstallStatus)
  | EvInactiveUserToastExperiment (flavor : Z) (system_install : bool)
  | EvInitInstallerLogging
  | EvGetInstallPreferences (found : bool)
  | EvSetMinLogLevel
  | EvIsOSSupported (result : bool)
  | EvCoInitializeEx (hresult : Z)
  | EvCoUninitialize
  | EvIsChromeSxSProcess (result : bool)
  | EvIsUserAnAdmin (result : bool)
  | EvGetWinVersion (version : Z)
  | EvExecuteExeAsAdmin (exe params : string) (exit_code : Z)
  | EvIsChromeFrameProcess (result : bool)
  | EvIsMSIProcess (system_install : bool) (result : bool)
  | EvMessageBoxW (text caption : string)
  | EvOpenProcessToken (result : bool)
  | EvLookupPrivilegeValue
  | EvAdjustTokenPrivileges
  | EvGetLastError (code : Z)
  | EvRestartDialog
  | EvCloseHandle
  | EvAtExit.

(** The further collaborators, over the classes of [X]. *)
Record SetupExternals (W : Type) (X : Externals W) : Type := {
  ext_SetupUninstallChrome :
    string -> bool -> bool -> bool -> CommandLine X -> string ->
    W -> InstallStatus * W;
  ext_GetLocalizedEulaResource : W -> string * W;
  ext_ShowModal : string -> W -> Outcome * W;
  ext_SetEULAConsent : bool -> W -> W;
  ext_RegisterChromeBrowser : string -> string -> bool -> W -> bool * W;
  ext_DeleteChromeRegistrationKeys :
    HKEY -> string -> InstallStatus -> W -> InstallStatus * W;
  ext_InactiveUserToastExperiment : Z -> bool -> W -> W;
  ext_InitInstallerLogging : CommandLine X -> W -> W;
  ext_GetInstallPreferences :
    CommandLine X -> W -> option (DictionaryValue X) * W;
  ext_SetMinLogLevel : W -> W;
  ext_IsOSSupported : W -> bool * W;
  ext_CoInitializeEx : W -> Z * W;
  ext_CoUninitialize : W -> W;
  ext_IsChromeSxSProcess : W -> bool * W;
  ext_IsUserAnAdmin : W -> bool * W;
  ext_GetWinVersion : W -> Z * W;
  ext_ExecuteExeAsAdmin : string -> string -> Z -> W -> Z * W;
  ext_IsChromeFrameProcess : W -> bool * W;
  ext_IsMSIProcess : bool -> W -> bool * W;
  ext_MessageBoxW : string -> string -> W -> W;
  ext_OpenProcessToken : W -> bool * W;
  ext_LookupPrivilegeValue : W -> W;
  ext_AdjustTokenPrivileges : W -> W;
  ext_GetLastError : W -> Z * W;
  ext_RestartDialog : W -> W;
  ext_CloseHandle : W -> W;
  ext_AtExit : W -> W;
  (* pure *)
  GetInstallReturnCode : InstallStatus -> Z;
  StringToInt : string -> Z;
  AppendSwitch : CommandLine X -> string -> CommandLine X;
  GetDistroBooleanPreference_found :
    option (DictionaryValue X) -> string -> bool;
  GetLocalizedString : Z -> string;
  GetApplicationName : string;
  (* what a [FilePath] holds after [CreateNewTempDirectory] failed on it *)
  failed_temp_path : string
}.

Arguments ext_SetupUninstallChrome {W X}.
Arguments ext_GetLocalizedEulaResource {W X}.
Arguments ext_ShowModal {W X}.
Arguments ext_SetEULAConsent {W X}.
Arguments ext_RegisterChromeBrowser {W X}.
Arguments ext_DeleteChromeRegistrationKeys {W X}.
Arguments ext_InactiveUserToastExperiment {W X}.
Arguments ext_InitInstallerLogging {W X}.
Arguments ext_GetInstallPreferences {W X}.
Arguments ext_SetMinLogLevel {W X}.
Arguments ext_IsOSSupported {W X}.
Arguments ext_CoInitializeEx {W X}.
Arguments ext_CoUninitialize {W X}.
Arguments ext_IsChromeSxSProcess {W X}.
Arguments ext_IsUserAnAdmin {W X}.
Arguments ext_GetWinVersion {W X}.
Arguments ext_ExecuteExeAsAdmin {W X}.
Arguments ext_IsChromeFrameProcess {W X}.
Arguments ext_IsMSIProcess {W X}.
Arguments ext_MessageBoxW {W X}.
Arguments ext_OpenProcessToken {W X}.
Arguments ext_LookupPrivilegeValue {W X}.
Arguments ext_AdjustTokenPrivileges {W X}.
Arguments ext_GetLastError {W X}.
Arguments ext_RestartDialog {W X}.
Arguments ext_CloseHandle {W X}.
Arguments ext_AtExit {W X}.
Arguments GetInstallReturnCode {W X}.
Arguments StringToInt {W X}.
Arguments AppendSwitch {W X}.
Arguments GetDistroBooleanPreference_found {W X}.
Arguments GetLocalizedString {W X}.
Arguments GetApplicationName {W X}.
Arguments failed_temp_path {W X}.

(** The constants of the second part of the file: switch names
    ([installer_util::switches]), a preference name, string resource ids
    and [win_util::WINVERSION_VISTA]. *)
Record SetupConstants : Set := {
  kForceUninstall : string;
  kDoNotRemoveSharedItems : string;
  kUpdateSetupExe : string;
  kNewSetupExe : string;
  kShowEula : string;
  kRegisterChromeBrowser : string;
  kRegisterChromeBrowserSuffix : string;
  kRenameChromeExe : string;
  kRemoveChromeRegistration : string;
  kInactiveUserToast : string;
  kSystemLevelToast : string;
  kChromeFrame : string;
  kDoNotCreateShortcuts : string;
  switches_kDoNotLaunchChrome : string;
  switches_kDoNotRegisterForUpdateLaunch : string;
  kMakeChromeDefault : string;
  kRunAsAdmin : string;
  kUninstall : string;
  kVerboseLogging : string;
  IDS_UNINSTALL_FAILED_BASE : Z;
  IDS_SETUP_PATCH_FAILED_BASE : Z;
  IDS_INSTALL_OS_NOT_SUPPORTED_BASE : Z;
  IDS_INSTALL_INSUFFICIENT_RIGHTS_BASE : Z;
  IDS_UNINSTALL_COMPLETE_BASE : Z;
  WINVERSION_VISTA : Z
}.

(** Windows result codes. *)
Definition S_OK : Z := 0.
Definition ERROR_SUCCESS : Z := 0.

(** The monad of calls, over [SetupEvent]. *)
Definition S (W A : Type) : Type := W -> A * W * list SetupEvent.

Definition sret {W A : Type} (a : A) : S W A := fun w => (a, w, []).

Definition sbind {W A B : Type} (m : S W A) (f : A -> S W B) : S W B :=
  fun w =>
    let '(a, w1, e1) := m w in
    let '(b, w2, e2) := f a w1 in
    (b, w2, e1 ++ e2).

Definition scall {W A : Type} (f : W -> A * W) (ev : A -> SetupEvent)
  : S W A :=
  fun w => let (a, w') := f w in (a, w', [ev a]).

Definition scall_ {W : Type} (f : W -> W) (ev : SetupEvent) : S W unit :=
  fun w => (tt, f w, [ev]).

(** A computation of the first part, its calls carried as [Core]. *)
Definition lift {W A : Type} (m : M W A) : S W A :=
  fun w => let '(a, w', e) := m w in (a, w', map Core e).

Definition returned {W A : Type} (r : A * W * list SetupEvent) : A :=
  fst (fst r).
Definition calls {W A : Type} (r : A * W * list SetupEvent)
  : list SetupEvent := snd r.

Declare Scope setup_scope.
Delimit Scope setup_scope with setup.
Notation "x <- m ;; k" := (sbind m (fun x => k))
  (at level 61, m at next level, right associativity) : setup_scope.
Notation "' p <- m ;; k" := (sbind m (fun x => let 'p := x in k))
  (at level 61, p pattern, m at next level, right associativity)
  : setup_scope.
Notation "m ;;; k" := (sbind m (fun _ => k))
  (at level 61, right associativity) : setup_scope.

Section SetupMain.

Context {W : Type}.
Variable X : Externals W.
Variable K : Constants.
Variable Y : SetupExternals W X.
Variable C : SetupConstants.

Local Open Scope setup_scope.

(** An [InstallStatus] converted to [int]. *)
Definition status_int (status : InstallStatus) : Z :=
  wrap_int32 (status_code K status).

(** *** Wrappers *)

Definition installer_setup_UninstallChrome (exe_path : string)
    (system_uninstall remove_all force_uninstall : bool)
    (cmd_line : CommandLine X) (cmd_params : string) : S W InstallStatus :=
  scall (ext_SetupUninstallChrome Y exe_path system_uninstall remove_all
           force_uninstall cmd_line cmd_params)
        (EvSetupUninstallChrome exe_path system_uninstall remove_all
           force_uninstall cmd_params).

Definition GetLocalizedEulaResource : S W string :=
  scall (ext_GetLocalizedEulaResource Y) EvGetLocalizedEulaResource.

Definition ShowModal (eula_path : string) : S W Outcome :=
  scall (ext_ShowModal Y eula_path) (EvShowModal eula_path).

Definition SetEULAConsent (consented : bool) : S W unit :=
  scall_ (ext_SetEULAConsent Y consented) (EvSetEULAConsent consented).

Definition RegisterChromeBrowser (chrome_exe unique_suffix : string)
    (elevate_if_not_admin : bool) : S W bool :=
  scall (ext_RegisterChromeBrowser Y chrome_exe unique_suffix
           elevate_if_not_admin)
        (EvRegisterChromeBrowser chrome_exe unique_suffix
           elevate_if_not_admin).

Definition DeleteChromeRegistrationKeys (root : HKEY)
    (browser_entry_suffix : string) (exit_code : InstallStatus)
  : S W InstallStatus :=
  scall (ext_DeleteChromeRegistrationKeys Y root browser_entry_suffix
           exit_code)
        (EvDeleteChromeRegistrationKeys root browser_entry_suffix).

Definition InactiveUserToastExperiment (flavor : Z) (system_install : bool)
  : S W unit :=
  scall_ (ext_InactiveUserToastExperiment Y flavor system_install)
         (EvInactiveUserToastExperiment flavor system_install).

Definition InitInstallerLogging (cmd_line : CommandLine X) : S W unit :=
  scall_ (ext_InitInstallerLogging Y cmd_line) EvInitInstallerLogging.

Definition GetInstallPreferences (cmd_line : CommandLine X)
  : S W (option (DictionaryValue X)) :=
  scall (ext_GetInstallPreferences Y cmd_line)
        (fun prefs => EvGetInstallPreferences
                        match prefs with Some _ => true | None => false end).

Definition SetMinLogLevel : S W unit :=
  scall_ (ext_SetMinLogLevel Y) EvSetMinLogLevel.

Definition IsOSSupported : S W bool :=
  scall (ext_IsOSSupported Y) EvIsOSSupported.

Definition CoInitializeEx : S W Z :=
  scall (fun w => let (hr, w') := ext_CoInitializeEx Y w in
                  (wrap_int32 hr, w'))
        EvCoInitializeEx.

Definition CoUninitialize : S W unit :=
  scall_ (ext_CoUninitialize Y) EvCoUninitialize.

Definition IsChromeSxSProcess : S W bool :=
  scall (ext_IsChromeSxSProcess Y) EvIsChromeSxSProcess.

Definition IsUserAnAdmin : S W bool :=
  scall (ext_IsUserAnAdmin Y) EvIsUserAnAdmin.

Definition GetWinVersion : S W Z :=
  scall (ext_GetWinVersion Y) EvGetWinVersion.

Definition ExecuteExeAsAdmin (exe params : string) (exit_code : Z) : S W Z :=
  scall (fun w => let (code, w') := ext_ExecuteExeAsAdmin Y exe params
                                      exit_code w in
                  (to_DWORD code, w'))
        (EvExecuteExeAsAdmin exe params).

Definition IsChromeFrameProcess : S W bool :=
  scall (ext_IsChromeFrameProcess Y) EvIsChromeFrameProcess.

Definition IsMSIProcess (system_install : bool) : S W bool :=
  scall (ext_IsMSIProcess Y system_install) (EvIsMSIProcess system_install).

Definition MessageBoxW (text caption : string) : S W unit :=
  scall_ (ext_MessageBoxW Y text caption) (EvMessageBoxW text caption).

Definition OpenProcessToken : S W bool :=
  scall (ext_OpenProcessToken Y) EvOpenProcessToken.

Definition LookupPrivilegeValue : S W unit :=
  scall_ (ext_LookupPrivilegeValue Y) EvLookupPrivilegeValue.

Definition AdjustTokenPrivileges : S W unit :=
  scall_ (ext_AdjustTokenPrivileges Y) EvAdjustTokenPrivileges.

Definition GetLastError : S W Z :=
  scall (ext_GetLastError Y) EvGetLastError.

Definition RestartDialog : S W unit :=
  scall_ (ext_RestartDialog Y) EvRestartDialog.

Definition CloseHandle : S W unit :=
  scall_ (ext_CloseHandle Y) EvCloseHandle.

Definition AtExit : S W unit :=
  scall_ (ext_AtExit Y) EvAtExit.

(** *** UninstallChrome (lines 383-403) *)
Definition UninstallChrome (cmd_line : CommandLine X) (cmd_params : string)
    (version : option Version) (system_install : bool)
  : S W InstallStatus :=
  let force := HasSwitch X cmd_line (kForceUninstall C) in
  if match version with None => true | Some _ => false end && negb force
  then
    lift (WriteInstallerResult X system_install CHROME_NOT_INSTALLED
            (IDS_UNINSTALL_FAILED_BASE C) None) ;;;
    sret CHROME_NOT_INSTALLED
  else
    let remove_all :=
      negb (HasSwitch X cmd_line (kDoNotRemoveSharedItems C)) in
    installer_setup_UninstallChrome (program X cmd_line) system_install
      remove_all force cmd_line cmd_params.

(** *** ShowEULADialog (lines 405-430) *)
Definition ShowEULADialog (inner_frame : string) : S W InstallStatus :=
  eula_path <- GetLocalizedEulaResource ;;
  if empty eula_path then sret EULA_REJECTED
  else
    let eula_path :=
      if negb (empty inner_frame)
      then (eula_path ++ "?innerframe=" ++ inner_frame)%string
      else eula_path in
    outcome <- ShowModal eula_path ;;
    match outcome with
    | REJECTED => sret EULA_REJECTED
    | ACCEPTED_OPT_IN => sret EULA_ACCEPTED_OPT_IN
    | ACCEPTED => sret EULA_ACCEPTED
    end.

(** The suffix given with --register-chrome-browser-suffix, if any (lines
    491-496 and 510-515). *)
Definition registration_suffix (cmd_line : CommandLine X) : string :=
  if HasSwitch X cmd_line (kRegisterChromeBrowserSuffix C)
  then GetSwitchValue X cmd_line (kRegisterChromeBrowserSuffix C)
  else "".

(** Lines 440-472: the --update-setup-exe option. *)
Definition update_setup_exe (cmd_line : CommandLine X)
    (system_install : bool) : S W (option (bool * Z)) :=
  let status := SETUP_PATCH_FAILED in
  created <- lift (CreateNewTempDirectory X "chrome_") ;;
  '(status, temp_path) <-
    match created with
    | None => sret (status, failed_temp_path Y)
    | Some temp_path =>
        let setup_patch := GetSwitchValue X cmd_line (kUpdateSetupExe C) in
        '(ret, uncompressed_patch) <-
          lift (LzmaUtil_UnPackArchive X setup_patch temp_path) ;;
        if ret =? NO_ERROR then
          let old_setup_exe := program X cmd_line in
          let new_setup_exe := GetSwitchValue X cmd_line (kNewSetupExe C) in
          i <- lift (ApplyDiffPatch X old_setup_exe uncompressed_patch
                       new_setup_exe) ;;
          if i =? 0 then sret (NEW_VERSION_UPDATED, temp_path)
          else sret (status, temp_path)
        else sret (status, temp_path)
    end ;;
  let exit_code := wrap_int32 (GetInstallReturnCode Y status) in
  (if negb (exit_code =? 0) then
     lift (WriteInstallerResult X system_install status
             (IDS_SETUP_PATCH_FAILED_BASE C) None)
   else sret tt) ;;;
  lift (Delete X temp_path true) ;;;
  sret (Some (true, exit_code)).

(** *** HandleNonInstallCmdLineOptions (lines 436-540)

    Returns the [bool] result and the value left in the in/out parameter
    [exit_code].  Line 536 applies [operator*] to [installed_version],
    which is null when no version is installed: that run does not go on
    and returns [None], as in [InstallChrome_unpacked]. *)
Definition HandleNonInstallCmdLineOptions (cmd_line : CommandLine X)
    (system_install : bool) (exit_code : Z) : S W (option (bool * Z)) :=
  if HasSwitch X cmd_line (kUpdateSetupExe C) then
    update_setup_exe cmd_line system_install
  else if HasSwitch X cmd_line (kShowEula C) then
    let inner_frame := GetSwitchValue X cmd_line (kShowEula C) in
    status <- ShowEULADialog inner_frame ;;
    let exit_code := status_int status in
    (if negb (status_int EULA_REJECTED =? exit_code)
     then SetEULAConsent true else sret tt) ;;;
    sret (Some (true, exit_code))
  else if HasSwitch X cmd_line (kRegisterChromeBrowser C) then
    let chrome_exe := GetSwitchValue X cmd_line (kRegisterChromeBrowser C) in
    let suffix := registration_suffix cmd_line in
    registered <- RegisterChromeBrowser chrome_exe suffix false ;;
    sret (Some (true, if registered then 1 else 0))
  else if HasSwitch X cmd_line (kRenameChromeExe C) then
    status <- lift (RenameChromeExecutables X K system_install) ;;
    sret (Some (true, status_int status))
  else if HasSwitch X cmd_line (kRemoveChromeRegistration C) then
    let suffix := registration_suffix cmd_line in
    tmp <- DeleteChromeRegistrationKeys HKEY_LOCAL_MACHINE suffix
             UNKNOWN_STATUS ;;
    sret (Some (true, status_int tmp))
  else if HasSwitch X cmd_line (kInactiveUserToast C) then
    let flavor := GetSwitchValue X cmd_line (kInactiveUserToast C) in
    let flavor_int := wrap_int32 (StringToInt Y flavor) in
    InactiveUserToastExperiment flavor_int
      (HasSwitch X cmd_line (kSystemLevelToast C)) ;;;
    sret (Some (true, exit_code))
  else if HasSwitch X cmd_line (kSystemLevelToast C) then
    installed_version <- lift (GetChromeVersion X system_install) ;;
    match installed_version with
    | None => sret None
    | Some v =>
        lift (LaunchUserExperiment X REENTRY_SYS_UPDATE (Some v) true) ;;;
        sret (Some (true, exit_code))
    end
  else sret (Some (false, exit_code)).

(** *** ShowRebootDialog (lines 542-574)

    The [ScopedHandle] closes the token when the function returns. *)
Definition ShowRebootDialog : S W bool :=
  opened <- OpenProcessToken ;;
  if negb opened then sret false
  else
    LookupPrivilegeValue ;;;
    AdjustTokenPrivileges ;;;
    code <- GetLastError ;;
    shown <- (if negb (code =? ERROR_SUCCESS) then sret false
              else RestartDialog ;;; sret true) ;;
    CloseHandle ;;;
    sret shown.

(** *** wWinMain (lines 601-749) *)

(** Lines 697-748: the install or uninstall, and the return code.  A run
    of [InstallChrome] that stopped at line 347 ends the process: nothing
    follows it and nothing is returned. *)
Definition wWinMain_install (cmd_line : CommandLine X) (command_line : string)
    (prefs : option (DictionaryValue X)) (system_install : bool)
  : S W (option Z) :=
  installed_version <- lift (GetChromeVersion X system_install) ;;
  decided <-
    (if HasSwitch X cmd_line (kUninstall C) then
       status <- UninstallChrome cmd_line command_line installed_version
                   system_install ;;
       sret (Some status)
     else lift (InstallChrome X K cmd_line installed_version prefs)) ;;
  match decided with
  | None => sret None
  | Some install_status =>
      frame <- IsChromeFrameProcess ;;
      (if frame && negb (HasSwitch X cmd_line (kForceUninstall C)) then
         if status_eqb install_status UNINSTALL_REQUIRES_REBOOT then
           ShowRebootDialog ;;; sret tt
         else if HasSwitch X cmd_line (kUninstall C) then
           MessageBoxW (GetLocalizedString Y (IDS_UNINSTALL_COMPLETE_BASE C))
             (GetApplicationName Y)
         else sret tt
       else sret tt) ;;;
      msi <- IsMSIProcess system_install ;;
      let return_code :=
        if negb (msi && HasSwitch X cmd_line (kUninstall C))
        then wrap_int32 (GetInstallReturnCode Y install_status)
        else 0 in
      sret (Some return_code)
  end.

(** The options that do not work with a side-by-side install (lines
    653-665). *)
Definition sxs_unsupported (cmd_line : CommandLine X) (system_install : bool)
  : bool :=
  system_install
  || HasSwitch X cmd_line (kForceUninstall C)
  || HasSwitch X cmd_line (kMakeChromeDefault C)
  || HasSwitch X cmd_line (kRegisterChromeBrowser C)
  || HasSwitch X cmd_line (kRemoveChromeRegistration C)
  || HasSwitch X cmd_line (kInactiveUserToast C)
  || HasSwitch X cmd_line (kSystemLevelToast C).

(** Lines 651-748: what runs while COM is initialized; [None] when the
    process stopped at line 347 or 536. *)
Definition wWinMain_with_com (cmd_line : CommandLine X)
    (command_line : string) (prefs : option (DictionaryValue X))
    (system_install : bool) : S W (option Z) :=
  sxs <- IsChromeSxSProcess ;;
  if sxs && sxs_unsupported cmd_line system_install then
    sret (Some (status_int SXS_OPTION_NOT_SUPPORTED))
  else
    let exit_code := 0 in
    options <-
      HandleNonInstallCmdLineOptions cmd_line system_install exit_code ;;
    match options with
    | None => sret None
    | Some (handled, exit_code) =>
        if handled then sret (Some exit_code)
        else
          not_admin <- (if system_install
                        then admin <- IsUserAnAdmin ;; sret (negb admin)
                        else sret false) ;;
          if not_admin then
            version <- GetWinVersion ;;
            if (WINVERSION_VISTA C <=? version)
               && negb (HasSwitch X cmd_line (kRunAsAdmin C)) then
              let exe := program X cmd_line in
              let params := (command_line ++ " --" ++ kRunAsAdmin C)%string in
              let exit_code := to_DWORD (status_code K UNKNOWN_STATUS) in
              exit_code <- ExecuteExeAsAdmin exe params exit_code ;;
              sret (Some (wrap_int32 exit_code))
            else
              lift (WriteInstallerResult X system_install INSUFFICIENT_RIGHTS
                      (IDS_INSTALL_INSUFFICIENT_RIGHTS_BASE C) None) ;;;
              sret (Some (status_int INSUFFICIENT_RIGHTS))
          else wWinMain_install cmd_line command_line prefs system_install
    end.

(** The command line after lines 608-615: --chrome-frame adds three
    switches. *)
Definition chrome_frame_switches (cmd_line : CommandLine X)
  : CommandLine X :=
  if HasSwitch X cmd_line (kChromeFrame C) then
    AppendSwitch Y
      (AppendSwitch Y
         (AppendSwitch Y cmd_line (kDoNotCreateShortcuts C))
         (switches_kDoNotLaunchChrome C))
      (switches_kDoNotRegisterForUpdateLaunch C)
  else cmd_line.

(** [wWinMain]: [cmd_line] is the command line of the process as
    [CommandLine::Init] parsed it, [command_line] the string Windows
    passes.  [AutoCom] uninitializes COM, and the [AtExitManager] runs,
    when the function returns; a process that stopped at line 347 or 536
    does not return, and neither destructor runs. *)
Definition wWinMain (cmd_line : CommandLine X) (command_line : string)
  : S W (option Z) :=
  returned <-
    (let parsed_command_line := chrome_frame_switches cmd_line in
     InitInstallerLogging parsed_command_line ;;;
     prefs <- GetInstallPreferences parsed_command_line ;;
     (if GetDistroBooleanPreference_found Y prefs (kVerboseLogging C)
         && GetDistroBooleanPreference X prefs (kVerboseLogging C) false
      then SetMinLogLevel else sret tt) ;;;
     let system_install :=
       GetDistroBooleanPreference X prefs (kSystemLevel K) false in
     supported <- IsOSSupported ;;
     if negb supported then
       lift (WriteInstallerResult X system_install OS_NOT_SUPPORTED
               (IDS_INSTALL_OS_NOT_SUPPORTED_BASE C) None) ;;;
       sret (Some (status_int OS_NOT_SUPPORTED))
     else
       hresult <- CoInitializeEx ;;
       if negb (hresult =? S_OK) then
         lift (WriteInstallerResult X system_install OS_ERROR
                 (IDS_INSTALL_OS_ERROR_BASE K) None) ;;;
         sret (Some (status_int OS_ERROR))
       else
         returned <- wWinMain_with_com parsed_command_line command_line
                       prefs system_install ;;
         match returned with
         | None => sret None
         | Some return_code =>
             CoUninitialize ;;;
             sret (Some return_code)
         end) ;;
  match returned with
  | None => sret None
  | Some return_code =>
      AtExit ;;;
      sret (Some return_code)
  end.

End SetupMain.

Arguments UninstallChrome {W} X Y C.
Arguments ShowEULADialog {W X} Y.
Arguments registration_suffix {W} X C.
Arguments update_setup_exe {W} X Y C.
Arguments HandleNonInstallCmdLineOptions {W} X K Y C.
Arguments ShowRebootDialog {W X} Y.
Arguments wWinMain_install {W} X K Y C.
Arguments sxs_unsupported {W} X C.
Arguments wWinMain_with_com {W} X K Y C.
Arguments chrome_frame_switches {W} X Y C.
Arguments wWinMain {W} X K Y C.

(** *** A concrete machine for the second part *)
Module SetupMachine.

Import Machine.

Record SetupScenario : Set := {
  ss_uninstall : InstallStatus;
  ss_eula_resource : string;
  ss_outcome : Outcome;
  ss_register : bool;
  ss_unregister : InstallStatus;
  ss_prefs : option Preferences;
  ss_os_supported : bool;
  ss_hresult : Z;
  ss_sxs : bool;
  ss_admin : bool;
  ss_win_version : Z;
  ss_elevated_exit : Z;
  ss_frame : bool;
  ss_msi : bool;
  ss_token : bool;
  ss_last_error : Z;
  ss_flavor : Z
}.

Definition append_switch (c : Command) (name : string) : Command :=
  {| cmd_program := cmd_program c;
     cmd_switches := cmd_switches c ++ [(name, "")] |}.

Definition distro_boolean_found (prefs : option Preferences) (name : string)
  : bool :=
  match prefs with
  | None => false
  | Some d => match lookup name d with Some _ => true | None => false end
  end.

(** Success is reported as zero, any other status by its number. *)
Definition return_code (status : InstallStatus) : Z :=
  match status with
  | FIRST_INSTALL_SUCCESS | NEW_VERSION_UPDATED | IN_USE_UPDATED => 0
  | _ => numbering status
  end.

Definition setup_machine (s : Scenario) (t : SetupScenario)
  : SetupExternals unit (machine s) := {|
  ext_SetupUninstallChrome := fun _ _ _ _ _ _ w => (ss_uninstall t, w);
  ext_GetLocalizedEulaResource := fun w => (ss_eula_resource t, w);
  ext_ShowModal := fun _ w => (ss_outcome t, w);
  ext_SetEULAConsent := fun _ w => w;
  ext_RegisterChromeBrowser := fun _ _ _ w => (ss_register t, w);
  ext_DeleteChromeRegistrationKeys := fun _ _ _ w => (ss_unregister t, w);
  ext_InactiveUserToastExperiment := fun _ _ w => w;
  ext_InitInstallerLogging := fun _ w => w;
  ext_GetInstallPreferences :=
    fun _ w => (ss_prefs t : option (DictionaryValue (machine s)), w);
  ext_SetMinLogLevel := fun w => w;
  ext_IsOSSupported := fun w => (ss_os_supported t, w);
  ext_CoInitializeEx := fun w => (ss_hresult t, w);
  ext_CoUninitialize := fun w => w;
  ext_IsChromeSxSProcess := fun w => (ss_sxs t, w);
  ext_IsUserAnAdmin := fun w => (ss_admin t, w);
  ext_GetWinVersion := fun w => (ss_win_version t, w);
  ext_ExecuteExeAsAdmin := fun _ _ _ w => (ss_elevated_exit t, w);
  ext_IsChromeFrameProcess := fun w => (ss_frame t, w);
  ext_IsMSIProcess := fun _ w => (ss_msi t, w);
  ext_MessageBoxW := fun _ _ w => w;
  ext_OpenProcessToken := fun w => (ss_token t, w);
  ext_LookupPrivilegeValue := fun w => w;
  ext_AdjustTokenPrivileges := fun w => w;
  ext_GetLastError := fun w => (ss_last_error t, w);
  ext_RestartDialog := fun w => w;
  ext_CloseHandle := fun w => w;
  ext_AtExit := fun w => w;
  GetInstallReturnCode := return_code;
  StringToInt := fun _ => ss_flavor t;
  AppendSwitch := append_switch;
  GetDistroBooleanPreference_found := distro_boolean_found;
  GetLocalizedString := fun _ => "Uninstall complete";
  GetApplicationName := "Chromium";
  failed_temp_path := ""
|}.

Definition setup_constants : SetupConstants := {|
  kForceUninstall := "force-uninstall";
  kDoNotRemoveSharedItems := "do-not-remove-shared-items";
  kUpdateSetupExe := "update-setup-exe";
  kNewSetupExe := "new-setup-exe";
  kShowEula := "show-eula";
  kRegisterChromeBrowser := "register-chrome-browser";
  kRegisterChromeBrowserSuffix := "register-chrome-browser-suffix";
  kRenameChromeExe := "rename-chrome-exe";
  kRemoveChromeRegistration := "remove-chrome-registration";
  kInactiveUserToast := "inactive-user-toast";
  kSystemLevelToast := "system-level-toast";
  kChromeFrame := "chrome-frame";
  kDoNotCreateShortcuts := "do-not-create-shortcuts";
  switches_kDoNotLaunchChrome := "do-not-launch-chrome";
  switches_kDoNotRegisterForUpdateLaunch :=
    "do-not-register-for-update-launch";
  kMakeChromeDefault := "make-chrome-default";
  kRunAsAdmin := "run-as-admin";
  kUninstall := "uninstall";
  kVerboseLogging := "verbose_logging";
  IDS_UNINSTALL_FAILED_BASE := 1611;
  IDS_SETUP_PATCH_FAILED_BASE := 1612;
  IDS_INSTALL_OS_NOT_SUPPORTED_BASE := 1613;
  IDS_INSTALL_INSUFFICIENT_RIGHTS_BASE := 1614;
  IDS_UNINSTALL_COMPLETE_BASE := 1615;
  WINVERSION_VISTA := 4
|}.

(** An ordinary Windows XP user session: supported, COM starts, not
    side-by-side, not an administrator. *)
Definition ordinary : SetupScenario := {|
  ss_uninstall := UNINSTALL_REQUIRES_REBOOT;
  ss_eula_resource := "C:\Temp\eula.html";
  ss_outcome := ACCEPTED_OPT_IN;
  ss_register := true;
  ss_unregister := UNKNOWN_STATUS;
  ss_prefs := None;
  ss_os_supported := true;
  ss_hresult := 0;
  ss_sxs := false;
  ss_admin := false;
  ss_win_version := 2;
  ss_elevated_exit := 0;
  ss_frame := false;
  ss_msi := false;
  ss_token := true;
  ss_last_error := 0;
  ss_flavor := 1
|}.

(** The same session asking for a system-level install, through the
    preferences. *)
Definition system_level_request : SetupScenario := {|
  ss_uninstall := ss_uninstall ordinary;
  ss_eula_resource := ss_eula_resource ordinary;
  ss_outcome := ss_outcome ordinary;
  ss_register := true;
  ss_unregister := UNKNOWN_STATUS;
  ss_prefs := Some [("system_level", true)];
  ss_os_supported := true;
  ss_hresult := 0;
  ss_sxs := false;
  ss_admin := false;
  ss_win_version := 2;
  ss_elevated_exit := 0;
  ss_frame := false;
  ss_msi := false;
  ss_token := true;
  ss_last_error := 0;
  ss_flavor := 1
|}.

(** A Chrome Frame uninstall run by the Windows installer. *)
Definition msi_frame_uninstall : SetupScenario := {|
  ss_uninstall := UNINSTALL_REQUIRES_REBOOT;
  ss_eula_resource := ss_eula_resource ordinary;
  ss_outcome := ss_outcome ordinary;
  ss_register := true;
  ss_unregister := UNKNOWN_STATUS;
  ss_prefs := None;
  ss_os_supported := true;
  ss_hresult := 0;
  ss_sxs := false;
  ss_admin := true;
  ss_win_version := 2;
  ss_elevated_exit := 0;
  ss_frame := true;
  ss_msi := true;
  ss_token := true;
  ss_last_error := 0;
  ss_flavor := 1
|}.

(** A Windows older than XP. *)
Definition old_windows : SetupScenario := {|
  ss_uninstall := ss_uninstall ordinary;
  ss_eula_resource := ss_eula_resource ordinary;
  ss_outcome := ss_outcome ordinary;
  ss_register := true;
  ss_unregister := UNKNOWN_STATUS;
  ss_prefs := None;
  ss_os_supported := false;
  ss_hresult := 0;
  ss_sxs := false;
  ss_admin := false;
  ss_win_version := 0;
  ss_elevated_exit := 0;
  ss_frame := false;
  ss_msi := false;
  ss_token := true;
  ss_last_error := 0;
  ss_flavor := 1
|}.

(** COM is already initialized on the thread: [CoInitializeEx] answers
    [S_FALSE]. *)
Definition com_busy : SetupScenario := {|
  ss_uninstall := ss_uninstall ordinary;
  ss_eula_resource := ss_eula_resource ordinary;
  ss_outcome := ss_outcome ordinary;
  ss_register := true;
  ss_unregister := UNKNOWN_STATUS;
  ss_prefs := None;
  ss_os_supported := true;
  ss_hresult := 1;
  ss_sxs := false;
  ss_admin := false;
  ss_win_version := 2;
  ss_elevated_exit := 0;
  ss_frame := false;
  ss_msi := false;
  ss_token := true;
  ss_last_error := 0;
  ss_flavor := 1
|}.

(** A side-by-side setup. *)
Definition side_by_side : SetupScenario := {|
  ss_uninstall := ss_uninstall ordinary;
  ss_eula_resource := ss_eula_resource ordinary;
  ss_outcome := ss_outcome ordinary;
  ss_register := true;
  ss_unregister := UNKNOWN_STATUS;
  ss_prefs := None;
  ss_os_supported := true;
  ss_hresult := 0;
  ss_sxs := true;
  ss_admin := false;
  ss_win_version := 2;
  ss_elevated_exit := 0;
  ss_frame := false;
  ss_msi := false;
  ss_token := true;
  ss_last_error := 0;
  ss_flavor := 1
|}.

(** A command line with the given switches. *)
Definition setup_with (sw : list (string * string)) : Command :=
  {| cmd_program := "C:\Downloads\setup.exe"; cmd_switches := sw |}.

End SetupMachine.

(** *** Vocabulary of the second part *)

Definition is_update_diff (e : Event) : bool :=
  match e with EvUpdateDiffInstallStatus _ _ _ => true | _ => false end.

Definition is_schedule (e : Event) : bool :=
  match e with EvScheduleDirectoryForDeletion _ => true | _ => false end.

Definition is_file_op (e : Event) : bool :=
  match e with
  | EvPathExists _ _ | EvDelete _ _ _ => true
  | _ => false
  end.

Definition is_temp_created (e : Event) : bool :=
  match e with EvCreateNewTempDirectory _ (Some _) => true | _ => false end.

Definition has_launch_command (e : Event) : bool :=
  match e with EvWriteInstallerResult _ _ _ (Some _) => true | _ => false end.

Definition count_calls (p : SetupEvent -> bool) (l : list SetupEvent) : nat :=
  List.length (filter p l).

Definition no_call (p : SetupEvent -> bool) (l : list SetupEvent) : bool :=
  forallb (fun e => negb (p e)) l.

(** A call of the first part, of a given class. *)
Definition core (p : Event -> bool) (e : SetupEvent) : bool :=
  match e with Core c => p c | _ => false end.

Definition is_uninstaller (e : SetupEvent) : bool :=
  match e with EvSetupUninstallChrome _ _ _ _ _ _ => true | _ => false end.

Definition is_com_init (e : SetupEvent) : bool :=
  match e with EvCoInitializeEx _ => true | _ => false end.

Definition is_com_uninit (e : SetupEvent) : bool :=
  match e with EvCoUninitialize => true | _ => false end.

Definition is_at_exit (e : SetupEvent) : bool :=
  match e with EvAtExit => true | _ => false end.

Definition is_dialog (e : SetupEvent) : bool :=
  match e with
  | EvMessageBoxW _ _ | EvRestartDialog | EvShowModal _ _ => true
  | _ => false
  end.

Definition is_admin_query (e : SetupEvent) : bool :=
  match e with EvIsUserAnAdmin _ => true | _ => false end.

(** A patch that was applied with result 0. *)
Definition patch_applied (e : SetupEvent) : bool :=
  match e with
  | Core (EvApplyDiffPatch _ _ _ ret) => ret =? 0
  | _ => false
  end.

(** The calls [RenameChromeExecutables] can make. *)
Definition rename_event (e : Event) : bool :=
  match e with
  | EvCreateNewTempDirectory _ _ | EvDo _ _ | EvRollback _ | EvDelete _ _ _ =>
      true
  | _ => false
  end.

(** The calls [HandleNonInstallCmdLineOptions] can make. *)
Definition handle_event (e : SetupEvent) : bool :=
  match e with
  | Core (EvCreateNewTempDirectory _ _) | Core (EvLzmaUnPackArchive _ _ _ _)
  | Core (EvApplyDiffPatch _ _ _ _) | Core (EvWriteInstallerResult _ _ _ _)
  | Core (EvDelete _ _ _) | Core (EvDo _ _) | Core (EvRollback _)
  | Core (EvGetChromeVersion _ _) | Core (EvLaunchUserExperiment _ _ _) =>
      true
  | EvGetLocalizedEulaResource _ | EvShowModal _ _ | EvSetEULAConsent _
  | EvRegisterChromeBrowser _ _ _ _ | EvDeleteChromeRegistrationKeys _ _ _
  | EvInactiveUserToastExperiment _ _ => true
  | _ => false
  end.

(** The calls of lines 697-748 of [wWinMain]. *)
Definition install_event (e : SetupEvent) : bool :=
  match e with
  | Core _ | EvSetupUninstallChrome _ _ _ _ _ _ | EvIsChromeFrameProcess _
  | EvOpenProcessToken _ | EvLookupPrivilegeValue | EvAdjustTokenPrivileges
  | EvGetLastError _ | EvRestartDialog | EvCloseHandle | EvMessageBoxW _ _
  | EvIsMSIProcess _ _ => true
  | _ => false
  end.

(** The calls [wWinMain] makes before it looks at the machine. *)
Definition startup_event (e : SetupEvent) : bool :=
  match e with
  | EvInitInstallerLogging | EvGetInstallPreferences _ | EvSetMinLogLevel =>
      true
  | _ => false
  end.

Definition is_token_query (e : SetupEvent) : bool :=
  match e with EvOpenProcessToken _ => true | _ => false end.

Definition is_message_box (e : SetupEvent) : bool :=
  match e with EvMessageBoxW _ _ => true | _ => false end.

(** The calls [wWinMain] makes itself, outside the COM scope. *)
Definition process_event (e : SetupEvent) : bool :=
  match e with
  | EvInitInstallerLogging | EvGetInstallPreferences _ | EvSetMinLogLevel
  | EvIsOSSupported _ | EvCoInitializeEx _ | EvCoUninitialize | EvAtExit =>
      true
  | _ => false
  end.



(** ** Properties *)

Ltac unfold_calls :=
  cbv [bind mret call call_ LzmaUtil_UnPackArchive PathExists ApplyDiffPatch
       CreateNewTempDirectory Delete Do Rollback GetChromeVersion
       WriteInstallerResult LaunchApp GetVersionFromDir InstallOrUpdateChrome
       LaunchChrome RemoveLegacyRegistryKeys LaunchUserExperiment
       ScheduleDirectoryForDeletion UpdateDiffInstallStatus].

Ltac unfold_calls_in H :=
  cbv [bind mret call call_ LzmaUtil_UnPackArchive PathExists ApplyDiffPatch
       CreateNewTempDirectory Delete Do Rollback GetChromeVersion
       WriteInstallerResult LaunchApp GetVersionFromDir InstallOrUpdateChrome
       LaunchChrome RemoveLegacyRegistryKeys LaunchUserExperiment
       ScheduleDirectoryForDeletion UpdateDiffInstallStatus] in H.

(** One step along the paths of a function: name the result of the next
    call, or split on the next test. *)
Ltac call_step :=
  match goal with
  | |- context [ext_UnPackArchive ?X ?a ?b ?w] =>
      destruct (ext_UnPackArchive X a b w) as [[? ?] ?] eqn:?
  | |- context [ext_PathExists ?X ?a ?w] =>
      destruct (ext_PathExists X a w) as [? ?] eqn:?
  | |- context [ext_ApplyDiffPatch ?X ?a ?b ?c ?w] =>
      destruct (ext_ApplyDiffPatch X a b c w) as [? ?] eqn:?
  | |- context [ext_CreateNewTempDirectory ?X ?a ?w] =>
      destruct (ext_CreateNewTempDirectory X a w) as [? ?] eqn:?
  | |- context [ext_Delete ?X ?a ?b ?w] =>
      destruct (ext_Delete X a b w) as [? ?] eqn:?
  | |- context [ext_Do ?X ?a ?w] =>
      destruct (ext_Do X a w) as [? ?] eqn:?
  | |- context [ext_GetChromeVersion ?X ?a ?w] =>
      destruct (ext_GetChromeVersion X a w) as [? ?] eqn:?
  | |- context [ext_GetVersionFromDir ?X ?a ?w] =>
      destruct (ext_GetVersionFromDir X a w) as [? ?] eqn:?
  | |- context [ext_InstallOrUpdateChrome ?X ?a ?b ?c ?d ?e ?f ?g ?w] =>
      destruct (ext_InstallOrUpdateChrome X a b c d e f g w) as [? ?] eqn:?
  end.

Ltac test_step :=
  first
    [ match goal with
      | |- context [match ?o with Some _ => _ | None => _ end] =>
          is_var o; destruct o
      end
    | match goal with
      | |- context [if ?b then _ else _] => destruct b eqn:?
      end
    | match goal with
      | |- context [match ?o with Some _ => _ | None => _ end] =>
          destruct o eqn:?
      end ].

Ltac follow_paths :=
  repeat first [ progress cbv beta iota zeta | call_step | test_step ].

Import Machine.

(** *** The model at work *)

(** The comparison pads the shorter tuple with zeros. *)
Example Version_compare_padding :
  Version_compare [1; 0]%N [1]%N = Eq
  /\ IsHigherThan [1; 0; 1]%N [1]%N = true
  /\ IsHigherThan [10; 0]%N [9]%N = true
  /\ IsHigherThan [9]%N [10; 0]%N = false.
Proof. repeat split. Qed.

(** A full archive with version 10.0 on a machine with no Chrome. *)
Example first_install_on_healthy_machine :
  let run := InstallChrome (machine healthy) constants setup_exe None None tt in
  result run = Some FIRST_INSTALL_SUCCESS
  /\ count is_mutate (events run) = 1%nat
  /\ last (events run) EvRemoveLegacyRegistryKeys
     = EvUpdateDiffInstallStatus false false FIRST_INSTALL_SUCCESS.
Proof. repeat split. Qed.

(** The same archive over an installed 9.0. *)
Example update_on_healthy_machine :
  let run := InstallChrome (machine updating) constants setup_exe
               (Some [9; 0]%N) None tt in
  result run = Some NEW_VERSION_UPDATED
  /\ In EvRemoveLegacyRegistryKeys (events run)
  /\ none is_launch (events run) = true.
Proof. cbn. tauto. Qed.

(** A system-level rename. *)
Example rename_on_healthy_machine :
  RenameChromeExecutables (machine healthy) constants true tt =
    (RENAME_SUCCESSFUL, tt,
     [EvCreateNewTempDirectory "chrome_" (Some "C:\Temp\chrome_1");
      EvDo
        [DeleteTreeWorkItem
           "C:\Program Files\Chromium\Application\old_chrome.exe" "";
         CopyTreeWorkItem
           "C:\Program Files\Chromium\Application\new_chrome.exe"
           "C:\Program Files\Chromium\Application\chrome.exe"
           "C:\Temp\chrome_1" IF_DIFFERENT "";
         DeleteRegValueWorkItem HKEY_LOCAL_MACHINE "Software\Chromium" "opv"
           true;
         DeleteTreeWorkItem
           "C:\Program Files\Chromium\Application\new_chrome.exe" "";
         DeleteRegValueWorkItem HKEY_LOCAL_MACHINE "Software\Chromium" "cmd"
           true]
        true;
      EvDelete "C:\Temp\chrome_1" true true]).
Proof. reflexivity. Qed.

Section Rename.

Context {W : Type}.
Variable X : Externals W.
Variable K : Constants.

(** C1.  Once its temporary directory exists, [RenameChromeExecutables]
    executes one work list holding, in order: delete the old backup binary,
    copy the new binary over the live one if different, delete the "old
    version" registry value, delete the new binary, delete the "rename
    command" registry value.  When [Do] fails, [Rollback] is called on that
    list, in the state [Do] left, and the status is [RENAME_FAILED];
    otherwise no rollback happens and the status is [RENAME_SUCCESSFUL].  On
    both paths the last call deletes the temporary directory, and the
    function returns in the state that delete left. *)
Theorem RenameChromeExecutables_transaction :
  forall (system_install : bool) (w w1 : W) (temp_path : string)
         (done : bool) (w2 : W) (deleted : bool) (w3 : W),
    ext_CreateNewTempDirectory X "chrome_" w = (Some temp_path, w1) ->
    let items := rename_items X K system_install temp_path in
    ext_Do X items w1 = (done, w2) ->
    ext_Delete X temp_path true
      (if done then w2 else ext_Rollback X items w2) = (deleted, w3) ->
    let status := if done then RENAME_SUCCESSFUL else RENAME_FAILED in
    let calls :=
      [EvCreateNewTempDirectory "chrome_" (Some temp_path);
       EvDo items done]
      ++ (if done then [] else [EvRollback items])
      ++ [EvDelete temp_path true deleted] in
    RenameChromeExecutables_run X K system_install w
    = ((status, items), w3, calls)
    /\ RenameChromeExecutables X K system_install w = (status, w3, calls).
Proof.
  intros system_install w w1 temp_path done w2 deleted w3 Htemp items Hdo
         Hdel status calls.
  subst status calls.
  unfold RenameChromeExecutables, RenameChromeExecutables_run.
  unfold_calls.
  rewrite Htemp.
  change (AddDeleteRegValueWorkItem _ _ _ _ _) with items.
  rewrite Hdo.
  destruct done; cbn [negb fst]; rewrite Hdel; split; reflexivity.
Qed.

(** C10, as the code has it.  When the temporary directory cannot be
    created, [RenameChromeExecutables] returns [RENAME_FAILED] having made no
    other call: the work list is never executed, rolled back, and nothing is
    deleted.  The list already holds its first item (delete the old backup
    binary), added before the directory was asked for. *)
Theorem RenameChromeExecutables_temp_dir_failure :
  forall (system_install : bool) (w w1 : W),
    ext_CreateNewTempDirectory X "chrome_" w = (None, w1) ->
    RenameChromeExecutables_run X K system_install w =
      ((RENAME_FAILED,
        [DeleteTreeWorkItem
           (AppendToPath X (GetChromeInstallPath X system_install)
              (kChromeOldExe K)) ""]),
       w1, [EvCreateNewTempDirectory "chrome_" None])
    /\ RenameChromeExecutables X K system_install w =
         (RENAME_FAILED, w1, [EvCreateNewTempDirectory "chrome_" None]).
Proof.
  intros system_install w w1 Htemp.
  unfold RenameChromeExecutables, RenameChromeExecutables_run.
  unfold_calls.
  rewrite Htemp. split; reflexivity.
Qed.

End Rename.

(** C1 on the healthy machine, where the list executes, and on a machine
    where it fails and is rolled back. *)
Lemma RenameChromeExecutables_transaction_witness :
  RenameChromeExecutables (machine healthy) constants false tt =
    (RENAME_SUCCESSFUL, tt,
     [EvCreateNewTempDirectory "chrome_" (Some "C:\Temp\chrome_1");
      EvDo (rename_items (machine healthy) constants false
              "C:\Temp\chrome_1") true;
      EvDelete "C:\Temp\chrome_1" true true])
  /\ RenameChromeExecutables (machine rename_fails) constants false tt =
       (RENAME_FAILED, tt,
        [EvCreateNewTempDirectory "chrome_" (Some "C:\Temp\chrome_1");
         EvDo (rename_items (machine rename_fails) constants false
                 "C:\Temp\chrome_1") false;
         EvRollback (rename_items (machine rename_fails) constants false
                       "C:\Temp\chrome_1");
         EvDelete "C:\Temp\chrome_1" true true]).
Proof.
  split.
  - exact (proj2 (RenameChromeExecutables_transaction (machine healthy)
                    constants false tt tt "C:\Temp\chrome_1" true tt true tt
                    eq_refl eq_refl eq_refl)).
  - exact (proj2 (RenameChromeExecutables_transaction (machine rename_fails)
                    constants false tt tt "C:\Temp\chrome_1" false tt true tt
                    eq_refl eq_refl eq_refl)).
Defined.

(** C10 as stated fails: on a machine that cannot create the temporary
    directory the function returns [RENAME_FAILED] with a work item already
    in its list. *)
Lemma RenameChromeExecutables_item_added_before_temp_dir :
  let r := RenameChromeExecutables_run (machine no_temp_dir) constants false
             tt in
  events r = [EvCreateNewTempDirectory "chrome_" None]
  /\ fst (result r) = RENAME_FAILED
  /\ snd (result r) =
       [DeleteTreeWorkItem "C:\Users\u\Chromium\Application\old_chrome.exe" ""]
  /\ snd (result r) <> [].
Proof.
  repeat split. discriminate.
Qed.

(** C10 amended, on that machine. *)
Lemma RenameChromeExecutables_temp_dir_failure_witness :
  RenameChromeExecutables (machine no_temp_dir) constants false tt =
    (RENAME_FAILED, tt, [EvCreateNewTempDirectory "chrome_" None]).
Proof.
  exact (proj2 (RenameChromeExecutables_temp_dir_failure
                  (machine no_temp_dir) constants false tt tt eq_refl)).
Defined.

Section Preflight.

Context {W : Type}.
Variable X : Externals W.
Variable K : Constants.

(** A run whose preflight fails ends there, with the status the preflight
    reported and no further call. *)
Lemma InstallChrome_preflight_abort :
  forall cmd_line installed_version prefs w status w1 e1,
    CheckPreInstallConditions X K installed_version
      (GetDistroBooleanPreference X prefs (kSystemLevel K) false)
      UNKNOWN_STATUS w = ((false, status), w1, e1) ->
    InstallChrome X K cmd_line installed_version prefs w
    = (Some status, w1, e1).
Proof.
  intros cmd_line installed_version prefs w status w1 e1 Hpre.
  unfold InstallChrome, bind. rewrite Hpre. cbn.
  now rewrite app_nil_r.
Qed.


(** C8.  A first install with nothing installed at the other scope.  A
    directory found at the install path is deleted before the preflight
    lets the run proceed, and the run proceeds in the state that delete
    left; when the delete fails the preflight writes [INSTALL_DIR_IN_USE]
    and returns false, and [InstallChrome] returns that status having made
    no further call. *)
Theorem CheckPreInstallConditions_first_install :
  forall system_install status w w1 found w2,
    ext_GetChromeVersion X (negb system_install) w = (None, w1) ->
    let install_path := GetChromeInstallPath X system_install in
    ext_PathExists X install_path w1 = (found, w2) ->
    let r := CheckPreInstallConditions X K None system_install status w in
    let seen := [EvGetChromeVersion (negb system_install) None;
                 EvPathExists install_path found] in
    (found = false -> r = ((true, status), w2, seen))
    /\
    (found = true ->
     forall deleted w3,
       ext_Delete X install_path true w2 = (deleted, w3) ->
       (deleted = true ->
        r = ((true, status), w3, seen ++ [EvDelete install_path true true]))
       /\
       (deleted = false ->
        let said := seen ++
                    [EvDelete install_path true false;
                     EvWriteInstallerResult system_install INSTALL_DIR_IN_USE
                       (IDS_INSTALL_DIR_IN_USE_BASE K) None] in
        let w4 := ext_WriteInstallerResult X system_install INSTALL_DIR_IN_USE
                    (IDS_INSTALL_DIR_IN_USE_BASE K) None w3 in
        r = ((false, INSTALL_DIR_IN_USE), w4, said) /\
        forall cmd_line prefs,
          GetDistroBooleanPreference X prefs (kSystemLevel K) false
          = system_install ->
          status = UNKNOWN_STATUS ->
          InstallChrome X K cmd_line None prefs w
          = (Some INSTALL_DIR_IN_USE, w4, said))).
Proof.
  intros system_install status w w1 found w2 Hother install_path Hfound r seen.
  assert (Hr : r = CheckPreInstallConditions X K None system_install status w)
    by reflexivity.
  unfold CheckPreInstallConditions in Hr. unfold_calls_in Hr.
  rewrite Hother in Hr. fold install_path in Hr. rewrite Hfound in Hr.
  split.
  - intros ->. rewrite Hr. reflexivity.
  - intros -> deleted w3 Hdel. rewrite Hdel in Hr. split.
    + intros ->. rewrite Hr. reflexivity.
    + intros ->. cbn in Hr. intros said w4.
      split; [rewrite Hr; reflexivity|].
      intros cmd_line prefs Hsys Hstatus. subst status.
      apply InstallChrome_preflight_abort.
      rewrite Hsys. fold r. rewrite Hr. reflexivity.
Qed.

End Preflight.



(** C8 on a machine whose left-over install directory is locked. *)
Lemma CheckPreInstallConditions_first_install_witness :
  let X := machine (stale_dir false 0) in
  let path := "C:\Users\u\Chromium\Application" in
  InstallChrome X constants setup_exe None None tt =
    (Some INSTALL_DIR_IN_USE, tt,
     [EvGetChromeVersion true None; EvPathExists path true;
      EvDelete path true false;
      EvWriteInstallerResult false INSTALL_DIR_IN_USE 1604 None]).
Proof.
  pose proof (CheckPreInstallConditions_first_install
                (machine (stale_dir false 0)) constants false UNKNOWN_STATUS
                tt tt true tt eq_refl eq_refl) as H.
  destruct H as [_ H].
  destruct (H eq_refl false tt eq_refl) as [_ H'].
  destruct (H' eq_refl) as [_ H''].
  exact (H'' setup_exe None eq_refl eq_refl).
Defined.

Section Phases.

Context {W : Type}.
Variable X : Externals W.
Variable K : Constants.

Lemma forallb_weaken :
  forall (p q : Event -> bool) (l : list Event),
    (forall e, p e = true -> q e = true) ->
    forallb p l = true -> forallb q l = true.
Proof.
  intros p q l Hpq. induction l as [|e l IH]; cbn; [reflexivity|].
  intros H. apply andb_true_iff in H as [He Hl].
  now rewrite (Hpq e He), (IH Hl).
Qed.

Lemma count_app :
  forall p a b, count p (a ++ b) = (count p a + count p b)%nat.
Proof.
  intros p a b. unfold count. now rewrite filter_app, length_app.
Qed.

Lemma count_none :
  forall p l, none p l = true -> count p l = 0%nat.
Proof.
  intros p l. unfold none, count.
  induction l as [|e l IH]; cbn; [reflexivity|].
  intros H. apply andb_true_iff in H as [He Hl].
  destruct (p e); [discriminate|]. now apply IH.
Qed.

Lemma UnPackArchive_calls :
  forall archive sys iv temp_path path inc w,
    forallb unpack_event
      (events (UnPackArchive X K archive sys iv temp_path path inc w)) = true.
Proof.
  intros. unfold UnPackArchive. unfold_calls.
  follow_paths; reflexivity.
Qed.

Lemma UnPackArchive_confined :
  forall cmd_line archive sys iv temp_path inc w,
    forallb (confined_to_temp X K cmd_line temp_path)
      (events (UnPackArchive X K archive sys iv temp_path
                 (AppendToPath X temp_path (kInstallSourceDir K)) inc w))
    = true.
Proof.
  intros. unfold UnPackArchive. unfold_calls.
  follow_paths; cbn; rewrite ?String.eqb_refl, ?orb_true_r; reflexivity.
Qed.

Lemma to_DWORD_int32_zero :
  forall z, to_DWORD (wrap_int32 z) = 0 <-> wrap_int32 z = 0.
Proof.
  intros z. unfold to_DWORD, wrap_int32.
  change (2 ^ 31) with 2147483648. change (2 ^ 32) with 4294967296.
  pose proof (Z.mod_pos_bound (z + 2147483648) 4294967296 eq_refl) as Hx.
  set (y := (z + 2147483648) mod 4294967296 - 2147483648) in *.
  pose proof (Z.div_mod y 4294967296 ltac:(discriminate)) as Hy.
  split; intros H.
  - rewrite H in Hy.
    assert (y / 4294967296 = 0) by lia. lia.
  - rewrite H. reflexivity.
Qed.

(** [UnPackArchive] returns non-zero exactly when the sub-step it stopped
    at, its last call, failed. *)
Lemma UnPackArchive_nonzero :
  forall archive sys iv temp_path path inc w,
    let u := UnPackArchive X K archive sys iv temp_path path inc w in
    fst (result u) <> 0
    <-> failed_step K iv (last (events u) EvRemoveLegacyRegistryKeys).
Proof.
  intros archive sys iv temp_path path inc w u. subst u.
  unfold UnPackArchive. unfold_calls.
  follow_paths; cbn [result events fst snd last failed_step];
    repeat match goal with
           | H : negb _ = true |- _ => apply negb_true_iff in H
           | H : negb _ = false |- _ => apply negb_false_iff in H
           | H : (_ =? _) = true |- _ => apply Z.eqb_eq in H
           | H : (_ =? _) = false |- _ => apply Z.eqb_neq in H
           end;
    subst; cbn [app last failed_step];
    rewrite ?to_DWORD_int32_zero; unfold NO_ERROR in *;
    try tauto; try (split; intros; try tauto; congruence).
Qed.

(** The preflight. *)
Lemma CheckPreInstallConditions_calls :
  forall iv sys status w,
    forallb preflight_event
      (events (CheckPreInstallConditions X K iv sys status w)) = true.
Proof.
  intros. unfold CheckPreInstallConditions. unfold_calls.
  follow_paths; reflexivity.
Qed.

Lemma CheckPreInstallConditions_passed :
  forall iv sys status w status' w1 e1,
    CheckPreInstallConditions X K iv sys status w = ((true, status'), w1, e1) ->
    status' = status
    /\ none is_write_result e1 = true
    /\ none is_launch e1 = true
    /\ (iv <> None -> e1 = [EvGetChromeVersion (negb sys) None]).
Proof.
  intros iv sys status w status' w1 e1.
  unfold CheckPreInstallConditions. unfold_calls.
  follow_paths; intros H; inversion H; subst; clear H;
    repeat split; try reflexivity; intros; congruence.
Qed.

Lemma CheckPreInstallConditions_failed :
  forall iv sys status w status' w1 e1,
    CheckPreInstallConditions X K iv sys status w = ((false, status'), w1, e1) ->
    In status' [OS_ERROR; EXISTING_VERSION_LAUNCHED; USER_LEVEL_INSTALL_EXISTS;
                SYSTEM_LEVEL_INSTALL_EXISTS; INSTALL_DIR_IN_USE].
Proof.
  intros iv sys status w status' w1 e1.
  unfold CheckPreInstallConditions. unfold_calls.
  follow_paths; intros H; inversion H; subst; clear H; cbn; tauto.
Qed.

(** The cleanup. *)
Lemma InstallChrome_cleanup_result :
  forall cmd_line sys temp_path inc status w,
    result (InstallChrome_cleanup X K cmd_line sys temp_path inc status w)
    = status.
Proof.
  intros. unfold InstallChrome_cleanup. unfold_calls.
  follow_paths; reflexivity.
Qed.

Lemma InstallChrome_cleanup_calls :
  forall cmd_line sys temp_path inc status w,
    forallb cleanup_event
      (events (InstallChrome_cleanup X K cmd_line sys temp_path inc status w))
    = true.
Proof.
  intros. unfold InstallChrome_cleanup. unfold_calls.
  follow_paths; reflexivity.
Qed.

Lemma InstallChrome_cleanup_confined :
  forall cmd_line sys temp_path inc status w,
    forallb (confined_to_temp X K cmd_line temp_path)
      (events (InstallChrome_cleanup X K cmd_line sys temp_path inc status w))
    = true.
Proof.
  intros. unfold InstallChrome_cleanup. unfold_calls.
  follow_paths; cbn;
    repeat match goal with
           | H : HasSwitch _ _ _ = _ |- _ => rewrite H
           end;
    rewrite ?String.eqb_refl, ?orb_true_r; reflexivity.
Qed.

(** The install branch. *)
Lemma post_install_calls :
  forall prefs sys status w,
    events (post_install X K prefs sys status w) =
      if status_eqb status FIRST_INSTALL_SUCCESS then
        if negb sys
           && negb (GetDistroBooleanPreference X prefs (kDoNotLaunchChrome K)
                      false)
        then [EvLaunchChrome sys] else []
      else if status_eqb status NEW_VERSION_UPDATED
              || status_eqb status IN_USE_UPDATED
      then [EvRemoveLegacyRegistryKeys] else [].
Proof.
  intros. unfold post_install. unfold_calls.
  follow_paths; reflexivity.
Qed.

Lemma installer_result_status :
  forall sys returned status msg chrome_exe,
    installer_result X K sys returned = (status, msg, chrome_exe) ->
    status = returned \/ status = OS_ERROR.
Proof.
  intros sys returned status msg chrome_exe. unfold installer_result.
  follow_paths; intros H; inversion H; auto.
Qed.

(** Every run of lines 253-349 has one of the four shapes. *)
Lemma InstallChrome_decide_shape :
  forall cmd_line iv prefs sys archive temp_path w,
    let d := InstallChrome_decide X K cmd_line iv prefs sys archive temp_path
               w in
    Decided X K cmd_line iv prefs sys temp_path (fst (result d)) (events d).
Proof.
  intros cmd_line iv prefs sys archive temp_path w d. subst d.
  unfold InstallChrome_decide, bind.
  pose proof (UnPackArchive_calls archive sys iv temp_path
                (AppendToPath X temp_path (kInstallSourceDir K)) false w)
    as Hcalls.
  pose proof (UnPackArchive_confined cmd_line archive sys iv temp_path false w)
    as Hconf.
  destruct (UnPackArchive X K archive sys iv temp_path
              (AppendToPath X temp_path (kInstallSourceDir K)) false w)
    as [[[ret inc] w3] unpacking].
  cbn [events snd] in Hcalls, Hconf.
  destruct (ret =? 0) eqn:Hret; cbn [negb].
  - unfold InstallChrome_unpacked, InstallChrome_install. unfold_calls.
    cbv beta iota zeta.
    destruct (ext_GetVersionFromDir X _ w3) as [[new_version|] w4].
    + destruct (match iv with
                | Some v => IsHigherThan v new_version
                | None => false
                end) eqn:Hhigher.
      * destruct iv as [v|]; [|discriminate].
        cbn. rewrite ?app_nil_r.
        now eapply Decided_higher_version.
      * destruct (ext_InstallOrUpdateChrome X _ _ _ _ _ _ _ w4)
          as [returned w5].
        destruct (installer_result X K sys returned)
          as [[status msg] chrome_exe] eqn:Hres.
        match goal with
        | |- context [post_install X K prefs sys status ?w'] =>
            destruct (post_install X K prefs sys status w')
              as [[u w6] post] eqn:Hpost
        end.
        cbn. rewrite ?app_nil_r.
        replace post with (events (post_install X K prefs sys status
          (ext_WriteInstallerResult X sys status msg
             (if negb (GetDistroBooleanPreference X prefs
                         (kDoNotRegisterForUpdateLaunch K) false)
                 && negb (status_eqb status IN_USE_UPDATED)
              then Some chrome_exe else None) w5)))
          by (rewrite Hpost; reflexivity).
        eapply (Decided_install X K cmd_line iv prefs sys temp_path unpacking
                  _ new_version returned status msg chrome_exe);
          try assumption.
        intros v ->. exact Hhigher.
    + cbn. rewrite ?app_nil_r.
      now eapply Decided_invalid_archive.
  - unfold_calls. cbn. rewrite ?app_nil_r.
    now eapply Decided_unpack_failed.
Qed.

Lemma InstallChrome_cleanup_deferred :
  forall cmd_line sys temp_path inc status w p,
    let c := InstallChrome_cleanup X K cmd_line sys temp_path inc status w in
    In (EvDelete p true false) (events c) ->
    In (EvScheduleDirectoryForDeletion p) (events c).
Proof.
  intros cmd_line sys temp_path inc status w p c. subst c.
  unfold InstallChrome_cleanup. unfold_calls.
  follow_paths; cbn; intros H;
    repeat match goal with
           | H : _ \/ _ |- _ => destruct H
           | H : False |- _ => contradiction
           | H : EvDelete _ _ _ = EvDelete _ _ _ |- _ =>
               injection H; clear H; intros; subst
           | H : _ = _ |- _ => discriminate H
           end;
    rewrite ?andb_false_r in *; cbn in *; try discriminate; auto.
Qed.

(** What the calls of a phase cannot be. *)
Lemma class_In :
  forall (q : Event -> bool) l e, forallb q l = true -> In e l -> q e = true.
Proof. intros q l e H. rewrite forallb_forall in H. apply H. Qed.

Lemma preflight_quiet :
  forall l, forallb preflight_event l = true ->
    none is_mutate l = true /\ none is_version_probe l = true
    /\ none is_patch l = true.
Proof.
  intros l H. repeat split; revert H; apply forallb_weaken;
    intros [] He; (discriminate He || reflexivity).
Qed.

Lemma unpack_quiet :
  forall l, forallb unpack_event l = true ->
    none is_mutate l = true /\ none is_version_probe l = true
    /\ none is_write_result l = true /\ none is_launch l = true.
Proof.
  intros l H. repeat split; revert H; apply forallb_weaken;
    intros [] He; (discriminate He || reflexivity).
Qed.

Lemma cleanup_quiet :
  forall l, forallb cleanup_event l = true ->
    none is_mutate l = true /\ none is_version_probe l = true
    /\ none is_write_result l = true /\ none is_launch l = true
    /\ none is_patch l = true.
Proof.
  intros l H. repeat split; revert H; apply forallb_weaken;
    intros [] He; (discriminate He || reflexivity).
Qed.

(** Every run of [InstallChrome] stops in the preflight, stops because the
    temporary directory cannot be created, or goes on in the temporary
    directory: it decides a status and cleans up, or stops at line 347. *)
Lemma InstallChrome_cases :
  forall cmd_line iv prefs w,
    let sys := GetDistroBooleanPreference X prefs (kSystemLevel K) false in
    let run := InstallChrome X K cmd_line iv prefs w in
    (exists status w1 e1,
        CheckPreInstallConditions X K iv sys UNKNOWN_STATUS w
        = ((false, status), w1, e1)
        /\ run = (Some status, w1, e1))
    \/
    (exists w1 e1 w2,
        CheckPreInstallConditions X K iv sys UNKNOWN_STATUS w
        = ((true, UNKNOWN_STATUS), w1, e1)
        /\ ext_CreateNewTempDirectory X "chrome_" w1 = (None, w2)
        /\ run =
             (Some TEMP_DIR_FAILED,
              ext_WriteInstallerResult X sys TEMP_DIR_FAILED
                (IDS_INSTALL_TEMP_DIR_FAILED_BASE K) None w2,
              e1 ++ [EvCreateNewTempDirectory "chrome_" None;
                     EvWriteInstallerResult sys TEMP_DIR_FAILED
                       (IDS_INSTALL_TEMP_DIR_FAILED_BASE K) None]))
    \/
    (exists w1 e1 temp_path w2,
        CheckPreInstallConditions X K iv sys UNKNOWN_STATUS w
        = ((true, UNKNOWN_STATUS), w1, e1)
        /\ ext_CreateNewTempDirectory X "chrome_" w1 = (Some temp_path, w2)
        /\ let d := InstallChrome_decide X K cmd_line iv prefs sys
                      (install_archive X K cmd_line) temp_path w2 in
           match fst (result d) with
           | Some status =>
               let c := InstallChrome_cleanup X K cmd_line sys temp_path
                          (snd (result d)) status (world d) in
               run =
                 (Some status, world c,
                  e1 ++ EvCreateNewTempDirectory "chrome_" (Some temp_path)
                        :: events d ++ events c)
           | None =>
               run =
                 (None, world d,
                  e1 ++ EvCreateNewTempDirectory "chrome_" (Some temp_path)
                        :: events d)
           end).
Proof.
  intros cmd_line iv prefs w sys run.
  assert (Hrun : run = InstallChrome X K cmd_line iv prefs w) by reflexivity.
  unfold InstallChrome in Hrun. fold sys in Hrun.
  clearbody run sys. unfold bind at 1 in Hrun.
  destruct (CheckPreInstallConditions X K iv sys UNKNOWN_STATUS w)
    as [[[ok status] w1] e1] eqn:Hpre.
  destruct ok; cbn [negb] in Hrun.
  - destruct (CheckPreInstallConditions_passed _ _ _ _ _ _ _ Hpre)
      as [-> _].
    right. unfold bind at 1, CreateNewTempDirectory, call in Hrun.
    destruct (ext_CreateNewTempDirectory X "chrome_" w1)
      as [[temp_path|] w2] eqn:Htemp.
    + right. exists w1, e1, temp_path, w2.
      split; [reflexivity|]. split; [exact Htemp|].
      unfold InstallChrome_in_temp, bind in Hrun.
      destruct (InstallChrome_decide X K cmd_line iv prefs sys
                  (install_archive X K cmd_line) temp_path w2)
        as [[[[status|] inc] w3] ed].
      * cbn [result events world fst snd].
        pose proof (InstallChrome_cleanup_result cmd_line sys temp_path inc
                      status w3) as Hres.
        destruct (InstallChrome_cleanup X K cmd_line sys temp_path inc status
                    w3) as [[status' w4] ec].
        cbn in Hres. subst status' run. cbn. now rewrite app_nil_r.
      * cbn [result events world fst snd]. subst run. cbn.
        now rewrite app_nil_r.
    + left. exists w1, e1, w2. unfold_calls_in Hrun.
      split; [reflexivity|]. split; [exact Htemp|].
      subst run. reflexivity.
  - left. exists status, w1, e1. subst run. cbn. now rewrite app_nil_r.
Qed.

(** The same, by the calls made: the preflight's calls, then the shape
    decided, then the cleanup's calls.  A run that stopped at line 347 has
    no cleanup. *)
Lemma InstallChrome_shape :
  forall cmd_line iv prefs w,
    let sys := GetDistroBooleanPreference X prefs (kSystemLevel K) false in
    let run := InstallChrome X K cmd_line iv prefs w in
    exists e1,
      forallb preflight_event e1 = true /\
      ((exists status,
           result run = Some status
           /\ In status
                [OS_ERROR; EXISTING_VERSION_LAUNCHED; USER_LEVEL_INSTALL_EXISTS;
                 SYSTEM_LEVEL_INSTALL_EXISTS; INSTALL_DIR_IN_USE]
           /\ events run = e1)
       \/
       (none is_write_result e1 = true /\ none is_launch e1 = true /\
        (iv <> None -> e1 = [EvGetChromeVersion (negb sys) None]) /\
        ((result run = Some TEMP_DIR_FAILED /\
          events run =
            e1 ++ [EvCreateNewTempDirectory "chrome_" None;
                   EvWriteInstallerResult sys TEMP_DIR_FAILED
                     (IDS_INSTALL_TEMP_DIR_FAILED_BASE K) None])
         \/
         (exists temp_path decided cleaning,
             Decided X K cmd_line iv prefs sys temp_path (result run) decided
             /\ forallb cleanup_event cleaning = true
             /\ forallb (confined_to_temp X K cmd_line temp_path) cleaning
                = true
             /\ (result run = None -> cleaning = [])
             /\ events run =
                  e1 ++ EvCreateNewTempDirectory "chrome_" (Some temp_path)
                        :: decided ++ cleaning)))).
Proof.
  intros cmd_line iv prefs w sys run.
  pose proof (InstallChrome_cases cmd_line iv prefs w) as Hcases.
  cbv zeta in Hcases. fold sys run in Hcases.
  pose proof (CheckPreInstallConditions_calls iv sys UNKNOWN_STATUS w)
    as Hcalls.
  destruct Hcases as [(status & w1 & e1 & Hpre & Hrun)
                     |[(w1 & e1 & w2 & Hpre & _ & Hrun)
                      |(w1 & e1 & temp_path & w2 & Hpre & _ & Hrun)]];
    rewrite Hpre in Hcalls; cbn [events snd] in Hcalls;
    exists e1; (split; [exact Hcalls|]).
  - left. rewrite Hrun. exists status. split; [reflexivity|].
    split; [|reflexivity].
    exact (CheckPreInstallConditions_failed _ _ _ _ _ _ _ Hpre).
  - right.
    destruct (CheckPreInstallConditions_passed _ _ _ _ _ _ _ Hpre)
      as (_ & Hw & Hl & Hupd).
    repeat (split; [assumption|]). left. rewrite Hrun. now split.
  - right.
    destruct (CheckPreInstallConditions_passed _ _ _ _ _ _ _ Hpre)
      as (_ & Hw & Hl & Hupd).
    repeat (split; [assumption|]). right.
    pose proof (InstallChrome_decide_shape cmd_line iv prefs sys
                  (install_archive X K cmd_line) temp_path w2) as Hd.
    cbv zeta in Hd.
    destruct (fst (result (InstallChrome_decide X K cmd_line iv prefs sys
                             (install_archive X K cmd_line) temp_path w2)))
      as [status|] eqn:Hst.
    + exists temp_path. eexists. eexists.
      rewrite Hrun. cbn [result events fst snd].
      split; [exact Hd|].
      split; [apply InstallChrome_cleanup_calls|].
      split; [apply InstallChrome_cleanup_confined|].
      split; [discriminate|]. reflexivity.
    + exists temp_path. eexists. exists [].
      rewrite Hrun. cbn [result events fst snd].
      split; [exact Hd|].
      split; [reflexivity|]. split; [reflexivity|]. split; [reflexivity|].
      now rewrite app_nil_r.
Qed.

Lemma InstallChrome_cleanup_deletes :
  forall cmd_line sys temp_path inc status w,
    let c := InstallChrome_cleanup X K cmd_line sys temp_path inc status w in
    (exists deleted, In (EvDelete temp_path true deleted) (events c))
    /\ (HasSwitch X cmd_line (kInstallerData K) = true ->
        exists deleted,
          In (EvDelete (GetSwitchValue X cmd_line (kInstallerData K)) true
                deleted) (events c))
    /\ In (EvUpdateDiffInstallStatus sys inc status) (events c).
Proof.
  intros cmd_line sys temp_path inc status w c. subst c.
  unfold InstallChrome_cleanup. unfold_calls.
  follow_paths; cbn; (split; [|split]);
    try (intros; discriminate); eauto 8.
Qed.

(** A run whose preflight passed and whose temporary directory exists:
    the decision, then the cleanup unless the run stopped at line 347. *)
Lemma InstallChrome_in_temp_run :
  forall cmd_line iv prefs w status w1 e1 temp_path w2,
    let sys := GetDistroBooleanPreference X prefs (kSystemLevel K) false in
    CheckPreInstallConditions X K iv sys UNKNOWN_STATUS w
    = ((true, status), w1, e1) ->
    ext_CreateNewTempDirectory X "chrome_" w1 = (Some temp_path, w2) ->
    let run := InstallChrome X K cmd_line iv prefs w in
    let d := InstallChrome_decide X K cmd_line iv prefs sys
               (install_archive X K cmd_line) temp_path w2 in
    match fst (result d) with
    | Some decided =>
        let c := InstallChrome_cleanup X K cmd_line sys temp_path
                   (snd (result d)) decided (world d) in
        run =
          (Some decided, world c,
           e1 ++ EvCreateNewTempDirectory "chrome_" (Some temp_path)
                 :: events d ++ events c)
    | None =>
        run =
          (None, world d,
           e1 ++ EvCreateNewTempDirectory "chrome_" (Some temp_path)
                 :: events d)
    end.
Proof.
  intros cmd_line iv prefs w status w1 e1 temp_path w2 sys Hpre Htemp.
  pose proof (InstallChrome_cases cmd_line iv prefs w) as Hcases.
  cbv zeta in Hcases. fold sys in Hcases.
  destruct Hcases as [(s' & w1' & e1' & Hpre' & _)
                     |[(w1' & e1' & w2' & Hpre' & Htemp' & _)
                      |(w1' & e1' & tp' & w2' & Hpre' & Htemp' & Hrun)]];
    rewrite Hpre in Hpre'; try discriminate Hpre';
    injection Hpre' as ? ? ?; subst;
    rewrite Htemp in Htemp'; try discriminate Htemp';
    injection Htemp' as ? ?; subst.
  exact Hrun.
Qed.

(** The decision when [UnPackArchive] returns non-zero. *)
Lemma InstallChrome_decide_unpack_failed :
  forall cmd_line iv prefs sys archive temp_path w ret inc w3 unpacking,
    UnPackArchive X K archive sys iv temp_path
      (AppendToPath X temp_path (kInstallSourceDir K)) false w
    = ((ret, inc), w3, unpacking) ->
    ret <> 0 ->
    InstallChrome_decide X K cmd_line iv prefs sys archive temp_path w =
      ((Some UNCOMPRESSION_FAILED, inc),
       ext_WriteInstallerResult X sys UNCOMPRESSION_FAILED
         (IDS_INSTALL_UNCOMPRESSION_FAILED_BASE K) None w3,
       unpacking ++
       [EvWriteInstallerResult sys UNCOMPRESSION_FAILED
          (IDS_INSTALL_UNCOMPRESSION_FAILED_BASE K) None]).
Proof.
  intros cmd_line iv prefs sys archive temp_path w ret inc w3 unpacking
         Hunpack Hret.
  unfold InstallChrome_decide, bind. rewrite Hunpack.
  apply Z.eqb_neq in Hret. rewrite Hret. reflexivity.
Qed.

(** The whole run when [UnPackArchive] returns non-zero. *)
Lemma InstallChrome_unpack_failed_run :
  forall cmd_line iv prefs w status w1 e1 temp_path w2 ret inc w3 unpacking,
    let sys := GetDistroBooleanPreference X prefs (kSystemLevel K) false in
    CheckPreInstallConditions X K iv sys UNKNOWN_STATUS w
    = ((true, status), w1, e1) ->
    ext_CreateNewTempDirectory X "chrome_" w1 = (Some temp_path, w2) ->
    UnPackArchive X K (install_archive X K cmd_line) sys iv temp_path
      (AppendToPath X temp_path (kInstallSourceDir K)) false w2
    = ((ret, inc), w3, unpacking) ->
    ret <> 0 ->
    let run := InstallChrome X K cmd_line iv prefs w in
    exists cleaning,
      result run = Some UNCOMPRESSION_FAILED
      /\ events run =
           e1 ++ EvCreateNewTempDirectory "chrome_" (Some temp_path)
                 :: unpacking
                 ++ EvWriteInstallerResult sys UNCOMPRESSION_FAILED
                      (IDS_INSTALL_UNCOMPRESSION_FAILED_BASE K) None
                 :: cleaning
      /\ forallb cleanup_event cleaning = true
      /\ forallb (confined_to_temp X K cmd_line temp_path) cleaning = true
      /\ In (EvUpdateDiffInstallStatus sys inc UNCOMPRESSION_FAILED) cleaning.
Proof.
  intros cmd_line iv prefs w status w1 e1 temp_path w2 ret inc w3 unpacking
         sys Hpre Htemp Hunpack Hret run.
  pose proof (InstallChrome_in_temp_run cmd_line iv prefs w status w1 e1
                temp_path w2 Hpre Htemp) as Hrun.
  cbv zeta in Hrun. fold sys run in Hrun.
  rewrite (InstallChrome_decide_unpack_failed cmd_line iv prefs sys _ _ _ _ _
             _ _ Hunpack Hret) in Hrun.
  cbn [result events world fst snd] in Hrun.
  eexists. rewrite Hrun. cbn [result events fst snd].
  split; [reflexivity|]. split.
  - rewrite <- app_assoc. reflexivity.
  - split; [apply InstallChrome_cleanup_calls|].
    split; [apply InstallChrome_cleanup_confined|].
    apply InstallChrome_cleanup_deletes.
Qed.

End Phases.

(** Where a call found in a trace made of several pieces comes from. *)
Ltac where_in H :=
  repeat first
    [ apply in_app_or in H; destruct H as [H|H]
    | destruct H as [H|H] ];
  try contradiction.

(** A call of one class is not in a piece of another class. *)
Ltac not_in_phase H :=
  match goal with
  | Hclass : forallb _ ?l = true |- _ =>
      match type of H with
      | In _ l => apply (class_In _ _ _ Hclass) in H; discriminate H
      end
  end.

(** Exhibit a call in a trace made of several pieces. *)
Ltac find_in :=
  rewrite <- ?app_assoc; cbn [app];
  repeat first [ left; reflexivity | right | apply in_or_app; right ].

Ltac split_tests :=
  repeat match goal with
         | |- context [if ?b then _ else _] => destruct b eqn:?
         end.

Section Install.

Context {W : Type}.
Variable X : Externals W.
Variable K : Constants.

(** The part of a run in the temporary directory, when the version probe
    found nothing: the unpacking succeeded, the probe ran in the state the
    unpacking left, the [INVALID_ARCHIVE] result was written in the state
    the probe left, and no status is decided. *)
Lemma InstallChrome_decide_no_version :
  forall cmd_line iv prefs sys archive temp_path w src,
    let d := InstallChrome_decide X K cmd_line iv prefs sys archive temp_path
               w in
    let src_path :=
      AppendToPath X (AppendToPath X temp_path (kInstallSourceDir K))
        (kInstallSourceChromeDir K) in
    In (EvGetVersionFromDir src None) (events d) ->
    exists incremental_install w3 unpacking w4,
      UnPackArchive X K archive sys iv temp_path
        (AppendToPath X temp_path (kInstallSourceDir K)) false w
      = ((0, incremental_install), w3, unpacking)
      /\ ext_GetVersionFromDir X src_path w3 = (None, w4)
      /\ d = ((None, incremental_install),
              ext_WriteInstallerResult X sys INVALID_ARCHIVE
                (IDS_INSTALL_INVALID_ARCHIVE_BASE K) None w4,
              unpacking ++
              [EvGetVersionFromDir src_path None;
               EvWriteInstallerResult sys INVALID_ARCHIVE
                 (IDS_INSTALL_INVALID_ARCHIVE_BASE K) None]).
Proof.
  intros cmd_line iv prefs sys archive temp_path w src d src_path.
  subst d src_path. unfold InstallChrome_decide, bind.
  pose proof (UnPackArchive_calls X K archive sys iv temp_path
                (AppendToPath X temp_path (kInstallSourceDir K)) false w)
    as Hcalls.
  destruct (UnPackArchive X K archive sys iv temp_path
              (AppendToPath X temp_path (kInstallSourceDir K)) false w)
    as [[[ret inc] w3] u].
  cbn [events snd] in Hcalls.
  destruct (ret =? 0) eqn:Hret; cbn [negb].
  - apply Z.eqb_eq in Hret. subst ret.
    unfold InstallChrome_unpacked, InstallChrome_install, installer_result,
      post_install.
    unfold_calls.
    destruct (ext_GetVersionFromDir X
                (AppendToPath X
                   (AppendToPath X temp_path (kInstallSourceDir K))
                   (kInstallSourceChromeDir K)) w3) as [[nv|] w4] eqn:Hprobe.
    + follow_paths; cbn [events result fst snd];
        intros Hin; rewrite ?app_nil_r in Hin; exfalso;
        where_in Hin; try discriminate Hin; not_in_phase Hin.
    + intros _. exists inc, w3, u, w4.
      split; [reflexivity|]. split; [exact Hprobe|].
      cbn. rewrite ?app_nil_r. reflexivity.
  - unfold_calls. cbn. intros Hin. rewrite ?app_nil_r in Hin. exfalso.
    where_in Hin; try discriminate Hin. not_in_phase Hin.
Qed.

(** C7, as the code has it.  In every run of [InstallChrome]: when
    [GetVersionFromDir] found no version in the unpacked payload, the run
    writes the [INVALID_ARCHIVE] result and never calls
    [InstallOrUpdateChrome].  It then stops at line 347, where the null
    [installer_version] is dereferenced: that write is its last call, no
    status is returned, and the cleanup is not reached.  The run is the
    preflight, the new temporary directory, the unpacking, the probe and
    the write, each in the state the one before left, and nothing else. *)
Theorem InstallChrome_invalid_archive :
  forall cmd_line installed_version prefs w,
    let system_level :=
      GetDistroBooleanPreference X prefs (kSystemLevel K) false in
    let run := InstallChrome X K cmd_line installed_version prefs w in
    (exists src_path, In (EvGetVersionFromDir src_path None) (events run)) ->
    (result run = None
     /\ last (events run) EvRemoveLegacyRegistryKeys =
          EvWriteInstallerResult system_level INVALID_ARCHIVE
            (IDS_INSTALL_INVALID_ARCHIVE_BASE K) None
     /\ none is_mutate (events run) = true
     /\ none is_update_diff (events run) = true
     /\ none is_schedule (events run) = true)
    /\ exists w1 e1 temp_path w2 incremental_install w3 unpacking w4,
         let src_path :=
           AppendToPath X (AppendToPath X temp_path (kInstallSourceDir K))
             (kInstallSourceChromeDir K) in
         CheckPreInstallConditions X K installed_version system_level
           UNKNOWN_STATUS w = ((true, UNKNOWN_STATUS), w1, e1)
         /\ ext_CreateNewTempDirectory X "chrome_" w1 = (Some temp_path, w2)
         /\ UnPackArchive X K (install_archive X K cmd_line) system_level
              installed_version temp_path
              (AppendToPath X temp_path (kInstallSourceDir K)) false w2
            = ((0, incremental_install), w3, unpacking)
         /\ ext_GetVersionFromDir X src_path w3 = (None, w4)
         /\ run =
              (None,
               ext_WriteInstallerResult X system_level INVALID_ARCHIVE
                 (IDS_INSTALL_INVALID_ARCHIVE_BASE K) None w4,
               e1 ++ EvCreateNewTempDirectory "chrome_" (Some temp_path)
                     :: unpacking ++
                        [EvGetVersionFromDir src_path None;
                         EvWriteInstallerResult system_level INVALID_ARCHIVE
                           (IDS_INSTALL_INVALID_ARCHIVE_BASE K) None]).
Proof.
  intros cmd_line iv prefs w sys run [src Hin].
  split.
  2: { pose proof (InstallChrome_cases X K cmd_line iv prefs w) as Hcases.
       cbv zeta in Hcases. fold sys run in Hcases.
       pose proof (CheckPreInstallConditions_calls X K iv sys UNKNOWN_STATUS
                     w) as Hcalls.
       destruct Hcases as [(st & w1 & e1 & Hpre & Hrun)
                          |[(w1 & e1 & w2 & Hpre & _ & Hrun)
                           |(w1 & e1 & temp_path & w2 & Hpre & Htemp & Hrun)]];
         rewrite Hpre in Hcalls; cbn [events snd] in Hcalls.
       - exfalso. rewrite Hrun in Hin. cbn [events snd] in Hin.
         not_in_phase Hin.
       - exfalso. rewrite Hrun in Hin. cbn [events snd] in Hin.
         where_in Hin; try discriminate Hin. not_in_phase Hin.
       - pose proof (InstallChrome_decide_no_version cmd_line iv prefs sys
                       (install_archive X K cmd_line) temp_path w2 src) as Hd.
         cbv zeta in Hd.
         remember (InstallChrome_decide X K cmd_line iv prefs sys
                     (install_archive X K cmd_line) temp_path w2) as d.
         clear Heqd.
         assert (Hfound : In (EvGetVersionFromDir src None) (events d)).
         { destruct (fst (result d)) as [decided|];
             rewrite Hrun in Hin; cbn [events snd] in Hin;
             apply in_app_or in Hin; destruct Hin as [Hin|Hin];
             try not_in_phase Hin;
             (destruct Hin as [Hin|Hin]; [discriminate Hin|]);
             try exact Hin.
           apply in_app_or in Hin. destruct Hin as [Hin|Hin]; [exact Hin|].
           pose proof (InstallChrome_cleanup_calls X K cmd_line sys temp_path
                         (snd (result d)) decided (world d)) as Hc.
           not_in_phase Hin. }
         destruct (Hd Hfound) as (inc & w3 & u & w4 & Hun & Hprobe & Heq).
         subst d. cbn [result events world fst snd] in Hrun.
         exists w1, e1, temp_path, w2, inc, w3, u, w4. cbv zeta.
         repeat (split; [assumption|]). exact Hrun. }
  pose proof (InstallChrome_shape X K cmd_line iv prefs w) as Hshape.
  cbv zeta in Hshape. fold sys run in Hshape.
  destruct Hshape
    as (e1 & Hpre &
        [(st & _ & _ & Hev)
        |(_ & _ & _ &
          [(_ & Hev)
          |(temp_path & decided & cleaning & Hd & Hc & _ & Hnone & Hev)])]);
    rewrite Hev in Hin |- *; clear Hev.
  - not_in_phase Hin.
  - where_in Hin; try discriminate Hin. not_in_phase Hin.
  - destruct (preflight_quiet _ Hpre) as (Hm1 & _).
    assert (Hd1 : none is_update_diff e1 = true
                  /\ none is_schedule e1 = true).
    { split; revert Hpre; apply forallb_weaken;
        intros [] He; (discriminate He || reflexivity). }
    destruct Hd1 as [Hd1 Hs1].
    destruct (cleanup_quiet _ Hc) as (Hm3 & _).
    revert Hin Hnone.
    inversion Hd as [u Hu _ Hs He | u sp Hu _ Hs He
                    | u sp v nv Hu _ _ _ Hs He
                    | u sp nv r st msg exe launch w' Hu _ _ _ Hs He];
      clear He; intros Hin Hnone;
      destruct (unpack_quiet _ Hu) as (Hm2 & _);
      try rewrite post_install_calls in Hin.
    + where_in Hin; try discriminate Hin; not_in_phase Hin.
    + rewrite (Hnone eq_refl), app_nil_r.
      assert (Hd2 : none is_update_diff u = true /\ none is_schedule u = true).
      { split; revert Hu; apply forallb_weaken;
          intros [] He; (discriminate He || reflexivity). }
      destruct Hd2 as [Hd2 Hs2].
      split; [reflexivity|]. split.
      * replace (e1 ++ EvCreateNewTempDirectory "chrome_" (Some temp_path)
                      :: u ++ [EvGetVersionFromDir sp None;
                               EvWriteInstallerResult sys INVALID_ARCHIVE
                                 (IDS_INSTALL_INVALID_ARCHIVE_BASE K) None])
          with ((e1 ++ EvCreateNewTempDirectory "chrome_" (Some temp_path)
                       :: u ++ [EvGetVersionFromDir sp None])
                ++ [EvWriteInstallerResult sys INVALID_ARCHIVE
                      (IDS_INSTALL_INVALID_ARCHIVE_BASE K) None])
          by (rewrite <- !app_assoc; cbn [app];
              rewrite <- !app_assoc; reflexivity).
        apply last_last.
      * unfold none in *. rewrite !forallb_app. cbn [forallb].
        rewrite !forallb_app. cbn.
        now rewrite Hm1, Hm2, Hd1, Hd2, Hs1, Hs2.
    + where_in Hin; try discriminate Hin; not_in_phase Hin.
    + exfalso.
      where_in Hin; try discriminate Hin; try not_in_phase Hin.
      revert Hin. split_tests; cbn; intuition discriminate.
Qed.

(** C9.  In every run of [InstallChrome] that ends in
    [FIRST_INSTALL_SUCCESS]: a system-level install, or one whose
    preferences say do-not-launch, launches nothing; a user-level install
    without that preference launches Chrome, once. *)
Theorem InstallChrome_first_install_launch :
  forall cmd_line installed_version prefs w,
    let system_level :=
      GetDistroBooleanPreference X prefs (kSystemLevel K) false in
    let do_not_launch_chrome :=
      GetDistroBooleanPreference X prefs (kDoNotLaunchChrome K) false in
    let run := InstallChrome X K cmd_line installed_version prefs w in
    result run = Some FIRST_INSTALL_SUCCESS ->
    (system_level = true \/ do_not_launch_chrome = true ->
     none is_launch (events run) = true)
    /\
    (system_level = false -> do_not_launch_chrome = false ->
     In (EvLaunchChrome false) (events run)
     /\ count is_launch (events run) = 1%nat).
Proof.
  intros cmd_line iv prefs w sys dnl run Hfirst.
  pose proof (InstallChrome_shape X K cmd_line iv prefs w) as Hshape.
  cbv zeta in Hshape. fold sys run in Hshape.
  rewrite Hfirst in Hshape.
  destruct Hshape
    as (e1 & Hpre &
        [(st & Heq & Hst & _)
        |(_ & Hl1 & _ &
          [(Hst & _)
          |(temp_path & decided & cleaning & Hd & Hc & _ & _ & Hev)])]);
    [injection Heq as <-; cbn in Hst; intuition discriminate
    | discriminate Hst |].
  rewrite Hev. clear Hev.
  destruct (cleanup_quiet _ Hc) as (_ & _ & _ & Hl3 & _).
  inversion Hd as [ | | | u sp nv r st msg exe launch w' Hu _ _ _ Hs He].
  clear He. destruct (unpack_quiet _ Hu) as (_ & _ & _ & Hl2).
  rewrite post_install_calls. cbn [status_eqb InstallStatus_eq_dec].
  fold dnl. unfold count, none in *.
  split.
  - intros Hquiet.
    assert (Hno : negb sys && negb dnl = false)
      by (destruct Hquiet as [-> | ->]; [reflexivity | apply andb_false_r]).
    rewrite Hno. rewrite forallb_app. cbn [forallb].
    rewrite !forallb_app. cbn.
    now rewrite Hl1, Hl2, Hl3.
  - intros Hsys Hdnl. rewrite Hsys, Hdnl. cbn [negb andb]. split.
    + find_in.
    + fold (count is_launch e1) in *.
      rewrite filter_app, length_app.
      cbn [filter is_launch]. rewrite !filter_app, !length_app.
      fold (count is_launch e1) (count is_launch u)
           (count is_launch cleaning).
      rewrite (count_none _ _ Hl1), (count_none _ _ Hl2),
        (count_none _ _ Hl3).
      reflexivity.
Qed.

(** [Version_compare] of a version with itself. *)
Lemma Version_compare_refl : forall v, Version_compare v v = Eq.
Proof.
  intros v. unfold Version_compare.
  generalize (Nat.max (List.length v) (List.length v)) as n.
  intros n. revert v.
  induction n as [|n IH]; intros v; cbn; [reflexivity|].
  now rewrite N.compare_refl.
Qed.

(** C4, as the code has it.  An update run, the installed version being
    [v], that found the version [candidate] in the unpacked payload.  When
    [v] is higher than [candidate] the run writes and returns
    [HIGHER_VERSION_EXISTS], then cleans up; [InstallOrUpdateChrome] is not
    called and every write or delete stays in the temporary directory (or
    is the --installer-data file).  When the two are equal the run calls
    [InstallOrUpdateChrome] for [candidate], in the state the probe left,
    reports the status that call decided ([OS_ERROR] when the install path
    cannot be built), and goes on from the state the call left. *)
Theorem InstallChrome_version_compare :
  forall cmd_line v prefs w status w1 e1 temp_path w2 incremental_install w3
         unpacking candidate w4,
    let system_level :=
      GetDistroBooleanPreference X prefs (kSystemLevel K) false in
    let src_path :=
      AppendToPath X (AppendToPath X temp_path (kInstallSourceDir K))
        (kInstallSourceChromeDir K) in
    CheckPreInstallConditions X K (Some v) system_level UNKNOWN_STATUS w
    = ((true, status), w1, e1) ->
    ext_CreateNewTempDirectory X "chrome_" w1 = (Some temp_path, w2) ->
    UnPackArchive X K (install_archive X K cmd_line) system_level (Some v)
      temp_path (AppendToPath X temp_path (kInstallSourceDir K)) false w2
    = ((0, incremental_install), w3, unpacking) ->
    ext_GetVersionFromDir X src_path w3 = (Some candidate, w4) ->
    let run := InstallChrome X K cmd_line (Some v) prefs w in
    let before :=
      e1 ++ EvCreateNewTempDirectory "chrome_" (Some temp_path)
            :: unpacking ++ [EvGetVersionFromDir src_path (Some candidate)] in
    (IsHigherThan v candidate = true ->
     let report :=
       EvWriteInstallerResult system_level HIGHER_VERSION_EXISTS
         (IDS_INSTALL_HIGHER_VERSION_BASE K) None in
     let experiment :=
       EvLaunchUserExperiment HIGHER_VERSION_EXISTS (Some candidate)
         system_level in
     let c :=
       InstallChrome_cleanup X K cmd_line system_level temp_path
         incremental_install HIGHER_VERSION_EXISTS
         (ext_LaunchUserExperiment X HIGHER_VERSION_EXISTS (Some candidate)
            system_level
            (ext_WriteInstallerResult X system_level HIGHER_VERSION_EXISTS
               (IDS_INSTALL_HIGHER_VERSION_BASE K) None w4)) in
     run = (Some HIGHER_VERSION_EXISTS, world c,
            before ++ [report; experiment] ++ events c)
     /\ none is_mutate (events run) = true
     /\ forallb (confined_to_temp X K cmd_line temp_path) (events run) = true)
    /\
    (v = candidate \/ Version_compare v candidate = Eq ->
     forall returned w5,
       ext_InstallOrUpdateChrome X (program X cmd_line)
         (AppendToPath X temp_path (kChromeArchive K)) temp_path
         (GetSwitchValue X cmd_line (kInstallerData K)) prefs candidate
         (Some v) w4 = (returned, w5) ->
       exists install_status msg launch,
         (install_status = returned \/ install_status = OS_ERROR)
         /\
         let mutate :=
           EvInstallOrUpdateChrome (program X cmd_line)
             (AppendToPath X temp_path (kChromeArchive K)) temp_path
             (GetSwitchValue X cmd_line (kInstallerData K)) candidate
             (Some v) returned in
         let report :=
           EvWriteInstallerResult system_level install_status msg launch in
         let p :=
           post_install X K prefs system_level install_status
             (ext_WriteInstallerResult X system_level install_status msg
                launch w5) in
         let experiment :=
           EvLaunchUserExperiment install_status (Some candidate)
             system_level in
         let c :=
           InstallChrome_cleanup X K cmd_line system_level temp_path
             incremental_install install_status
             (ext_LaunchUserExperiment X install_status (Some candidate)
                system_level (world p)) in
         run = (Some install_status, world c,
                before ++ [mutate; report] ++ events p ++ [experiment]
                ++ events c)).
Proof.
  intros cmd_line v prefs w status w1 e1 temp_path w2 inc w3 unpacking
         candidate w4 sys src_path Hpre Htemp Hunpack Hprobe run before.
  pose proof (InstallChrome_in_temp_run X K cmd_line (Some v) prefs w status
                w1 e1 temp_path w2 Hpre Htemp) as Hrun.
  cbv zeta in Hrun. fold sys run in Hrun.
  unfold InstallChrome_decide, bind in Hrun. rewrite Hunpack in Hrun.
  cbn [Z.eqb negb] in Hrun.
  unfold InstallChrome_unpacked in Hrun. unfold_calls_in Hrun.
  fold src_path in Hrun. rewrite Hprobe in Hrun.
  destruct (CheckPreInstallConditions_passed X K _ _ _ _ _ _ _ Hpre)
    as (_ & _ & _ & He1).
  specialize (He1 ltac:(discriminate)).
  pose proof (UnPackArchive_calls X K (install_archive X K cmd_line) sys
                (Some v) temp_path
                (AppendToPath X temp_path (kInstallSourceDir K)) false w2)
    as Hu.
  pose proof (UnPackArchive_confined X K cmd_line
                (install_archive X K cmd_line) sys (Some v) temp_path false w2)
    as Hcu.
  rewrite Hunpack in Hu, Hcu. cbn [events snd] in Hu, Hcu.
  destruct (unpack_quiet _ Hu) as (Hm2 & _).
  split.
  - intros Hhigher report experiment c.
    rewrite Hhigher in Hrun. cbn in Hrun. rewrite ?app_nil_r in Hrun.
    fold c in Hrun.
    assert (Heq : run = (Some HIGHER_VERSION_EXISTS, world c,
                         before ++ [report; experiment] ++ events c)).
    { rewrite Hrun. unfold before. rewrite <- !app_assoc. cbn [app].
      rewrite <- !app_assoc. reflexivity. }
    split; [exact Heq|]. rewrite Heq. cbn [events snd].
    pose proof (InstallChrome_cleanup_calls X K cmd_line sys temp_path inc
                  HIGHER_VERSION_EXISTS
                  (ext_LaunchUserExperiment X HIGHER_VERSION_EXISTS
                     (Some candidate) sys
                     (ext_WriteInstallerResult X sys HIGHER_VERSION_EXISTS
                        (IDS_INSTALL_HIGHER_VERSION_BASE K) None w4))) as Hc.
    pose proof (InstallChrome_cleanup_confined X K cmd_line sys temp_path inc
                  HIGHER_VERSION_EXISTS
                  (ext_LaunchUserExperiment X HIGHER_VERSION_EXISTS
                     (Some candidate) sys
                     (ext_WriteInstallerResult X sys HIGHER_VERSION_EXISTS
                        (IDS_INSTALL_HIGHER_VERSION_BASE K) None w4)))
      as Hconf.
    fold c in Hc, Hconf.
    destruct (cleanup_quiet _ Hc) as (Hm3 & _).
    unfold before, none in *. subst e1.
    split.
    + cbn [app forallb is_mutate negb andb].
      rewrite !forallb_app. cbn. now rewrite Hm2, Hm3.
    + cbn [app forallb confined_to_temp andb].
      rewrite !forallb_app. cbn. now rewrite Hcu, Hconf.
  - intros Hsame returned w5 Hinst.
    assert (Hnot : IsHigherThan v candidate = false).
    { assert (Hc' : Version_compare v candidate = Eq)
        by (destruct Hsame as [-> | Heq];
            [apply Version_compare_refl | exact Heq]).
      unfold IsHigherThan. now rewrite Hc'. }
    rewrite Hnot in Hrun.
    unfold InstallChrome_install in Hrun. unfold_calls_in Hrun.
    rewrite Hinst in Hrun.
    destruct (installer_result X K sys returned)
      as [[install_status msg] chrome_exe] eqn:Hres.
    exists install_status, msg.
    exists (if negb (GetDistroBooleanPreference X prefs
                       (kDoNotRegisterForUpdateLaunch K) false)
               && negb (status_eqb install_status IN_USE_UPDATED)
            then Some chrome_exe else None).
    split; [exact (installer_result_status X K _ _ _ _ _ Hres)|].
    cbv zeta.
    destruct (post_install X K prefs sys install_status _)
      as [[u w6] post] eqn:Hpost.
    cbn in Hrun |- *. rewrite ?app_nil_r in Hrun.
    rewrite Hrun. unfold before. rewrite <- !app_assoc. cbn [app].
    rewrite <- !app_assoc. reflexivity.
Qed.

End Install.

Section Unpack.

Context {W : Type}.
Variable X : Externals W.
Variable K : Constants.

(** C2.  [UnPackArchive], once the first decompression has succeeded: the
    payload is taken for a differential one exactly when chrome.7z is not
    found in the temporary directory.  In that case, with no installed
    version, the function returns the code of [CHROME_NOT_INSTALLED] having
    made no further call; [InstallChrome] then ends in
    [UNCOMPRESSION_FAILED] (that code being non-zero), with no patch applied
    and nothing installed, and reports the run as a differential one. *)
Theorem UnPackArchive_differential :
  forall archive system_install installed_version temp_path path w
         r unpacked_file w1 found w2,
    ext_UnPackArchive X archive temp_path w = ((r, unpacked_file), w1) ->
    wrap_int32 r = NO_ERROR ->
    ext_PathExists X (AppendToPath X temp_path (kChromeArchive K)) w1
    = (found, w2) ->
    let u := UnPackArchive X K archive system_install installed_version
               temp_path path false w in
    snd (result u) = negb found
    /\
    (found = false -> installed_version = None ->
     result u = (to_DWORD (status_code K CHROME_NOT_INSTALLED), true)
     /\ events u =
          [EvLzmaUnPackArchive archive temp_path NO_ERROR unpacked_file;
           EvPathExists (AppendToPath X temp_path (kChromeArchive K)) false]
     /\
     (to_DWORD (status_code K CHROME_NOT_INSTALLED) <> 0 ->
      forall cmd_line prefs w0 status w00 e0,
        GetDistroBooleanPreference X prefs (kSystemLevel K) false
        = system_install ->
        install_archive X K cmd_line = archive ->
        path = AppendToPath X temp_path (kInstallSourceDir K) ->
        CheckPreInstallConditions X K None system_install UNKNOWN_STATUS w0
        = ((true, status), w00, e0) ->
        ext_CreateNewTempDirectory X "chrome_" w00 = (Some temp_path, w) ->
        let run := InstallChrome X K cmd_line None prefs w0 in
        result run = Some UNCOMPRESSION_FAILED
        /\ none is_patch (events run) = true
        /\ none is_mutate (events run) = true
        /\ In (EvUpdateDiffInstallStatus system_install true
                 UNCOMPRESSION_FAILED) (events run))).
Proof.
  intros archive sys iv temp_path path w r unpacked_file w1 found w2
         Hunpack Hret Hfound u.
  assert (Hu : u = UnPackArchive X K archive sys iv temp_path path false w)
    by reflexivity.
  unfold UnPackArchive in Hu. unfold_calls_in Hu.
  rewrite Hunpack in Hu. cbn [fst snd] in Hu. rewrite Hret in Hu.
  cbn [Z.eqb NO_ERROR negb] in Hu. rewrite Hfound in Hu.
  split.
  - rewrite Hu. destruct found; cbn [negb].
    + now destruct (ext_UnPackArchive X _ path w2) as [[? ?] ?].
    + destruct iv; [|reflexivity].
      destruct (ext_ApplyDiffPatch X _ _ _ w2) as [i w3].
      destruct (negb (wrap_int32 i =? 0)); [reflexivity|].
      now destruct (ext_UnPackArchive X _ path w3) as [[? ?] ?].
  - intros -> ->. cbn in Hu.
    split; [rewrite Hu; reflexivity|]. split; [rewrite Hu; reflexivity|].
    intros Hcode cmd_line prefs w0 status w00 e0 Hsys Harchive Hpath
           Hpre Htemp run.
    subst sys archive path.
    destruct (InstallChrome_unpack_failed_run X K cmd_line None prefs w0
                status w00 e0 temp_path w _ _ _ _ Hpre Htemp Hu Hcode)
      as (cleaning & Hres & Hev & Hc & _ & Hdiff).
    fold run in Hres, Hev.
    pose proof (CheckPreInstallConditions_calls X K None
                  (GetDistroBooleanPreference X prefs (kSystemLevel K) false)
                  UNKNOWN_STATUS w0) as Hcalls.
    rewrite Hpre in Hcalls. cbn [events snd] in Hcalls.
    destruct (preflight_quiet _ Hcalls) as (Hm1 & _ & Hp1).
    destruct (cleanup_quiet _ Hc) as (Hm3 & _ & _ & _ & Hp3).
    split; [exact Hres|]. rewrite Hev. unfold none in *.
    cbn [app]. rewrite !forallb_app. cbn.
    rewrite Hm1, Hm3, Hp1, Hp3. repeat split.
    find_in. exact Hdiff.
Qed.


(** C6.  A run that reached the cleanup returns the status decided before
    it, whatever the deletes answer.  The cleanup deletes the temporary
    directory and then, when --installer-data was given, the preferences
    file.  When a delete failed, the temporary directory and, with
    --installer-data, the preferences file are passed to
    [ScheduleDirectoryForDeletion], so that every path whose delete failed
    is scheduled.  The last call reports the differential-install status,
    and the run returns in the state that call left. *)
Theorem InstallChrome_cleanup_keeps_status :
  forall cmd_line installed_version prefs w status w1 e1 temp_path w2
         install_status incremental_install w3 deciding deleted w4,
    let system_level :=
      GetDistroBooleanPreference X prefs (kSystemLevel K) false in
    CheckPreInstallConditions X K installed_version system_level
      UNKNOWN_STATUS w = ((true, status), w1, e1) ->
    ext_CreateNewTempDirectory X "chrome_" w1 = (Some temp_path, w2) ->
    InstallChrome_decide X K cmd_line installed_version prefs system_level
      (install_archive X K cmd_line) temp_path w2
    = ((Some install_status, incremental_install), w3, deciding) ->
    ext_Delete X temp_path true w3 = (deleted, w4) ->
    let with_data := HasSwitch X cmd_line (kInstallerData K) in
    let prefs_path := GetSwitchValue X cmd_line (kInstallerData K) in
    let second := ext_Delete X prefs_path true w4 in
    let cleanup_success :=
      if with_data then fst second && deleted else deleted in
    let w5 := if with_data then snd second else w4 in
    let w6 :=
      if cleanup_success then w5
      else
        let w' := ext_ScheduleDirectoryForDeletion X temp_path w5 in
        if with_data then ext_ScheduleDirectoryForDeletion X prefs_path w'
        else w' in
    let cleaning :=
      [EvDelete temp_path true deleted]
      ++ (if with_data then [EvDelete prefs_path true (fst second)] else [])
      ++ (if cleanup_success then []
          else EvScheduleDirectoryForDeletion temp_path
               :: (if with_data
                   then [EvScheduleDirectoryForDeletion prefs_path]
                   else []))
      ++ [EvUpdateDiffInstallStatus system_level incremental_install
            install_status] in
    InstallChrome X K cmd_line installed_version prefs w =
      (Some install_status,
       ext_UpdateDiffInstallStatus X system_level incremental_install
         install_status w6,
       e1 ++ EvCreateNewTempDirectory "chrome_" (Some temp_path)
             :: deciding ++ cleaning)
    /\ (forall path,
           In (EvDelete path true false) cleaning ->
           In (EvScheduleDirectoryForDeletion path) cleaning).
Proof.
  intros cmd_line iv prefs w status w1 e1 temp_path w2 install_status inc w3
         deciding deleted w4 sys Hpre Htemp Hdecide Hdel with_data prefs_path
         second cleanup_success w5 w6 cleaning.
  pose proof (InstallChrome_in_temp_run X K cmd_line iv prefs w status w1 e1
                temp_path w2 Hpre Htemp) as Hrun.
  cbv zeta in Hrun. fold sys in Hrun. rewrite Hdecide in Hrun.
  cbn [result events world fst snd] in Hrun.
  pose proof (InstallChrome_cleanup_deferred X K cmd_line sys temp_path inc
                install_status w3) as Hdef.
  cbv zeta in Hdef.
  assert (Hc : InstallChrome_cleanup X K cmd_line sys temp_path inc
                 install_status w3
               = (install_status,
                  ext_UpdateDiffInstallStatus X sys inc install_status w6,
                  cleaning)).
  { unfold InstallChrome_cleanup. unfold_calls. rewrite Hdel.
    subst cleaning w6 w5 cleanup_success second.
    fold with_data prefs_path.
    destruct with_data; cbv beta iota zeta.
    - destruct (ext_Delete X prefs_path true w4) as [d2 w5'].
      cbn [fst snd].
      destruct (d2 && deleted); reflexivity.
    - destruct deleted; reflexivity. }
  rewrite Hc in Hrun, Hdef. cbn [result events world fst snd] in Hrun, Hdef.
  split; [exact Hrun | exact Hdef].
Qed.

End Unpack.

(** C2 on a machine where the download unpacks to a patch and no Chrome is
    installed. *)
Lemma UnPackArchive_differential_witness :
  let run := InstallChrome (machine patch_only) constants setup_exe None None
               tt in
  result run = Some UNCOMPRESSION_FAILED
  /\ In (EvUpdateDiffInstallStatus false true UNCOMPRESSION_FAILED)
        (events run).
Proof.
  pose proof (UnPackArchive_differential (machine patch_only) constants
                "C:\Downloads\chrome.packed.7z" false None "C:\Temp\chrome_1"
                "C:\Temp\chrome_1\source" tt 0
                "C:\Temp\chrome_1\chrome_patch.diff" tt false tt
                eq_refl eq_refl eq_refl) as [_ H].
  destruct (H eq_refl eq_refl) as (_ & _ & H').
  assert (Hcode : to_DWORD (status_code constants CHROME_NOT_INSTALLED) <> 0)
    by (vm_compute; discriminate).
  destruct (H' Hcode setup_exe None tt UNKNOWN_STATUS tt
              [EvGetChromeVersion true None;
               EvPathExists "C:\Users\u\Chromium\Application" false]
              eq_refl eq_refl eq_refl eq_refl eq_refl)
    as (A & _ & _ & B).
  exact (conj A B).
Defined.



(** C4 as stated fails: --installerdata names the user-level install
    directory, 11.0 is installed and the payload holds 10.0.  The run ends
    in [HIGHER_VERSION_EXISTS], and its cleanup has deleted the install
    directory. *)
Lemma InstallChrome_higher_version_deletes_installer_data :
  let X := machine healthy in
  let run := InstallChrome X constants setup_exe_data_at_install_path
               (Some [11; 0]%N) None tt in
  IsHigherThan [11; 0]%N [10; 0]%N = true
  /\ In (EvGetVersionFromDir "C:\Temp\chrome_1\source\Chrome-bin"
           (Some [10; 0]%N)) (events run)
  /\ result run = Some HIGHER_VERSION_EXISTS
  /\ In (EvDelete (GetChromeInstallPath X false) true true) (events run).
Proof.
  repeat split; vm_compute; tauto.
Qed.

(** C4 amended, on the healthy machine: the payload holds 10.0; with 11.0
    installed the run stops, with 10.0 installed it repairs. *)
Lemma InstallChrome_version_compare_witness :
  result (InstallChrome (machine healthy) constants setup_exe
            (Some [11; 0]%N) None tt) = Some HIGHER_VERSION_EXISTS
  /\ none is_mutate
       (events (InstallChrome (machine healthy) constants setup_exe
                  (Some [11; 0]%N) None tt)) = true
  /\ In (EvInstallOrUpdateChrome "C:\Downloads\setup.exe"
           "C:\Temp\chrome_1\chrome.7z" "C:\Temp\chrome_1" EmptyString
           [10; 0]%N (Some [10; 0]%N) FIRST_INSTALL_SUCCESS)
        (events (InstallChrome (machine healthy) constants setup_exe
                   (Some [10; 0]%N) None tt)).
Proof.
  pose proof (InstallChrome_version_compare (machine healthy) constants
                setup_exe [11; 0]%N None tt UNKNOWN_STATUS tt
                [EvGetChromeVersion true None] "C:\Temp\chrome_1" tt false tt
                [EvLzmaUnPackArchive "C:\Downloads\chrome.packed.7z"
                   "C:\Temp\chrome_1" 0 "C:\Temp\chrome_1\chrome.7z";
                 EvPathExists "C:\Temp\chrome_1\chrome.7z" true;
                 EvLzmaUnPackArchive "C:\Temp\chrome_1\chrome.7z"
                   "C:\Temp\chrome_1\source" 0
                   "C:\Temp\chrome_1\chrome.7z"]
                [10; 0]%N tt eq_refl eq_refl eq_refl eq_refl) as [Hhigher _].
  pose proof (InstallChrome_version_compare (machine healthy) constants
                setup_exe [10; 0]%N None tt UNKNOWN_STATUS tt
                [EvGetChromeVersion true None] "C:\Temp\chrome_1" tt false tt
                [EvLzmaUnPackArchive "C:\Downloads\chrome.packed.7z"
                   "C:\Temp\chrome_1" 0 "C:\Temp\chrome_1\chrome.7z";
                 EvPathExists "C:\Temp\chrome_1\chrome.7z" true;
                 EvLzmaUnPackArchive "C:\Temp\chrome_1\chrome.7z"
                   "C:\Temp\chrome_1\source" 0
                   "C:\Temp\chrome_1\chrome.7z"]
                [10; 0]%N tt eq_refl eq_refl eq_refl eq_refl) as [_ Hsame].
  destruct (Hhigher eq_refl) as (Hrun & Hquiet & _).
  destruct (Hsame (or_introl eq_refl) FIRST_INSTALL_SUCCESS tt eq_refl)
    as (install_status & msg & launch & _ & Hrepair).
  split; [exact (f_equal (@result _ _) Hrun)|]. split; [exact Hquiet|].
  refine (eq_ind_r (fun r => In _ (events r)) _ Hrepair).
  cbn [events snd]. apply in_or_app. right. left. reflexivity.
Defined.

(** C6 on a machine where no delete succeeds: the run still returns
    [FIRST_INSTALL_SUCCESS] and the temporary directory is scheduled for
    deletion. *)
Lemma InstallChrome_cleanup_keeps_status_witness :
  let run := InstallChrome (machine locked_temp) constants setup_exe None None
               tt in
  result run = Some FIRST_INSTALL_SUCCESS
  /\ In (EvDelete "C:\Temp\chrome_1" true false) (events run)
  /\ In (EvScheduleDirectoryForDeletion "C:\Temp\chrome_1") (events run).
Proof.
  destruct (InstallChrome_cleanup_keeps_status (machine locked_temp) constants
              setup_exe None None tt UNKNOWN_STATUS tt
              [EvGetChromeVersion true None;
               EvPathExists "C:\Users\u\Chromium\Application" false]
              "C:\Temp\chrome_1" tt FIRST_INSTALL_SUCCESS false tt
              _ false tt eq_refl eq_refl eq_refl eq_refl)
    as (Hrun & _).
  cbv zeta.
  refine (eq_ind_r
            (fun r => result r = Some FIRST_INSTALL_SUCCESS
                      /\ In _ (events r) /\ In _ (events r)) _ Hrun).
  cbn [result events fst snd].
  split; [reflexivity|].
  split; apply in_or_app; right; right; apply in_or_app; right.
  - left. reflexivity.
  - right. left. reflexivity.
Defined.

(** C7 on a machine whose payload holds no version: the run returns no
    status. *)
Lemma InstallChrome_invalid_archive_witness :
  let run := InstallChrome (machine no_version) constants setup_exe None None
               tt in
  result run = None
  /\ last (events run) EvRemoveLegacyRegistryKeys =
       EvWriteInstallerResult false INVALID_ARCHIVE 1607 None
  /\ none is_mutate (events run) = true.
Proof.
  assert (Hprobe : exists src_path,
             In (EvGetVersionFromDir src_path None)
                (events (InstallChrome (machine no_version) constants
                           setup_exe None None tt))).
  { exists "C:\Temp\chrome_1\source\Chrome-bin". vm_compute. tauto. }
  destruct (InstallChrome_invalid_archive (machine no_version) constants
              setup_exe None None tt Hprobe)
    as ((A & B & C & _) & _).
  exact (conj A (conj B C)).
Defined.

(** C9 on the healthy machine: a user-level first install launches Chrome;
    the same install at system level launches nothing. *)
Lemma InstallChrome_first_install_launch_witness :
  In (EvLaunchChrome false)
     (events (InstallChrome (machine healthy) constants setup_exe None None
                tt))
  /\ none is_launch
       (events (InstallChrome (machine healthy) constants setup_exe None
                  (Some [("system_level", true)]) tt)) = true.
Proof.
  split.
  - exact (proj1 (proj2 (InstallChrome_first_install_launch (machine healthy)
                           constants setup_exe None None tt eq_refl)
                    eq_refl eq_refl)).
  - exact (proj1 (InstallChrome_first_install_launch (machine healthy)
                    constants setup_exe None (Some [("system_level", true)])
                    tt eq_refl)
             (or_introl eq_refl)).
Defined.

(** * Further properties of the code *)

Section MoreOfInstallChrome.

Context {W : Type}.
Variable X : Externals W.
Variable K : Constants.

Lemma count_cons :
  forall p e l, count p (e :: l) = ((if p e then 1 else 0) + count p l)%nat.
Proof. intros p e l. unfold count. cbn. now destruct (p e). Qed.

Lemma count_nil : forall p, count p [] = 0%nat.
Proof. reflexivity. Qed.

Lemma last_snoc :
  forall (l : list Event) e d, last (l ++ [e]) d = e.
Proof.
  intros l e d. induction l as [|x l IH]; [reflexivity|].
  cbn [app]. destruct (l ++ [e]) eqn:E; [now destruct l|].
  cbn [last]. exact IH.
Qed.

(** A failed preflight wrote one result, with the status it returned and
    no launch command. *)
Lemma CheckPreInstallConditions_failed_write :
  forall iv sys status w status' w1 e1,
    CheckPreInstallConditions X K iv sys status w = ((false, status'), w1, e1) ->
    count is_write_result e1 = 1%nat
    /\ exists msg, In (EvWriteInstallerResult sys status' msg None) e1.
Proof.
  intros iv sys status w status' w1 e1.
  unfold CheckPreInstallConditions. unfold_calls.
  follow_paths; intros H; inversion H; subst; clear H;
    (split; [reflexivity | eexists; cbn; eauto 6]).
Qed.

Lemma CheckPreInstallConditions_no_launch_command :
  forall iv sys status w,
    none has_launch_command
      (events (CheckPreInstallConditions X K iv sys status w)) = true.
Proof.
  intros. unfold CheckPreInstallConditions. unfold_calls.
  follow_paths; reflexivity.
Qed.

(** The cleanup ends with the report of the differential-install status. *)
Lemma InstallChrome_cleanup_last :
  forall cmd_line sys temp_path inc status w,
    exists front,
      events (InstallChrome_cleanup X K cmd_line sys temp_path inc status w)
      = front ++ [EvUpdateDiffInstallStatus sys inc status]
      /\ none is_update_diff front = true.
Proof.
  intros. unfold InstallChrome_cleanup. unfold_calls.
  follow_paths; cbn;
    match goal with
    | |- exists front, ?l = _ /\ _ =>
        exists (removelast l); split; reflexivity
    end.
Qed.

(** What the calls of a decision are not. *)
Lemma Decided_quiet :
  forall cmd_line iv prefs sys temp_path decided l,
    Decided X K cmd_line iv prefs sys temp_path decided l ->
    count is_update_diff l = 0%nat /\ none is_schedule l = true.
Proof.
  intros cmd_line iv prefs sys temp_path decided l Hd.
  inversion Hd as [u Hu _ Hs He | u sp Hu _ Hs He
                  | u sp v nv Hu _ _ _ Hs He
                  | u sp nv r st msg exe launch w' Hu _ _ _ Hs He];
    clear He;
    assert (Hu0 : count is_update_diff u = 0%nat)
      by (apply count_none; revert Hu; apply forallb_weaken;
          intros [] He; (discriminate || easy));
    assert (Hs0 : none is_schedule u = true)
      by (revert Hu; apply forallb_weaken;
          intros [] He; (discriminate || easy));
    rewrite ?post_install_calls, ?count_app, ?count_cons, Hu0;
    unfold none in *; rewrite ?forallb_app, Hs0;
    cbn [is_update_diff]; split_tests; split; reflexivity.
Qed.

(** X1.  Every run of [InstallChrome] writes exactly one installer result.
    The status it carries is the status the run returns; for the run that
    stops at line 347 and returns nothing it is [INVALID_ARCHIVE]. *)
Theorem InstallChrome_writes_one_result :
  forall cmd_line installed_version prefs w,
    let system_level :=
      GetDistroBooleanPreference X prefs (kSystemLevel K) false in
    let run := InstallChrome X K cmd_line installed_version prefs w in
    count is_write_result (events run) = 1%nat
    /\ exists status msg launch,
         In (EvWriteInstallerResult system_level status msg launch)
            (events run)
         /\ match result run with
            | Some returned => status = returned
            | None => status = INVALID_ARCHIVE
            end.
Proof.
  intros cmd_line iv prefs w sys run.
  pose proof (InstallChrome_cases X K cmd_line iv prefs w) as Hcases.
  cbv zeta in Hcases. fold sys run in Hcases.
  destruct Hcases as [(status & w1 & e1 & Hpre & Hrun)
                     |[(w1 & e1 & w2 & Hpre & _ & Hrun)
                      |(w1 & e1 & temp_path & w2 & Hpre & _ & Hrun)]].
  - rewrite Hrun. cbn [events result fst snd].
    destruct (CheckPreInstallConditions_failed_write _ _ _ _ _ _ _ Hpre)
      as (Hone & msg & Hin).
    split; [exact Hone|]. now exists status, msg, None.
  - destruct (CheckPreInstallConditions_passed X K _ _ _ _ _ _ _ Hpre)
      as (_ & Hw1 & _).
    rewrite Hrun. cbn [events result fst snd]. split.
    + rewrite count_app, (count_none _ _ Hw1). reflexivity.
    + do 3 eexists. split; [find_in | reflexivity].
  - destruct (CheckPreInstallConditions_passed X K _ _ _ _ _ _ _ Hpre)
      as (_ & Hw1 & _).
    pose proof (InstallChrome_decide_shape X K cmd_line iv prefs sys
                  (install_archive X K cmd_line) temp_path w2) as Hd.
    cbv zeta in Hd.
    remember (InstallChrome_decide X K cmd_line iv prefs sys
                (install_archive X K cmd_line) temp_path w2) as d.
    clear Heqd.
    destruct (fst (result d)) as [decided|] eqn:Hdecided;
      rewrite Hrun; cbn [events result fst snd]; clear Hrun.
    + pose proof (InstallChrome_cleanup_calls X K cmd_line sys temp_path
                    (snd (result d)) decided (world d)) as Hc.
      destruct (cleanup_quiet _ Hc) as (_ & _ & Hw3 & _).
      rewrite count_app, count_cons, count_app.
      rewrite (count_none _ _ Hw1), (count_none _ _ Hw3).
      cbn [is_write_result].
      inversion Hd as [u Hu _ Hs He | u sp Hu _ Hs He
                      | u sp v nv Hu _ _ _ Hs He
                      | u sp nv r st msg exe launch w' Hu _ _ _ Hs He];
        clear He;
        destruct (unpack_quiet _ Hu) as (_ & _ & Hw2 & _);
        rewrite ?post_install_calls;
        (split;
         [ rewrite ?count_app, ?count_cons, (count_none _ _ Hw2);
           cbn [is_write_result]; split_tests; reflexivity
         | do 3 eexists; split; [find_in | reflexivity] ]).
    + rewrite count_app, count_cons, (count_none _ _ Hw1).
      cbn [is_write_result].
      inversion Hd as [u Hu _ Hs He | u sp Hu _ Hs He
                      | u sp v nv Hu _ _ _ Hs He
                      | u sp nv r st msg exe launch w' Hu _ _ _ Hs He];
        clear He.
      destruct (unpack_quiet _ Hu) as (_ & _ & Hw2 & _).
      split.
      * rewrite ?count_app, ?count_cons, (count_none _ _ Hw2).
        reflexivity.
      * do 3 eexists. split; [find_in | reflexivity].
Qed.

(** X2.  When the temporary directory cannot be created, the run writes
    and returns [TEMP_DIR_FAILED] and makes no further call: nothing is
    unpacked, nothing cleaned up, no differential-install status
    reported. *)
Theorem InstallChrome_temp_dir_failure :
  forall cmd_line installed_version prefs w status w1 e1 w2,
    let system_level :=
      GetDistroBooleanPreference X prefs (kSystemLevel K) false in
    CheckPreInstallConditions X K installed_version system_level
      UNKNOWN_STATUS w = ((true, status), w1, e1) ->
    ext_CreateNewTempDirectory X "chrome_" w1 = (None, w2) ->
    let run := InstallChrome X K cmd_line installed_version prefs w in
    result run = Some TEMP_DIR_FAILED
    /\ events run =
         e1 ++ [EvCreateNewTempDirectory "chrome_" None;
                EvWriteInstallerResult system_level TEMP_DIR_FAILED
                  (IDS_INSTALL_TEMP_DIR_FAILED_BASE K) None].
Proof.
  intros cmd_line iv prefs w status w1 e1 w2 sys Hpre Htemp run.
  pose proof (InstallChrome_cases X K cmd_line iv prefs w) as Hcases.
  cbv zeta in Hcases. fold sys run in Hcases.
  destruct Hcases as [(s' & w1' & e1' & Hpre' & _)
                     |[(w1' & e1' & w2' & Hpre' & Htemp' & Hrun)
                      |(w1' & e1' & tp' & w2' & Hpre' & Htemp' & _)]];
    rewrite Hpre in Hpre'; try discriminate Hpre';
    injection Hpre' as ? ? ?; subst;
    rewrite Htemp in Htemp'; try discriminate Htemp'.
  rewrite Hrun. now split.
Qed.

(** X3.  A run that got its temporary directory and returns ends with one
    [UpdateDiffInstallStatus] call, its last call, carrying the status the
    run returns.  A run that did not get one returns, reports no
    differential-install status and schedules nothing for deletion.  The
    run that stops at line 347 has its temporary directory and reports
    and schedules nothing. *)
Theorem InstallChrome_update_diff_status :
  forall cmd_line installed_version prefs w,
    let system_level :=
      GetDistroBooleanPreference X prefs (kSystemLevel K) false in
    let run := InstallChrome X K cmd_line installed_version prefs w in
    (forall status,
        result run = Some status ->
        existsb is_temp_created (events run) = true ->
        count is_update_diff (events run) = 1%nat
        /\ exists incremental_install,
             last (events run) EvRemoveLegacyRegistryKeys
             = EvUpdateDiffInstallStatus system_level incremental_install
                 status)
    /\
    (existsb is_temp_created (events run) = false ->
     result run <> None
     /\ none is_update_diff (events run) = true
     /\ none is_schedule (events run) = true)
    /\
    (result run = None ->
     existsb is_temp_created (events run) = true
     /\ none is_update_diff (events run) = true
     /\ none is_schedule (events run) = true).
Proof.
  intros cmd_line iv prefs w sys run.
  pose proof (InstallChrome_cases X K cmd_line iv prefs w) as Hcases.
  cbv zeta in Hcases. fold sys run in Hcases.
  pose proof (CheckPreInstallConditions_calls X K iv sys UNKNOWN_STATUS w)
    as Hcalls.
  assert (Hpre_class :
            forall l, forallb preflight_event l = true ->
                      existsb is_temp_created l = false
                      /\ none is_update_diff l = true
                      /\ none is_schedule l = true).
  { clear. intros l H. split; [|split].
    - induction l as [|e l IH]; [reflexivity|]. cbn in H |- *.
      apply andb_true_iff in H as [He Hl]. rewrite (IH Hl).
      now destruct e.
    - revert H. apply forallb_weaken. intros [] He; (discriminate || easy).
    - revert H. apply forallb_weaken. intros [] He; (discriminate || easy). }
  destruct Hcases as [(status & w1 & e1 & Hpre & Hrun)
                     |[(w1 & e1 & w2 & Hpre & _ & Hrun)
                      |(w1 & e1 & temp_path & w2 & Hpre & _ & Hrun)]];
    rewrite Hpre in Hcalls; cbn [events snd] in Hcalls;
    destruct (Hpre_class _ Hcalls) as (Ht1 & Hu1 & Hs1).
  - rewrite Hrun. cbn [events result fst snd]. rewrite Ht1.
    split; [intros ? _ H; discriminate H|].
    split; [|discriminate]. intros _. split; [discriminate|]. now split.
  - rewrite Hrun. cbn [events result fst snd].
    rewrite existsb_app, Ht1. cbn.
    split; [intros ? _ H; discriminate H|].
    split; [|discriminate]. intros _. split; [discriminate|].
    unfold none in *. rewrite !forallb_app, Hu1, Hs1. now split.
  - pose proof (InstallChrome_decide_shape X K cmd_line iv prefs sys
                  (install_archive X K cmd_line) temp_path w2) as Hd.
    cbv zeta in Hd.
    remember (InstallChrome_decide X K cmd_line iv prefs sys
                (install_archive X K cmd_line) temp_path w2) as d.
    clear Heqd.
    destruct (Decided_quiet _ _ _ _ _ _ _ Hd) as [Hdec Hdsch].
    destruct (fst (result d)) as [decided|] eqn:Hdecided;
      rewrite Hrun; cbn [events result fst snd]; clear Hrun;
      rewrite existsb_app; cbn [existsb is_temp_created];
      rewrite orb_true_r.
    + split; [|split; [discriminate|discriminate]].
      intros status Heq _. injection Heq as <-.
      destruct (InstallChrome_cleanup_last cmd_line sys temp_path
                  (snd (result d)) decided (world d))
        as (front & Hc & Hfront).
      rewrite Hc. split.
      * rewrite count_app, count_cons, !count_app, (count_none _ _ Hu1),
          (count_none _ _ Hfront), Hdec.
        reflexivity.
      * exists (snd (result d)).
        replace (e1 ++ EvCreateNewTempDirectory "chrome_" (Some temp_path)
                    :: events d
                    ++ front
                    ++ [EvUpdateDiffInstallStatus sys (snd (result d))
                          decided])
          with ((e1 ++ EvCreateNewTempDirectory "chrome_" (Some temp_path)
                    :: events d ++ front)
                ++ [EvUpdateDiffInstallStatus sys (snd (result d))
                      decided]).
        { apply last_snoc. }
        rewrite <- !app_assoc. cbn [app]. now rewrite <- !app_assoc.
    + split; [intros ? H; discriminate H|]. split; [discriminate|].
      intros _. split; [reflexivity|].
      unfold none in *. rewrite !forallb_app. cbn [forallb is_update_diff
        is_schedule negb andb].
      rewrite Hu1, Hs1, Hdsch.
      assert (Hz : forallb (fun e => negb (is_update_diff e)) (events d)
                   = true).
      { clear - Hdec. unfold count in Hdec.
        induction (events d) as [|e l IH]; [reflexivity|].
        cbn in Hdec |- *. destruct (is_update_diff e);
          [discriminate Hdec | exact (IH Hdec)]. }
      rewrite Hz. now split.
Qed.

End MoreOfInstallChrome.

Section MoreOfInstallChrome2.

Context {W : Type}.
Variable X : Externals W.
Variable K : Constants.

Lemma status_eqb_eq :
  forall a b, status_eqb a b = true <-> a = b.
Proof.
  intros a b. unfold status_eqb.
  destruct (InstallStatus_eq_dec a b); split; congruence.
Qed.

(** X4.  [RemoveLegacyRegistryKeys] is called in exactly the runs that
    return [NEW_VERSION_UPDATED] or [IN_USE_UPDATED]. *)
Theorem InstallChrome_removes_legacy_keys :
  forall cmd_line installed_version prefs w,
    let run := InstallChrome X K cmd_line installed_version prefs w in
    In EvRemoveLegacyRegistryKeys (events run)
    <-> (result run = Some NEW_VERSION_UPDATED
         \/ result run = Some IN_USE_UPDATED).
Proof.
  intros cmd_line iv prefs w run.
  pose proof (InstallChrome_shape X K cmd_line iv prefs w) as Hshape.
  cbv zeta in Hshape. fold run in Hshape.
  remember (result run) as returned eqn:Hreturned. clear Hreturned.
  destruct Hshape
    as (e1 & Hpre &
        [(st & -> & Hst & Hev)
        |(_ & _ & _ &
          [(Hst & Hev)
          |(temp_path & decided & cleaning & Hd & Hc & _ & _ & Hev)])]);
    rewrite Hev; clear Hev.
  - split.
    + intros Hin. not_in_phase Hin.
    + cbn in Hst. intuition congruence.
  - split.
    + intros Hin. where_in Hin; try discriminate Hin. not_in_phase Hin.
    + subst returned. intuition congruence.
  - inversion Hd as [u Hu _ Hs He | u sp Hu _ Hs He
                    | u sp v nv Hu _ _ _ Hs He
                    | u sp nv r status msg exe launch w' Hu _ _ _ Hs He];
      clear He; rewrite ?post_install_calls.
    + split; [|intuition congruence].
      intros Hin. where_in Hin; try discriminate Hin; not_in_phase Hin.
    + split; [|intuition congruence].
      intros Hin. where_in Hin; try discriminate Hin; not_in_phase Hin.
    + split; [|intuition congruence].
      intros Hin. where_in Hin; try discriminate Hin; not_in_phase Hin.
    + split.
      * intros Hin.
        where_in Hin; try discriminate Hin; try not_in_phase Hin.
        destruct (status_eqb status FIRST_INSTALL_SUCCESS).
        { destruct (_ && _) in Hin; where_in Hin; discriminate Hin. }
        destruct (status_eqb status NEW_VERSION_UPDATED) eqn:Hnew.
        { left. f_equal. now apply status_eqb_eq. }
        destruct (status_eqb status IN_USE_UPDATED) eqn:Huse.
        { right. f_equal. now apply status_eqb_eq. }
        cbn in Hin. contradiction.
      * intros Hst.
        assert (Hpost :
                  (if status_eqb status FIRST_INSTALL_SUCCESS
                   then if negb (GetDistroBooleanPreference X prefs
                                   (kSystemLevel K) false)
                           && negb (GetDistroBooleanPreference X prefs
                                      (kDoNotLaunchChrome K) false)
                        then [EvLaunchChrome
                                (GetDistroBooleanPreference X prefs
                                   (kSystemLevel K) false)]
                        else []
                   else if status_eqb status NEW_VERSION_UPDATED
                           || status_eqb status IN_USE_UPDATED
                        then [EvRemoveLegacyRegistryKeys] else [])
                  = [EvRemoveLegacyRegistryKeys]).
        { destruct Hst as [Hst | Hst]; injection Hst as ->; reflexivity. }
        rewrite Hpost. find_in.
Qed.

(** The result written by lines 253-349 with a launch command. *)
Lemma InstallChrome_decide_launch_command :
  forall cmd_line iv prefs sys archive temp_path w s status msg command,
    let d := InstallChrome_decide X K cmd_line iv prefs sys archive temp_path
               w in
    In (EvWriteInstallerResult s status msg (Some command)) (events d) ->
    GetDistroBooleanPreference X prefs (kDoNotRegisterForUpdateLaunch K) false
    = false
    /\ s = sys
    /\ fst (result d) = Some status
    /\ status <> IN_USE_UPDATED
    /\ exists exe_path archive_path install_temp_path prefs_path new_version
              returned,
         In (EvInstallOrUpdateChrome exe_path archive_path install_temp_path
               prefs_path new_version iv returned) (events d)
         /\ if status_eqb returned SAME_VERSION_REPAIR_FAILED then
              status = returned
              /\ msg = IDS_SAME_VERSION_REPAIR_FAILED_BASE K
              /\ command = EmptyString
            else if status_eqb returned INSTALL_FAILED then
              status = returned /\ msg = IDS_INSTALL_FAILED_BASE K
              /\ command = EmptyString
            else if empty (GetChromeInstallPath X sys) then
              status = OS_ERROR /\ msg = IDS_INSTALL_OS_ERROR_BASE K
              /\ command = EmptyString
            else
              status = returned /\ msg = 0
              /\ command =
                   (dquote
                    ++ AppendToPath X (GetChromeInstallPath X sys)
                         (kChromeExe K)
                    ++ dquote)%string.
Proof.
  intros cmd_line iv prefs sys archive temp_path w s status msg command d.
  subst d. unfold InstallChrome_decide, bind.
  pose proof (UnPackArchive_calls X K archive sys iv temp_path
                (AppendToPath X temp_path (kInstallSourceDir K)) false w)
    as Hcalls.
  destruct (UnPackArchive X K archive sys iv temp_path
              (AppendToPath X temp_path (kInstallSourceDir K)) false w)
    as [[[ret inc] w3] u].
  cbn [events snd] in Hcalls.
  destruct (ret =? 0); cbn [negb].
  - unfold InstallChrome_unpacked, InstallChrome_install, installer_result,
      post_install.
    unfold_calls. follow_paths; cbn [events result fst snd];
      intros Hin; rewrite ?app_nil_r in Hin;
      where_in Hin; try discriminate Hin; try not_in_phase Hin;
      injection Hin as ? ? ? ?; subst;
      repeat match goal with
             | H : _ && _ = true |- _ => apply andb_true_iff in H as [? ?]
             | H : negb _ = true |- _ => apply negb_true_iff in H
             | H : negb _ = false |- _ => apply negb_false_iff in H
             end;
      (split; [assumption|]); (split; [reflexivity|]);
      (split; [reflexivity|]);
      (split;
       [ intros Heq;
         repeat match goal with
                | H : status_eqb ?a _ = false |- _ =>
                    rewrite Heq in H; discriminate H
                end;
         try discriminate Heq
       |]);
      do 6 eexists; (split; [find_in|]);
      repeat match goal with
             | H : status_eqb ?a ?b = _ |- context [status_eqb ?a ?b] =>
                 rewrite H
             | H : empty ?a = _ |- context [empty ?a] => rewrite H
             end;
      repeat split;
      match goal with
      | H : empty ?p = true |- ?p = _ =>
          destruct p; [reflexivity | discriminate H]
      | _ => idtac
      end.
  - unfold_calls. cbn. intros Hin. rewrite ?app_nil_r in Hin.
    where_in Hin; try discriminate Hin. not_in_phase Hin.
Qed.

(** X5.  An installer result carries a launch command only in a run that
    called [InstallOrUpdateChrome], only when the
    do-not-register-for-update-launch preference is unset, and never for
    [IN_USE_UPDATED].  When that call returned [SAME_VERSION_REPAIR_FAILED]
    or [INSTALL_FAILED] the command is the empty string.  For any other
    status the call returned, the command is the quoted chrome.exe of the
    install path, with message 0 and that status, unless the install path
    cannot be built: then the status is [OS_ERROR] and the command the
    empty string. *)
Theorem InstallChrome_launch_command :
  forall cmd_line installed_version prefs w s status msg command,
    let system_level :=
      GetDistroBooleanPreference X prefs (kSystemLevel K) false in
    let run := InstallChrome X K cmd_line installed_version prefs w in
    In (EvWriteInstallerResult s status msg (Some command)) (events run) ->
    GetDistroBooleanPreference X prefs (kDoNotRegisterForUpdateLaunch K) false
    = false
    /\ s = system_level
    /\ result run = Some status
    /\ status <> IN_USE_UPDATED
    /\ exists exe_path archive_path install_temp_path prefs_path new_version
              returned,
         In (EvInstallOrUpdateChrome exe_path archive_path install_temp_path
               prefs_path new_version installed_version returned)
            (events run)
         /\ if status_eqb returned SAME_VERSION_REPAIR_FAILED then
              status = returned
              /\ msg = IDS_SAME_VERSION_REPAIR_FAILED_BASE K
              /\ command = EmptyString
            else if status_eqb returned INSTALL_FAILED then
              status = returned /\ msg = IDS_INSTALL_FAILED_BASE K
              /\ command = EmptyString
            else if empty (GetChromeInstallPath X system_level) then
              status = OS_ERROR /\ msg = IDS_INSTALL_OS_ERROR_BASE K
              /\ command = EmptyString
            else
              status = returned /\ msg = 0
              /\ command =
                   (dquote
                    ++ AppendToPath X (GetChromeInstallPath X system_level)
                         (kChromeExe K)
                    ++ dquote)%string.
Proof.
  intros cmd_line iv prefs w s status msg command sys run Hin.
  pose proof (InstallChrome_cases X K cmd_line iv prefs w) as Hcases.
  cbv zeta in Hcases. fold sys run in Hcases.
  pose proof (CheckPreInstallConditions_no_launch_command X K iv sys
                UNKNOWN_STATUS w) as Hquiet.
  destruct Hcases as [(st & w1 & e1 & Hpre & Hrun)
                     |[(w1 & e1 & w2 & Hpre & _ & Hrun)
                      |(w1 & e1 & temp_path & w2 & Hpre & _ & Hrun)]];
    rewrite Hpre in Hquiet; cbn [events snd] in Hquiet.
  - rewrite Hrun in Hin. cbn [events snd] in Hin.
    apply (class_In _ _ _ Hquiet) in Hin. discriminate Hin.
  - rewrite Hrun in Hin. cbn [events snd] in Hin.
    where_in Hin; try discriminate Hin.
    apply (class_In _ _ _ Hquiet) in Hin. discriminate Hin.
  - pose proof (InstallChrome_decide_launch_command cmd_line iv prefs sys
                  (install_archive X K cmd_line) temp_path w2 s status msg
                  command) as Hd.
    cbv zeta in Hd.
    remember (InstallChrome_decide X K cmd_line iv prefs sys
                (install_archive X K cmd_line) temp_path w2) as d.
    clear Heqd.
    assert (Hfound : In (EvWriteInstallerResult s status msg (Some command))
                       (events d)).
    { destruct (fst (result d)) as [decided|];
        rewrite Hrun in Hin; cbn [events snd] in Hin;
        apply in_app_or in Hin; destruct Hin as [Hin|Hin];
        try (apply (class_In _ _ _ Hquiet) in Hin; discriminate Hin);
        (destruct Hin as [Hin|Hin]; [discriminate Hin|]);
        try exact Hin.
      apply in_app_or in Hin. destruct Hin as [Hin|Hin]; [exact Hin|].
      pose proof (InstallChrome_cleanup_calls X K cmd_line sys temp_path
                    (snd (result d)) decided (world d)) as Hc.
      apply (class_In _ _ _ Hc) in Hin. discriminate Hin. }
    destruct (Hd Hfound)
      as (A & B & C' & D & a & b & c & e & f & r & Hcall & Hwhat).
    rewrite C' in Hrun. rewrite Hrun. cbn [events result fst snd].
    repeat (split; [assumption || reflexivity|]).
    exists a, b, c, e, f, r. split; [|exact Hwhat].
    apply in_or_app. right. right. apply in_or_app. left. exact Hcall.
Qed.

End MoreOfInstallChrome2.

(** Facts read off a finished path. *)
Ltac settle :=
  repeat match goal with
         | H : _ && _ = true |- _ => apply andb_true_iff in H as [? ?]
         | H : negb _ = true |- _ => apply negb_true_iff in H
         | H : negb _ = false |- _ => apply negb_false_iff in H
         | H : (_ =? _) = true |- _ => apply Z.eqb_eq in H
         | H : (_ =? _) = false |- _ => apply Z.eqb_neq in H
         end.

Section MoreOfThePhases.

Context {W : Type}.
Variable X : Externals W.
Variable K : Constants.

(** X6.  [UnPackArchive] applies a patch only to the archive of the
    installed version, [<install path>/<version>/<installer dir>/chrome.7z],
    only after chrome.7z was not found in the temporary directory, with the
    file the first decompression produced as the patch and the missing
    chrome.7z as the output.  When the patch fails its code is returned and
    nothing is unpacked; otherwise the patched archive is unpacked. *)
Theorem UnPackArchive_patches_installed_archive :
  forall archive sys iv temp_path path inc w src patch dest code,
    let u := UnPackArchive X K archive sys iv temp_path path inc w in
    In (EvApplyDiffPatch src patch dest code) (events u) ->
    let patching :=
      [EvLzmaUnPackArchive archive temp_path NO_ERROR patch;
       EvPathExists dest false;
       EvApplyDiffPatch src patch dest code] in
    exists v,
      iv = Some v
      /\ src = AppendToPath X
                 (AppendToPath X
                    (AppendToPath X (GetChromeInstallPath X sys)
                       (GetString X v))
                    (kInstallerDir K))
                 (kChromeArchive K)
      /\ dest = AppendToPath X temp_path (kChromeArchive K)
      /\ snd (result u) = true
      /\ (code <> 0 ->
          events u = patching /\ fst (result u) = to_DWORD code)
      /\ (code = 0 ->
          exists ret unpacked_file,
            events u =
              patching ++ [EvLzmaUnPackArchive dest path ret unpacked_file]
            /\ fst (result u) = to_DWORD ret).
Proof.
  intros archive sys iv temp_path path inc w src patch dest code u.
  subst u. unfold UnPackArchive. unfold_calls.
  follow_paths; cbn [events result fst snd app];
    intros Hin; cbv zeta;
    where_in Hin; try discriminate Hin;
    injection Hin as ? ? ? ?; subst; settle; subst;
    eexists; (split; [reflexivity|]); (split; [reflexivity|]);
    (split; [reflexivity|]); (split; [reflexivity|]);
    unfold NO_ERROR in *;
    repeat match goal with
           | H : wrap_int32 _ = 0 |- _ => rewrite H
           end;
    (split; intros Hcode;
     [ first [ now split | congruence ]
     | first [ congruence | eexists; eexists; split; reflexivity ] ]).
Qed.

(** X7.  The cleanup schedules deletions at reboot exactly when one of
    its deletes failed, and then for the temporary directory and, with
    --installer-data, the preferences file alike: a path that was deleted is
    scheduled too when the other delete failed.  It schedules no other
    path. *)
Theorem InstallChrome_cleanup_schedules :
  forall cmd_line sys temp_path inc status w,
    let cleaning :=
      events (InstallChrome_cleanup X K cmd_line sys temp_path inc status w) in
    let prefs_path := GetSwitchValue X cmd_line (kInstallerData K) in
    ((exists path, In (EvDelete path true false) cleaning)
     <-> In (EvScheduleDirectoryForDeletion temp_path) cleaning)
    /\ (HasSwitch X cmd_line (kInstallerData K) = true ->
        (In (EvScheduleDirectoryForDeletion temp_path) cleaning
         <-> In (EvScheduleDirectoryForDeletion prefs_path) cleaning))
    /\ (forall path,
           In (EvScheduleDirectoryForDeletion path) cleaning ->
           path = temp_path
           \/ (HasSwitch X cmd_line (kInstallerData K) = true
               /\ path = prefs_path)).
Proof.
  intros cmd_line sys temp_path inc status w cleaning prefs_path.
  subst cleaning prefs_path. unfold InstallChrome_cleanup. unfold_calls.
  destruct (ext_Delete X temp_path true w) as [d1 w1].
  destruct (HasSwitch X cmd_line (kInstallerData K)) eqn:Hsw;
    [destruct (ext_Delete X (GetSwitchValue X cmd_line (kInstallerData K))
                 true w1) as [d2 w2]; destruct d1, d2
    |destruct d1];
    cbn [events snd app negb andb];
    (split; [split; [intros [path Hin]|intros Hin]|split]);
    try (intros Hsw'; discriminate Hsw');
    try (intros _; split; intros Hin);
    try (intros path Hin);
    cbn in *;
    try (intuition (try discriminate; try congruence); fail);
    eexists; eauto 8.
Qed.

(** X8.  The verdict of the preflight: it returns true exactly when it
    wrote no installer result, and then leaves [status] as it was and
    launches nothing; when it returns false it wrote one result, with the
    status it returns. *)
Theorem CheckPreInstallConditions_verdict :
  forall installed_version system_install status w,
    let r := CheckPreInstallConditions X K installed_version system_install
               status w in
    (fst (result r) = true <-> none is_write_result (events r) = true)
    /\ (fst (result r) = true ->
        snd (result r) = status /\ none is_launch (events r) = true)
    /\ (fst (result r) = false ->
        count is_write_result (events r) = 1%nat
        /\ exists msg,
             In (EvWriteInstallerResult system_install (snd (result r)) msg
                   None) (events r)).
Proof.
  intros iv sys status w r. subst r.
  unfold CheckPreInstallConditions. unfold_calls.
  follow_paths; cbn [events result fst snd app];
    (split; [split; intros H; (reflexivity || discriminate H)|]);
    (split; intros H; try discriminate H);
    (split; [reflexivity|]); try reflexivity;
    eexists; cbn; eauto 8.
Qed.

(** X9.  The preflight of an update (a version is installed) touches no
    file and launches nothing: it asks for the version at the other scope
    and passes exactly when there is none. *)
Theorem CheckPreInstallConditions_update :
  forall v system_install status w,
    let r := CheckPreInstallConditions X K (Some v) system_install status w in
    none is_file_op (events r) = true
    /\ none is_launch (events r) = true
    /\ (fst (result r) = true
        <-> In (EvGetChromeVersion (negb system_install) None) (events r))
    /\ (fst (result r) = false ->
        snd (result r) = if system_install then USER_LEVEL_INSTALL_EXISTS
                         else SYSTEM_LEVEL_INSTALL_EXISTS).
Proof.
  intros v sys status w r. subst r.
  unfold CheckPreInstallConditions. unfold_calls.
  destruct (ext_GetChromeVersion X (negb sys) w) as [[other|] w1];
    cbn [negb andb]; rewrite ?andb_false_r; cbn;
    (split; [reflexivity|]); (split; [reflexivity|]);
    (split; [split|]).
  - discriminate.
  - intros [H|[H|[]]]; discriminate H.
  - reflexivity.
  - now left.
  - reflexivity.
  - discriminate.
Qed.

(** X10.  The rename succeeds exactly when the work list was executed and
    [Do] returned true; any other run returns [RENAME_FAILED].  A list is
    rolled back exactly when its [Do] failed, and the only delete is that of
    the temporary directory the run created. *)
Theorem RenameChromeExecutables_outcome :
  forall system_install w,
    let r := RenameChromeExecutables X K system_install w in
    (result r = RENAME_SUCCESSFUL
     <-> exists items, In (EvDo items true) (events r))
    /\ (result r <> RENAME_SUCCESSFUL -> result r = RENAME_FAILED)
    /\ (forall items,
           In (EvRollback items) (events r)
           <-> In (EvDo items false) (events r))
    /\ (forall path recursive deleted,
           In (EvDelete path recursive deleted) (events r) ->
           recursive = true
           /\ In (EvCreateNewTempDirectory "chrome_" (Some path)) (events r)).
Proof.
  intros sys w r. subst r.
  unfold RenameChromeExecutables, RenameChromeExecutables_run.
  unfold_calls.
  follow_paths; cbn [events result fst snd app]; settle; subst;
    (split; [split; [intros H; try discriminate H; eexists; cbn; eauto
                    | intros [items H]; cbn in H;
                      repeat (destruct H as [H|H]; try discriminate H);
                      try contradiction; reflexivity]|]);
    (split; [intros H; (reflexivity || congruence)|]);
    (split;
     [ intros items; split; intros H; cbn in H |- *;
       repeat (destruct H as [H|H]; try discriminate H;
               try (injection H as ?; subst));
       try contradiction; auto 6
     | intros path recursive deleted H; cbn in H |- *;
       repeat (destruct H as [H|H]; try discriminate H;
               try (injection H as ? ? ?; subst));
       try contradiction; auto 6 ]).
Qed.

End MoreOfThePhases.

(** ** The second part of the file *)

Ltac unfold_setup :=
  cbv [sbind sret scall scall_ lift
       installer_setup_UninstallChrome GetLocalizedEulaResource ShowModal
       SetEULAConsent RegisterChromeBrowser DeleteChromeRegistrationKeys
       InactiveUserToastExperiment InitInstallerLogging GetInstallPreferences
       SetMinLogLevel IsOSSupported CoInitializeEx CoUninitialize
       IsChromeSxSProcess IsUserAnAdmin GetWinVersion ExecuteExeAsAdmin
       IsChromeFrameProcess IsMSIProcess MessageBoxW OpenProcessToken
       LookupPrivilegeValue AdjustTokenPrivileges GetLastError RestartDialog
       CloseHandle AtExit
       bind mret call call_ LzmaUtil_UnPackArchive PathExists ApplyDiffPatch
       CreateNewTempDirectory Delete Do Rollback GetChromeVersion
       WriteInstallerResult LaunchApp GetVersionFromDir InstallOrUpdateChrome
       LaunchChrome RemoveLegacyRegistryKeys LaunchUserExperiment
       ScheduleDirectoryForDeletion UpdateDiffInstallStatus].

Ltac setup_step :=
  match goal with
  | |- context [ext_SetupUninstallChrome ?Y ?a ?b ?c ?d ?e ?f ?w] =>
      destruct (ext_SetupUninstallChrome Y a b c d e f w) as [? ?] eqn:?
  | |- context [ext_GetLocalizedEulaResource ?Y ?w] =>
      destruct (ext_GetLocalizedEulaResource Y w) as [? ?] eqn:?
  | |- context [ext_ShowModal ?Y ?a ?w] =>
      destruct (ext_ShowModal Y a w) as [? ?] eqn:?
  | |- context [ext_RegisterChromeBrowser ?Y ?a ?b ?c ?w] =>
      destruct (ext_RegisterChromeBrowser Y a b c w) as [? ?] eqn:?
  | |- context [ext_DeleteChromeRegistrationKeys ?Y ?a ?b ?c ?w] =>
      destruct (ext_DeleteChromeRegistrationKeys Y a b c w) as [? ?] eqn:?
  | |- context [ext_GetInstallPreferences ?Y ?a ?w] =>
      destruct (ext_GetInstallPreferences Y a w) as [? ?] eqn:?
  | |- context [ext_IsOSSupported ?Y ?w] =>
      destruct (ext_IsOSSupported Y w) as [? ?] eqn:?
  | |- context [ext_CoInitializeEx ?Y ?w] =>
      destruct (ext_CoInitializeEx Y w) as [? ?] eqn:?
  | |- context [ext_IsChromeSxSProcess ?Y ?w] =>
      destruct (ext_IsChromeSxSProcess Y w) as [? ?] eqn:?
  | |- context [ext_IsUserAnAdmin ?Y ?w] =>
      destruct (ext_IsUserAnAdmin Y w) as [? ?] eqn:?
  | |- context [ext_GetWinVersion ?Y ?w] =>
      destruct (ext_GetWinVersion Y w) as [? ?] eqn:?
  | |- context [ext_ExecuteExeAsAdmin ?Y ?a ?b ?c ?w] =>
      destruct (ext_ExecuteExeAsAdmin Y a b c w) as [? ?] eqn:?
  | |- context [ext_IsChromeFrameProcess ?Y ?w] =>
      destruct (ext_IsChromeFrameProcess Y w) as [? ?] eqn:?
  | |- context [ext_IsMSIProcess ?Y ?a ?w] =>
      destruct (ext_IsMSIProcess Y a w) as [? ?] eqn:?
  | |- context [ext_OpenProcessToken ?Y ?w] =>
      destruct (ext_OpenProcessToken Y w) as [? ?] eqn:?
  | |- context [ext_GetLastError ?Y ?w] =>
      destruct (ext_GetLastError Y w) as [? ?] eqn:?
  | |- context [match ?o with
                | REJECTED => _ | ACCEPTED_OPT_IN => _ | ACCEPTED => _
                end] => is_var o; destruct o
  end.

Ltac follow_setup :=
  repeat first
    [ progress cbv beta iota zeta | call_step | setup_step | test_step ].

(** The same, leaving tests on the trace itself alone. *)
Ltac code_test_step :=
  match goal with
  | |- context [match ?o with Some _ => _ | None => _ end] =>
      is_var o; destruct o
  | |- context [if ?b then _ else _] =>
      lazymatch b with
      | context [existsb] => fail
      | context [forallb] => fail
      | _ => destruct b eqn:?
      end
  end.

Ltac follow_code :=
  repeat first
    [ progress cbv beta iota zeta | call_step | setup_step | code_test_step ].

Section NonInstallOptions.

Context {W : Type}.
Variable X : Externals W.
Variable K : Constants.
Variable Y : SetupExternals W X.
Variable C : SetupConstants.

(** X11.  [UninstallChrome] hands over to the uninstaller exactly when a
    version is installed or --force-uninstall is given, with [remove_all]
    the negation of --do-not-remove-shared-items, and returns what the
    uninstaller returns without writing a result of its own.  Otherwise it
    writes and returns [CHROME_NOT_INSTALLED] and the uninstaller is not
    called. *)
Theorem UninstallChrome_guard :
  forall cmd_line cmd_params version system_install w,
    let r := UninstallChrome X Y C cmd_line cmd_params version system_install
               w in
    let force := HasSwitch X cmd_line (kForceUninstall C) in
    (no_call is_uninstaller (calls r) = false
     <-> (version <> None \/ force = true))
    /\ (no_call is_uninstaller (calls r) = false ->
        calls r =
          [EvSetupUninstallChrome (program X cmd_line) system_install
             (negb (HasSwitch X cmd_line (kDoNotRemoveSharedItems C))) force
             cmd_params (returned r)])
    /\ (no_call is_uninstaller (calls r) = true ->
        returned r = CHROME_NOT_INSTALLED
        /\ calls r =
             [Core (EvWriteInstallerResult system_install CHROME_NOT_INSTALLED
                      (IDS_UNINSTALL_FAILED_BASE C) None)]).
Proof.
  intros cmd_line cmd_params version sys w r force. subst r force.
  unfold UninstallChrome. unfold_setup.
  destruct version as [v|];
    destruct (HasSwitch X cmd_line (kForceUninstall C)); cbn [andb negb];
    try destruct (ext_SetupUninstallChrome Y _ _ _ _ _ _ w) as [st w1];
    cbn; (split; [split|split]); intros; try discriminate;
    try reflexivity; try (now left); try (now right);
    try (now split);
    match goal with
    | H : _ \/ _ |- _ => destruct H; congruence
    end.
Qed.

(** X12.  [ShowEULADialog] returns one of the three EULA statuses.  The
    dialog is shown at most once, only for a non-empty EULA resource, on
    that resource with "?innerframe=<frame>" appended when a frame is
    given; without a dialog the status is [EULA_REJECTED]. *)
Theorem ShowEULADialog_status :
  forall inner_frame w,
    let r := ShowEULADialog Y inner_frame w in
    (returned r = EULA_REJECTED \/ returned r = EULA_ACCEPTED
     \/ returned r = EULA_ACCEPTED_OPT_IN)
    /\ (no_call is_dialog (calls r) = true -> returned r = EULA_REJECTED)
    /\ (forall eula_path outcome,
           In (EvShowModal eula_path outcome) (calls r) ->
           exists resource,
             calls r = [EvGetLocalizedEulaResource resource;
                        EvShowModal eula_path outcome]
             /\ empty resource = false
             /\ eula_path =
                  (if empty inner_frame then resource
                   else resource ++ "?innerframe=" ++ inner_frame)%string
             /\ returned r =
                  match outcome with
                  | REJECTED => EULA_REJECTED
                  | ACCEPTED_OPT_IN => EULA_ACCEPTED_OPT_IN
                  | ACCEPTED => EULA_ACCEPTED
                  end).
Proof.
  intros inner_frame w r. subst r.
  unfold ShowEULADialog. unfold_setup.
  follow_setup; cbn [calls returned fst snd app negb];
    (split; [tauto|]);
    (split; [intros H; (reflexivity || discriminate H)|]);
    intros eula_path outcome Hin; cbn in Hin;
    repeat (destruct Hin as [Hin|Hin]; try discriminate Hin);
    try contradiction;
    injection Hin as ? ?; subst; settle;
    eexists; (split; [reflexivity|]); (split; [assumption|]);
    repeat match goal with
           | H : empty _ = _ |- _ => rewrite H
           end;
    now split.
Qed.

(** X13.  [ShowRebootDialog] returns true exactly when it showed the
    restart dialog, which it does only after the shutdown privilege was
    adjusted and [GetLastError] answered [ERROR_SUCCESS].  A token that was
    opened is closed again, once, as the last call. *)
Theorem ShowRebootDialog_outcome :
  forall w,
    let r := ShowRebootDialog Y w in
    (returned r = true <-> In EvRestartDialog (calls r))
    /\ (In EvRestartDialog (calls r) ->
        calls r = [EvOpenProcessToken true; EvLookupPrivilegeValue;
                   EvAdjustTokenPrivileges; EvGetLastError ERROR_SUCCESS;
                   EvRestartDialog; EvCloseHandle])
    /\ (In (EvOpenProcessToken true) (calls r) ->
        last (calls r) EvAtExit = EvCloseHandle
        /\ count_calls (fun e => match e with
                                 | EvCloseHandle => true
                                 | _ => false
                                 end) (calls r) = 1%nat)
    /\ (In (EvOpenProcessToken false) (calls r) ->
        calls r = [EvOpenProcessToken false] /\ returned r = false).
Proof.
  intros w r. subst r. unfold ShowRebootDialog. unfold_setup.
  follow_setup; cbn [calls returned fst snd app negb]; settle; subst;
    (split; [split; intros H; cbn in H |- *;
             try discriminate H; try reflexivity; try tauto;
             repeat (destruct H as [H|H]; try discriminate H);
             try contradiction|]);
    (split; [intros H; cbn in H;
             repeat (destruct H as [H|H]; try discriminate H);
             try contradiction; try reflexivity|]);
    (split; intros H; cbn in H;
     repeat (destruct H as [H|H]; try discriminate H);
     try contradiction; now split).
Qed.

End NonInstallOptions.

Lemma calls_weaken :
  forall (p q : SetupEvent -> bool) (l : list SetupEvent),
    (forall e, p e = true -> q e = true) ->
    forallb p l = true -> forallb q l = true.
Proof.
  intros p q l Hpq. induction l as [|e l IH]; cbn; [reflexivity|].
  intros H. apply andb_true_iff in H as [He Hl].
  now rewrite (Hpq e He), (IH Hl).
Qed.

Lemma calls_In :
  forall (q : SetupEvent -> bool) l e,
    forallb q l = true -> In e l -> q e = true.
Proof. intros q l e H. rewrite forallb_forall in H. apply H. Qed.

Lemma calls_app :
  forall (q : SetupEvent -> bool) a b,
    forallb q (a ++ b) = forallb q a && forallb q b.
Proof. intros q a b. apply forallb_app. Qed.

Lemma calls_Core :
  forall (q : SetupEvent -> bool) (l : list Event),
    forallb q (map Core l) = forallb (fun e => q (Core e)) l.
Proof.
  intros q l. induction l as [|e l IH]; cbn; [reflexivity|].
  now rewrite IH.
Qed.

Ltac unfold_options :=
  unfold HandleNonInstallCmdLineOptions, update_setup_exe, ShowEULADialog,
    registration_suffix, RenameChromeExecutables, RenameChromeExecutables_run;
  unfold_setup.

(** Membership in a short trace, case by case. *)
Ltac in_cases H :=
  cbn in H;
  repeat (destruct H as [H|H]; try discriminate H);
  try contradiction.

Section HandleOptions.

Context {W : Type}.
Variable X : Externals W.
Variable K : Constants.
Variable Y : SetupExternals W X.
Variable C : SetupConstants.

Lemma HandleNonInstallCmdLineOptions_calls cmd_line system_install exit_code
    w :
  forallb handle_event
    (calls (HandleNonInstallCmdLineOptions X K Y C cmd_line system_install
              exit_code w)) = true.
Proof.
  unfold_options. follow_setup; reflexivity.
Qed.

Lemma HandleNonInstallCmdLineOptions_not_handled cmd_line system_install
    exit_code w :
  let r := HandleNonInstallCmdLineOptions X K Y C cmd_line system_install
             exit_code w in
  forall code,
    returned r = Some (false, code) ->
    r = (Some (false, exit_code), w, []).
Proof.
  unfold_options. follow_setup; cbn; intros code' H; try discriminate H;
    reflexivity.
Qed.

(** X14.  A run of [HandleNonInstallCmdLineOptions] that returns, returns
    true exactly when one of its seven options is on the command line, and
    with one of them at least one call is made.  With none of them it makes
    no call and leaves the exit code and the machine as they were.  The one
    run that does not return is the system-level toast with no installed
    version: [GetChromeVersion] answers null, which line 536 dereferences,
    and that query is the only call of the run. *)
Theorem HandleNonInstallCmdLineOptions_found :
  forall cmd_line system_install exit_code w,
    let r := HandleNonInstallCmdLineOptions X K Y C cmd_line system_install
               exit_code w in
    let found :=
      HasSwitch X cmd_line (kUpdateSetupExe C)
      || HasSwitch X cmd_line (kShowEula C)
      || HasSwitch X cmd_line (kRegisterChromeBrowser C)
      || HasSwitch X cmd_line (kRenameChromeExe C)
      || HasSwitch X cmd_line (kRemoveChromeRegistration C)
      || HasSwitch X cmd_line (kInactiveUserToast C)
      || HasSwitch X cmd_line (kSystemLevelToast C) in
    (forall handled code,
        returned r = Some (handled, code) -> handled = found)
    /\ (found = true -> calls r <> [])
    /\ (found = false -> r = (Some (false, exit_code), w, []))
    /\ (returned r = None
        <-> In (Core (EvGetChromeVersion system_install None)) (calls r))
    /\ (returned r = None ->
        found = true
        /\ HasSwitch X cmd_line (kSystemLevelToast C) = true
        /\ r = (None, snd (ext_GetChromeVersion X system_install w),
                [Core (EvGetChromeVersion system_install None)])).
Proof.
  intros cmd_line sys code w r found. subst r found.
  unfold_options.
  follow_setup; cbn [calls returned fst snd app map orb];
    rewrite ?orb_true_r;
    (split;
     [intros handled code' H; try discriminate H;
      injection H as <- <-; reflexivity|]);
    (split; [intros H; try discriminate H; intros H'; discriminate H'|]);
    (split; [intros H; try discriminate H; reflexivity|]);
    (split;
     [split; intros H;
      [try discriminate H; cbn; auto | in_cases H; reflexivity]|]);
    intros H; try discriminate H;
    repeat split; congruence.
Qed.

(** X15.  [HandleNonInstallCmdLineOptions] never installs and never
    uninstalls: no run calls [InstallOrUpdateChrome], the uninstaller,
    [LaunchChrome] or [LaunchApp], and none asks whether the user is an
    administrator. *)
Theorem HandleNonInstallCmdLineOptions_never_installs :
  forall cmd_line system_install exit_code w,
    let r := HandleNonInstallCmdLineOptions X K Y C cmd_line system_install
               exit_code w in
    no_call (core is_mutate) (calls r) = true
    /\ no_call (core is_launch) (calls r) = true
    /\ no_call is_uninstaller (calls r) = true
    /\ no_call is_admin_query (calls r) = true.
Proof.
  intros cmd_line sys code w r. subst r.
  pose proof (HandleNonInstallCmdLineOptions_calls cmd_line sys code w) as H.
  unfold no_call.
  repeat split;
    (eapply calls_weaken; [|exact H]);
    intros e; destruct e as [[]| | | | | | | | | | | | | | | | | | | | | | | | | | | ];
    cbn; congruence.
Qed.

(** X16.  With --update-setup-exe, [HandleNonInstallCmdLineOptions] returns
    true with the return code of [NEW_VERSION_UPDATED] when a patch was
    applied with result 0 and of [SETUP_PATCH_FAILED] otherwise.  A patch is
    applied only to the running setup.exe, into the path of
    --new-setup-exe.  An installer result is written exactly when the
    return code is not 0.  The first call asks for a new temporary
    directory with prefix chrome_, the patch archive is unpacked into the
    directory that call created, and the last call deletes, recursively,
    that same directory (the path left by the failed call when none was
    created); the run ends in the state that deletion left. *)
Theorem HandleNonInstallCmdLineOptions_update_setup_exe :
  forall cmd_line system_install exit_code w,
    HasSwitch X cmd_line (kUpdateSetupExe C) = true ->
    let r := HandleNonInstallCmdLineOptions X K Y C cmd_line system_install
               exit_code w in
    let status :=
      if existsb patch_applied (calls r) then NEW_VERSION_UPDATED
      else SETUP_PATCH_FAILED in
    let code := wrap_int32 (GetInstallReturnCode Y status) in
    returned r = Some (true, code)
    /\ (forall src patch dest ret,
           In (Core (EvApplyDiffPatch src patch dest ret)) (calls r) ->
           src = program X cmd_line
           /\ dest = GetSwitchValue X cmd_line (kNewSetupExe C)
           /\ exists archive dir,
                In (Core (EvLzmaUnPackArchive archive dir NO_ERROR patch))
                  (calls r)
                /\ archive = GetSwitchValue X cmd_line (kUpdateSetupExe C))
    /\ (code <> 0 ->
        filter (core is_write_result) (calls r) =
          [Core (EvWriteInstallerResult system_install status
                   (IDS_SETUP_PATCH_FAILED_BASE C) None)])
    /\ (code = 0 -> no_call (core is_write_result) (calls r) = true)
    /\ exists created deleted before,
         let temp_path :=
           match created with
           | Some path => path
           | None => failed_temp_path Y
           end in
         hd EvAtExit (calls r)
         = Core (EvCreateNewTempDirectory "chrome_" created)
         /\ last (calls r) EvAtExit = Core (EvDelete temp_path true deleted)
         /\ ext_Delete X temp_path true before = (deleted, snd (fst r))
         /\ count_calls (core is_file_op) (calls r) = 1%nat
         /\ (forall archive dir ret file,
                In (Core (EvLzmaUnPackArchive archive dir ret file))
                  (calls r) ->
                created = Some dir).
Proof.
  intros cmd_line sys code0 w Hsw r status code. subst r status code.
  unfold_options. rewrite Hsw.
  follow_code;
    cbn [calls returned fst snd app map existsb patch_applied orb];
    repeat match goal with
           | H : (?a =? ?b) = _ |- context [?a =? ?b] => rewrite H
           end;
    cbn [orb]; settle; subst;
    repeat match goal with
           | H : wrap_int32 ?z = _ |- context [wrap_int32 ?z] => rewrite H
           end;
    (split; [reflexivity|]);
    (split;
     [ intros src patch dest ret Hin; in_cases Hin;
       injection Hin as ? ? ? ?; subst;
       (split; [reflexivity|]); (split; [reflexivity|]);
       do 2 eexists; split; first [reflexivity | cbn; eauto 6] |]);
    (split; [intros Hc; first [reflexivity | exfalso; congruence]|]);
    (split; [intros Hc; first [reflexivity | exfalso; congruence]|]);
    do 3 eexists; cbv zeta;
    (split; [reflexivity|]); (split; [reflexivity|]);
    (split; [eassumption|]); (split; [reflexivity|]);
    intros archive dir ret file Hin; in_cases Hin;
    injection Hin as ? ? ? ?; subst; reflexivity.
Qed.

(** X17.  With --show-eula (and no --update-setup-exe) the exit code is the
    code of one of the three EULA statuses.  Consent is recorded, as the
    last call and as true, exactly when that code differs from the code of
    [EULA_REJECTED]; it is never recorded when no dialog was shown or the
    dialog was rejected. *)
Theorem HandleNonInstallCmdLineOptions_show_eula :
  forall cmd_line system_install exit_code w,
    HasSwitch X cmd_line (kUpdateSetupExe C) = false ->
    HasSwitch X cmd_line (kShowEula C) = true ->
    let r := HandleNonInstallCmdLineOptions X K Y C cmd_line system_install
               exit_code w in
    (exists status,
        (status = EULA_REJECTED \/ status = EULA_ACCEPTED
         \/ status = EULA_ACCEPTED_OPT_IN)
        /\ returned r = Some (true, status_int K status))
    /\ (In (EvSetEULAConsent true) (calls r)
        <-> returned r <> Some (true, status_int K EULA_REJECTED))
    /\ (forall consented,
           In (EvSetEULAConsent consented) (calls r) ->
           consented = true
           /\ last (calls r) EvAtExit = EvSetEULAConsent true
           /\ exists eula_path outcome,
                In (EvShowModal eula_path outcome) (calls r)
                /\ outcome <> REJECTED
                /\ eula_path <> ""%string).
Proof.
  intros cmd_line sys code w Hup Heula r. subst r.
  unfold_options. rewrite Hup, Heula.
  follow_setup; cbn [calls returned fst snd app]; settle;
    (split; [eexists; split; [|reflexivity]; tauto|]);
    (split;
     [ split; intros H; first [ now (cbn; auto) | congruence
                              | now in_cases H
                              | (exfalso; apply H; congruence) ]
     |]);
    intros consented H; in_cases H; injection H as ?; subst;
    (split; [reflexivity|]); (split; [reflexivity|]);
    do 2 eexists; (split; [cbn; eauto|]); (split; [discriminate|]);
    repeat match goal with
           | H : empty ?s = false |- _ =>
               destruct s; [discriminate H|clear H]
           end;
    destruct (GetSwitchValue X cmd_line (kShowEula C)); discriminate.
Qed.

(** X18.  With --rename-chrome-exe as the first option present,
    [HandleNonInstallCmdLineOptions] makes the calls of
    [RenameChromeExecutables] and nothing else, and the exit code is the
    code of its status: of [RENAME_SUCCESSFUL] when the work list was
    executed and [Do] returned true, of [RENAME_FAILED] otherwise. *)
Theorem HandleNonInstallCmdLineOptions_rename :
  forall cmd_line system_install exit_code w,
    HasSwitch X cmd_line (kUpdateSetupExe C) = false ->
    HasSwitch X cmd_line (kShowEula C) = false ->
    HasSwitch X cmd_line (kRegisterChromeBrowser C) = false ->
    HasSwitch X cmd_line (kRenameChromeExe C) = true ->
    let r := HandleNonInstallCmdLineOptions X K Y C cmd_line system_install
               exit_code w in
    let renamed := RenameChromeExecutables X K system_install w in
    calls r = map Core (events renamed)
    /\ snd (fst r) = world renamed
    /\ returned r = Some (true, status_int K (result renamed))
    /\ ((exists items, In (Core (EvDo items true)) (calls r)) ->
        returned r = Some (true, status_int K RENAME_SUCCESSFUL))
    /\ ((forall items, ~ In (Core (EvDo items true)) (calls r)) ->
        returned r = Some (true, status_int K RENAME_FAILED)).
Proof.
  intros cmd_line sys code w Hup Heula Hreg Hren r renamed.
  subst r renamed.
  unfold_options. rewrite Hup, Heula, Hreg, Hren. unfold_calls.
  follow_setup;
    cbn [calls returned events result world fst snd app map]; settle; subst;
    rewrite ?app_nil_r;
    (split; [reflexivity|]); (split; [reflexivity|]);
    (split; [reflexivity|]);
    (split;
     [ intros [items H]; in_cases H; reflexivity
     | intros H; first [ reflexivity
                       | exfalso; eapply H; cbn; eauto 6 ] ]).
Qed.

(** X19.  The options are tried in a fixed order and only the first one
    present is carried out: the EULA is fetched only without
    --update-setup-exe, the browser is registered only without the two
    before, a work list is executed only for --rename-chrome-exe without
    the three before, and so on down to the system-level toast. *)
Theorem HandleNonInstallCmdLineOptions_priority :
  forall cmd_line system_install exit_code w,
    let r := HandleNonInstallCmdLineOptions X K Y C cmd_line system_install
               exit_code w in
    let has := HasSwitch X cmd_line in
    (forall archive dir ret file,
        In (Core (EvLzmaUnPackArchive archive dir ret file)) (calls r) ->
        has (kUpdateSetupExe C) = true)
    /\ (forall resource,
           In (EvGetLocalizedEulaResource resource) (calls r) ->
           has (kUpdateSetupExe C) = false /\ has (kShowEula C) = true)
    /\ (forall exe suffix elevate registered,
           In (EvRegisterChromeBrowser exe suffix elevate registered)
             (calls r) ->
           has (kUpdateSetupExe C) = false /\ has (kShowEula C) = false
           /\ has (kRegisterChromeBrowser C) = true)
    /\ (forall items done,
           In (Core (EvDo items done)) (calls r) ->
           has (kUpdateSetupExe C) = false /\ has (kShowEula C) = false
           /\ has (kRegisterChromeBrowser C) = false
           /\ has (kRenameChromeExe C) = true)
    /\ (forall root suffix status,
           In (EvDeleteChromeRegistrationKeys root suffix status) (calls r) ->
           has (kUpdateSetupExe C) = false /\ has (kShowEula C) = false
           /\ has (kRegisterChromeBrowser C) = false
           /\ has (kRenameChromeExe C) = false
           /\ has (kRemoveChromeRegistration C) = true)
    /\ (forall flavor system_level,
           In (EvInactiveUserToastExperiment flavor system_level) (calls r) ->
           has (kUpdateSetupExe C) = false /\ has (kShowEula C) = false
           /\ has (kRegisterChromeBrowser C) = false
           /\ has (kRenameChromeExe C) = false
           /\ has (kRemoveChromeRegistration C) = false
           /\ has (kInactiveUserToast C) = true)
    /\ (forall status version system_level,
           In (Core (EvLaunchUserExperiment status version system_level))
             (calls r) ->
           has (kUpdateSetupExe C) = false /\ has (kShowEula C) = false
           /\ has (kRegisterChromeBrowser C) = false
           /\ has (kRenameChromeExe C) = false
           /\ has (kRemoveChromeRegistration C) = false
           /\ has (kInactiveUserToast C) = false
           /\ has (kSystemLevelToast C) = true).
Proof.
  intros cmd_line sys code w r has. subst r has.
  unfold HandleNonInstallCmdLineOptions.
  destruct (HasSwitch X cmd_line (kUpdateSetupExe C)) eqn:Hup;
    [|destruct (HasSwitch X cmd_line (kShowEula C)) eqn:Heula;
      [|destruct (HasSwitch X cmd_line (kRegisterChromeBrowser C)) eqn:Hreg;
        [|destruct (HasSwitch X cmd_line (kRenameChromeExe C)) eqn:Hren;
          [|destruct (HasSwitch X cmd_line (kRemoveChromeRegistration C))
              eqn:Hrem;
            [|destruct (HasSwitch X cmd_line (kInactiveUserToast C))
                eqn:Hina;
              [|destruct (HasSwitch X cmd_line (kSystemLevelToast C))
                  eqn:Hsys]]]]]];
    unfold update_setup_exe, ShowEULADialog, registration_suffix,
      RenameChromeExecutables, RenameChromeExecutables_run;
    unfold_setup;
    follow_setup; cbn [calls returned fst snd app map];
    repeat split; intros; try reflexivity;
    match goal with
    | H : In _ _ |- _ => in_cases H
    end.
Qed.

(** X20.  What the registration and toast options pass on and return.  The
    browser is registered for the executable given with the option, without
    elevation, and the exit code is 1 or 0 with the result.  Registration
    keys are deleted under [HKEY_LOCAL_MACHINE] whatever the install level,
    and the exit code is the code of the status the deletion left.  Both
    use the suffix of --register-chrome-browser-suffix, empty when it is
    absent.  The two toast options leave the exit code as it was passed
    in. *)
Theorem HandleNonInstallCmdLineOptions_arguments :
  forall cmd_line system_install exit_code w,
    let r := HandleNonInstallCmdLineOptions X K Y C cmd_line system_install
               exit_code w in
    let given_suffix :=
      if HasSwitch X cmd_line (kRegisterChromeBrowserSuffix C)
      then GetSwitchValue X cmd_line (kRegisterChromeBrowserSuffix C)
      else ""%string in
    (forall exe suffix elevate registered,
        In (EvRegisterChromeBrowser exe suffix elevate registered) (calls r) ->
        exe = GetSwitchValue X cmd_line (kRegisterChromeBrowser C)
        /\ suffix = given_suffix /\ elevate = false
        /\ returned r = Some (true, if registered then 1 else 0))
    /\ (forall root suffix status,
           In (EvDeleteChromeRegistrationKeys root suffix status) (calls r) ->
           root = HKEY_LOCAL_MACHINE /\ suffix = given_suffix
           /\ returned r = Some (true, status_int K status))
    /\ (forall flavor system_level,
           In (EvInactiveUserToastExperiment flavor system_level) (calls r) ->
           flavor =
             wrap_int32
               (StringToInt Y
                  (GetSwitchValue X cmd_line (kInactiveUserToast C)))
           /\ system_level = HasSwitch X cmd_line (kSystemLevelToast C)
           /\ returned r = Some (true, exit_code))
    /\ (forall status version system_level,
           In (Core (EvLaunchUserExperiment status version system_level))
             (calls r) ->
           status = REENTRY_SYS_UPDATE /\ system_level = true
           /\ version <> None
           /\ In (Core (EvGetChromeVersion system_install version)) (calls r)
           /\ returned r = Some (true, exit_code)).
Proof.
  intros cmd_line sys code w r given_suffix. subst r given_suffix.
  unfold_options.
  follow_code; cbn [calls returned fst snd app map];
    repeat split; intros;
    match goal with
    | H : In _ _ |- _ => in_cases H
    end;
    match goal with
    | H : _ = _ :> SetupEvent |- _ => injection H as; subst
    end;
    repeat match goal with
           | H : HasSwitch _ _ _ = _ |- _ => rewrite H
           end;
    first [ reflexivity | discriminate | cbn; auto ].
Qed.

End HandleOptions.

(** ** wWinMain *)

Lemma calls_count_app :
  forall p (a b : list SetupEvent),
    count_calls p (a ++ b) = (count_calls p a + count_calls p b)%nat.
Proof.
  intros p a b. unfold count_calls. now rewrite filter_app, length_app.
Qed.

Lemma calls_count_none :
  forall p l, no_call p l = true -> count_calls p l = 0%nat.
Proof.
  intros p l. unfold no_call, count_calls.
  induction l as [|e l IH]; cbn; [reflexivity|].
  intros H. apply andb_true_iff in H as [He Hl].
  destruct (p e); [discriminate|]. now apply IH.
Qed.

Lemma no_call_app :
  forall p a b, no_call p (a ++ b) = no_call p a && no_call p b.
Proof. intros p a b. apply forallb_app. Qed.

Lemma no_call_Core :
  forall p (l : list Event),
    (forall e, p (Core e) = false) -> no_call p (map Core l) = true.
Proof.
  intros p l Hp. unfold no_call.
  induction l as [|e l IH]; cbn; [reflexivity|].
  now rewrite Hp, IH.
Qed.

Lemma quiet_Core :
  forall p (l : list Event),
    (forall e, p (Core e) = false) ->
    forallb (fun e => negb (p e)) (map Core l) = true.
Proof. exact no_call_Core. Qed.

Lemma no_call_In :
  forall p l e, no_call p l = true -> In e l -> p e = false.
Proof.
  intros p l e H Hin. unfold no_call in H. rewrite forallb_forall in H.
  apply H in Hin. now apply negb_true_iff in Hin.
Qed.

Lemma calls_last :
  forall (l : list SetupEvent) e d, last (l ++ [e]) d = e.
Proof.
  intros l e d. induction l as [|x l IH]; [reflexivity|].
  cbn [app]. destruct (l ++ [e]) eqn:E; [now destruct l|].
  cbn [last]. exact IH.
Qed.

(** Name the result of a whole function of the file. *)
Ltac run_step :=
  match goal with
  | |- context [InstallChrome ?X ?K ?a ?b ?c ?w] =>
      destruct (InstallChrome X K a b c w) as [[? ?] ?] eqn:?
  end.

Ltac follow_main :=
  repeat first
    [ progress cbv beta iota zeta | call_step | setup_step | run_step
    | code_test_step ].

(** Membership in a trace that embeds the calls of [InstallChrome]. *)
Ltac in_trace H :=
  where_in H; try discriminate H;
  try (let Heq := fresh in
       apply in_map_iff in H as (? & Heq & _); discriminate Heq).

Section Main.

Context {W : Type}.
Variable X : Externals W.
Variable K : Constants.
Variable Y : SetupExternals W X.
Variable C : SetupConstants.

Lemma wWinMain_install_calls cmd_line command_line prefs system_install w :
  forallb install_event
    (calls (wWinMain_install X K Y C cmd_line command_line prefs
              system_install w)) = true.
Proof.
  unfold wWinMain_install, UninstallChrome, ShowRebootDialog. unfold_setup.
  follow_main; cbn [calls snd app map forallb install_event andb];
    rewrite ?calls_app, ?calls_Core; cbn [forallb install_event andb];
    rewrite ?andb_true_r;
    try reflexivity;
    match goal with
    | |- forallb _ ?l = true =>
        clear; induction l as [|? ? IH]; [reflexivity | exact IH]
    end.
Qed.


Lemma wWinMain_with_com_calls cmd_line command_line prefs system_install w :
  no_call process_event
    (calls (wWinMain_with_com X K Y C cmd_line command_line prefs
              system_install w)) = true.
Proof.
  unfold wWinMain_with_com. unfold_setup.
  repeat first
    [ progress cbv beta iota zeta
    | setup_step
    | match goal with
      | |- context [HandleNonInstallCmdLineOptions ?X ?K ?Y ?C ?a ?b ?c ?w] =>
          pose proof (HandleNonInstallCmdLineOptions_calls X K Y C a b c w);
          destruct (HandleNonInstallCmdLineOptions X K Y C a b c w)
            as [[[[? ?]|] ?] ?]
      | |- context [wWinMain_install ?X ?K ?Y ?C ?a ?b ?c ?d ?w] =>
          pose proof (wWinMain_install_calls a b c d w);
          destruct (wWinMain_install X K Y C a b c d w) as [[? ?] ?]
      end
    | code_test_step ];
    unfold no_call; cbn [calls snd app map] in *;
    cbn [forallb process_event negb andb]; rewrite ?forallb_app;
    cbn [forallb process_event negb andb];
    rewrite ?andb_true_r; try reflexivity;
    repeat match goal with
           | H : forallb ?q ?l = true |- context [forallb ?p ?l] =>
               rewrite (calls_weaken q p l); [ | | exact H ]
           end;
    try reflexivity;
    intros e; destruct e as [[]| | | | | | | | | | | | | | | | | | | | | | | | | | | ];
    cbn; congruence.
Qed.


(** The three ways a run of [wWinMain] can go. *)
Lemma wWinMain_shape cmd_line command_line w :
  let r := wWinMain X K Y C cmd_line command_line w in
  let parsed := chrome_frame_switches X Y C cmd_line in
  exists prefs startup,
    let sys := GetDistroBooleanPreference X prefs (kSystemLevel K) false in
    forallb startup_event startup = true
    /\ ((calls r =
           startup ++
           [EvIsOSSupported false;
            Core (EvWriteInstallerResult sys OS_NOT_SUPPORTED
                    (IDS_INSTALL_OS_NOT_SUPPORTED_BASE C) None);
            EvAtExit]
         /\ returned r = Some (status_int K OS_NOT_SUPPORTED))
        \/ (exists hresult,
               hresult <> S_OK
               /\ calls r =
                    startup ++
                    [EvIsOSSupported true; EvCoInitializeEx hresult;
                     Core (EvWriteInstallerResult sys OS_ERROR
                             (IDS_INSTALL_OS_ERROR_BASE K) None);
                     EvAtExit]
               /\ returned r = Some (status_int K OS_ERROR))
        \/ (exists w1,
               let c := wWinMain_with_com X K Y C parsed command_line prefs
                          sys w1 in
               calls r =
                 startup ++
                 [EvIsOSSupported true; EvCoInitializeEx S_OK] ++
                 calls c ++
                 match returned c with
                 | Some _ => [EvCoUninitialize; EvAtExit]
                 | None => []
                 end
               /\ returned r = returned c)).
Proof.
  intros r parsed. subst r. unfold wWinMain. unfold_setup. fold parsed.
  destruct (ext_GetInstallPreferences Y parsed
              (ext_InitInstallerLogging Y parsed w)) as [prefs w1].
  cbv beta iota zeta.
  exists prefs.
  destruct (GetDistroBooleanPreference_found Y prefs (kVerboseLogging C)
            && GetDistroBooleanPreference X prefs (kVerboseLogging C) false);
    cbv beta iota zeta;
    [ exists [EvInitInstallerLogging;
              EvGetInstallPreferences
                match prefs with Some _ => true | None => false end;
              EvSetMinLogLevel]
    | exists [EvInitInstallerLogging;
              EvGetInstallPreferences
                match prefs with Some _ => true | None => false end] ];
    (split; [reflexivity|]);
    (match goal with
     | |- context [ext_IsOSSupported ?Y ?w] =>
         destruct (ext_IsOSSupported Y w) as [[|] w2]
     end);
    cbv beta iota zeta; cbn [negb];
    try (left; split; reflexivity);
    right;
    (match goal with
     | |- context [ext_CoInitializeEx ?Y ?w] =>
         destruct (ext_CoInitializeEx Y w) as [hr w3]
     end);
    cbv beta iota zeta;
    destruct (wrap_int32 hr =? S_OK) eqn:Hhr; cbn [negb]; settle;
    try (left; exists (wrap_int32 hr); split; [assumption|];
         split; reflexivity);
    right; exists w3; cbv zeta;
    destruct (wWinMain_with_com X K Y C parsed command_line prefs
                (GetDistroBooleanPreference X prefs (kSystemLevel K) false)
                w3) as [[[rc|] w4] ev];
    rewrite Hhr; cbn [calls returned fst snd app];
    rewrite <- ?app_assoc, ?app_nil_r; split; reflexivity.
Qed.

(** X21.  COM is initialized at most once in a run of [wWinMain].  A run
    that returns ends with the exit manager, which runs once, and
    uninitializes COM exactly when the initialization returned [S_OK], as
    the last call before the exit manager.  A run that does not return,
    because it stopped at the null dereference of line 347 or 536, had
    initialized COM with [S_OK]; it neither uninitializes COM nor runs the
    exit manager. *)
Theorem wWinMain_com_balance :
  forall cmd_line command_line w,
    let r := wWinMain X K Y C cmd_line command_line w in
    (count_calls is_com_init (calls r) <= 1)%nat
    /\ (returned r <> None ->
        (exists before,
            calls r = before ++ [EvAtExit]
            /\ no_call is_at_exit before = true)
        /\ (In (EvCoInitializeEx S_OK) (calls r)
            <-> In EvCoUninitialize (calls r)))
    /\ (In EvCoUninitialize (calls r) ->
        returned r <> None
        /\ exists before,
             calls r = before ++ [EvCoUninitialize; EvAtExit]
             /\ no_call is_com_uninit before = true
             /\ In (EvCoInitializeEx S_OK) before)
    /\ (returned r = None ->
        In (EvCoInitializeEx S_OK) (calls r)
        /\ no_call is_com_uninit (calls r) = true
        /\ no_call is_at_exit (calls r) = true).
Proof.
  intros cmd_line command_line w r.
  destruct (wWinMain_shape cmd_line command_line w)
    as (prefs & startup & Hs & H).
  fold r in H.
  assert (Hq : forall p, (forall e, startup_event e = true -> p e = false) ->
                         no_call p startup = true).
  { intros p Hp. unfold no_call. revert Hs. apply calls_weaken.
    intros e He. now rewrite (Hp e He). }
  assert (Hn : forall e, startup_event e = false -> ~ In e startup).
  { intros e He Hin. pose proof (calls_In _ _ _ Hs Hin). congruence. }
  destruct H as [[Hc Hr]|[(hr & Hhr & Hc & Hr)|(w1 & Hc & Hr)]].
  - rewrite Hc, Hr. split; [|split; [|split]].
    + rewrite calls_count_app, calls_count_none; [cbn; lia|].
      apply Hq. now intros [].
    + intros _. split.
      * eexists (startup ++ [_; _]). rewrite <- app_assoc.
        split; [reflexivity|].
        rewrite no_call_app, Hq; [reflexivity|]. now intros [].
      * split; intros Hin; apply in_app_or in Hin as [Hin|Hin];
          try (now apply Hn in Hin); in_cases Hin.
    + intros Hin; apply in_app_or in Hin as [Hin|Hin];
        try (now apply Hn in Hin); in_cases Hin.
    + intros Hnone. discriminate Hnone.
  - rewrite Hc, Hr. split; [|split; [|split]].
    + rewrite calls_count_app, calls_count_none; [cbn; lia|].
      apply Hq. now intros [].
    + intros _. split.
      * eexists (startup ++ [_; _; _]). rewrite <- app_assoc.
        split; [reflexivity|].
        rewrite no_call_app, Hq; [reflexivity|]. now intros [].
      * split; intros Hin; apply in_app_or in Hin as [Hin|Hin];
          try (now apply Hn in Hin); in_cases Hin.
        injection Hin as Hin. congruence.
    + intros Hin; apply in_app_or in Hin as [Hin|Hin];
        try (now apply Hn in Hin); in_cases Hin.
    + intros Hnone. discriminate Hnone.
  - cbv zeta in Hc, Hr.
    pose proof (wWinMain_with_com_calls
                  (chrome_frame_switches X Y C cmd_line) command_line prefs
                  (GetDistroBooleanPreference X prefs (kSystemLevel K) false)
                  w1) as Hq'.
    set (c := wWinMain_with_com X K Y C _ _ _ _ w1) in *.
    assert (Hw : forall p, (forall e, p e = true -> process_event e = true) ->
                           no_call p (calls c) = true).
    { intros p Hp. unfold no_call in *. revert Hq'. apply calls_weaken.
      intros e He. destruct (p e) eqn:Hpe; [|reflexivity].
      rewrite (Hp e Hpe) in He. discriminate He. }
    rewrite Hc, Hr. clear Hc Hr.
    destruct (returned c) as [code|]; split; [|split; [|split]| |split; [|split]].
    + rewrite !calls_count_app, (calls_count_none _ startup),
        (calls_count_none _ (calls c)); [cbn; lia| |].
      * apply Hw. now intros [].
      * apply Hq. now intros [].
    + intros _. split.
      * exists (startup ++ [EvIsOSSupported true; EvCoInitializeEx S_OK] ++
                calls c ++ [EvCoUninitialize]).
        rewrite <- !app_assoc. split; [reflexivity|].
        rewrite !no_call_app, Hq, Hw; [reflexivity| |]; now intros [].
      * split; intros _; find_in.
    + intros _. split; [discriminate|].
      exists (startup ++ [EvIsOSSupported true; EvCoInitializeEx S_OK] ++
              calls c).
      rewrite <- !app_assoc. split; [reflexivity|]. split.
      * rewrite !no_call_app, Hq, Hw; [reflexivity| |]; now intros [].
      * find_in.
    + intros Hnone. discriminate Hnone.
    + rewrite !calls_count_app, (calls_count_none _ startup),
        (calls_count_none _ (calls c)); [cbn; lia| |].
      * apply Hw. now intros [].
      * apply Hq. now intros [].
    + intros Hnone. now contradiction Hnone.
    + intros Hin. exfalso. rewrite app_nil_r in Hin.
      apply in_app_or in Hin as [Hin|Hin]; [now apply Hn in Hin|].
      apply in_app_or in Hin as [Hin|Hin]; [in_cases Hin|].
      pose proof (no_call_In _ _ _ Hq' Hin) as He. discriminate He.
    + intros _. rewrite app_nil_r. split; [find_in|]. split.
      * rewrite !no_call_app, Hq, Hw; [reflexivity| |]; now intros [].
      * rewrite !no_call_app, Hq, Hw; [reflexivity| |]; now intros [].
Qed.

(** X22.  On a Windows that is not supported, [wWinMain] writes and returns
    [OS_NOT_SUPPORTED] right after the question and does nothing else: COM
    is not initialized, nothing is installed or uninstalled. *)
Theorem wWinMain_os_not_supported :
  forall cmd_line command_line w,
    let r := wWinMain X K Y C cmd_line command_line w in
    In (EvIsOSSupported false) (calls r) ->
    returned r = Some (status_int K OS_NOT_SUPPORTED)
    /\ exists startup system_install,
         forallb startup_event startup = true
         /\ calls r =
              startup ++
              [EvIsOSSupported false;
               Core (EvWriteInstallerResult system_install OS_NOT_SUPPORTED
                       (IDS_INSTALL_OS_NOT_SUPPORTED_BASE C) None);
               EvAtExit].
Proof.
  intros cmd_line command_line w r Hin.
  destruct (wWinMain_shape cmd_line command_line w)
    as (prefs & startup & Hs & H).
  fold r in H.
  destruct H as [[Hc Hr]|[(hr & Hhr & Hc & Hr)|(w1 & Hc & Hr)]].
  - split; [exact Hr|]. eexists startup, _. split; [exact Hs | exact Hc].
  - exfalso. rewrite Hc in Hin. apply in_app_or in Hin as [Hin|Hin].
    + pose proof (calls_In _ _ _ Hs Hin) as He. discriminate He.
    + in_cases Hin.
  - exfalso. cbv zeta in Hc. rewrite Hc in Hin.
    pose proof (wWinMain_with_com_calls
                  (chrome_frame_switches X Y C cmd_line) command_line prefs
                  (GetDistroBooleanPreference X prefs (kSystemLevel K) false)
                  w1) as Hq.
    destruct (returned (wWinMain_with_com X K Y C _ _ _ _ w1));
      where_in Hin; try discriminate Hin; try contradiction;
      first [ pose proof (calls_In _ _ _ Hs Hin) as He; discriminate He
            | pose proof (no_call_In _ _ _ Hq Hin) as He; discriminate He ].
Qed.

(** X23.  When [CoInitializeEx] returns anything but [S_OK], a success code
    such as [S_FALSE] included, [wWinMain] writes and returns [OS_ERROR]
    and does nothing else; COM is not uninitialized. *)
Theorem wWinMain_com_failure :
  forall cmd_line command_line w hresult,
    let r := wWinMain X K Y C cmd_line command_line w in
    In (EvCoInitializeEx hresult) (calls r) ->
    hresult <> S_OK ->
    returned r = Some (status_int K OS_ERROR)
    /\ exists startup system_install,
         forallb startup_event startup = true
         /\ calls r =
              startup ++
              [EvIsOSSupported true; EvCoInitializeEx hresult;
               Core (EvWriteInstallerResult system_install OS_ERROR
                       (IDS_INSTALL_OS_ERROR_BASE K) None);
               EvAtExit].
Proof.
  intros cmd_line command_line w hresult r Hin Hne.
  destruct (wWinMain_shape cmd_line command_line w)
    as (prefs & startup & Hs & H).
  fold r in H.
  destruct H as [[Hc Hr]|[(hr & Hhr & Hc & Hr)|(w1 & Hc & Hr)]].
  - exfalso. rewrite Hc in Hin. apply in_app_or in Hin as [Hin|Hin].
    + pose proof (calls_In _ _ _ Hs Hin) as He. discriminate He.
    + in_cases Hin.
  - assert (hr = hresult) as ->.
    { rewrite Hc in Hin. apply in_app_or in Hin as [Hin|Hin].
      - pose proof (calls_In _ _ _ Hs Hin) as He. discriminate He.
      - in_cases Hin. now injection Hin. }
    split; [exact Hr|]. eexists startup, _. split; [exact Hs | exact Hc].
  - exfalso. cbv zeta in Hc. rewrite Hc in Hin.
    pose proof (wWinMain_with_com_calls
                  (chrome_frame_switches X Y C cmd_line) command_line prefs
                  (GetDistroBooleanPreference X prefs (kSystemLevel K) false)
                  w1) as Hq.
    destruct (returned (wWinMain_with_com X K Y C _ _ _ _ w1));
      where_in Hin; try discriminate Hin; try contradiction;
      first [ pose proof (calls_In _ _ _ Hs Hin) as He; discriminate He
            | pose proof (no_call_In _ _ _ Hq Hin) as He; discriminate He
            | injection Hin as Hin; congruence ].
Qed.


Lemma HandleNonInstallCmdLineOptions_handled cmd_line system_install
    exit_code w :
  forall handled code,
    returned (HandleNonInstallCmdLineOptions X K Y C cmd_line
                system_install exit_code w) = Some (handled, code) ->
    handled =
      HasSwitch X cmd_line (kUpdateSetupExe C)
      || HasSwitch X cmd_line (kShowEula C)
      || HasSwitch X cmd_line (kRegisterChromeBrowser C)
      || HasSwitch X cmd_line (kRenameChromeExe C)
      || HasSwitch X cmd_line (kRemoveChromeRegistration C)
      || HasSwitch X cmd_line (kInactiveUserToast C)
      || HasSwitch X cmd_line (kSystemLevelToast C).
Proof.
  unfold_options.
  follow_setup; cbn [calls returned fst snd app orb]; rewrite ?orb_true_r;
    intros handled code' H; try discriminate H; injection H as <- <-;
    reflexivity.
Qed.

(** X24.  In a side-by-side setup, a system-level run or one of the six
    options that do not work side by side makes the COM part of [wWinMain]
    return [SXS_OPTION_NOT_SUPPORTED] right after the question: no option
    is handled, nothing is installed and no installer result is written. *)
Theorem wWinMain_with_com_sxs :
  forall cmd_line command_line prefs system_install w,
    let r := wWinMain_with_com X K Y C cmd_line command_line prefs
               system_install w in
    In (EvIsChromeSxSProcess true) (calls r) ->
    system_install = true
    \/ (exists switch,
           In switch [kForceUninstall C; kMakeChromeDefault C;
                      kRegisterChromeBrowser C; kRemoveChromeRegistration C;
                      kInactiveUserToast C; kSystemLevelToast C]
           /\ HasSwitch X cmd_line switch = true) ->
    calls r = [EvIsChromeSxSProcess true]
    /\ returned r = Some (status_int K SXS_OPTION_NOT_SUPPORTED).
Proof.
  intros cmd_line command_line prefs sys w r Hin Hbad. subst r.
  assert (Hsxs : sxs_unsupported X C cmd_line sys = true).
  { unfold sxs_unsupported.
    destruct Hbad as [->|(sw & Hsw & Hhas)]; [reflexivity|].
    cbn in Hsw.
    repeat (destruct Hsw as [<-|Hsw];
            [rewrite Hhas, ?orb_true_r; reflexivity|]).
    contradiction. }
  revert Hin. unfold wWinMain_with_com. unfold_setup.
  destruct (ext_IsChromeSxSProcess Y w) as [[|] w1]; rewrite Hsxs;
    cbv beta iota zeta; cbn [andb calls returned fst snd app].
  - intros _. split; reflexivity.
  - pose proof (HandleNonInstallCmdLineOptions_calls X K Y C cmd_line sys 0
                  w1) as Hh.
    destruct (HandleNonInstallCmdLineOptions X K Y C cmd_line sys 0 w1)
      as [[[[handled code]|] w2] l];
      cbn [calls snd] in Hh; cbv beta iota zeta;
      intros Hin; exfalso; revert Hin;
    repeat first
      [ progress cbv beta iota zeta
      | setup_step
      | match goal with
        | |- context [wWinMain_install ?X ?K ?Y ?C ?a ?b ?c ?d ?w] =>
            pose proof (wWinMain_install_calls a b c d w);
            destruct (wWinMain_install X K Y C a b c d w) as [[? ?] ?]
        end
      | code_test_step ];
      cbn [calls snd app map] in *; intros Hin; in_trace Hin;
      try contradiction;
      match goal with
      | H : forallb _ ?l = true, Hin : In _ ?l |- _ =>
          pose proof (calls_In _ _ _ H Hin) as He; discriminate He
      end.
Qed.

(** X25.  A system-level run by a user who is not an administrator never
    installs or uninstalls.  From Vista on, and unless --run-as-admin is
    already given, setup runs itself elevated, with " --run-as-admin"
    appended to the command line, and returns that run's exit code;
    otherwise it writes and returns [INSUFFICIENT_RIGHTS].  A user-level run
    never asks whether the user is an administrator. *)
Theorem wWinMain_with_com_non_admin :
  forall cmd_line command_line prefs system_install w,
    let r := wWinMain_with_com X K Y C cmd_line command_line prefs
               system_install w in
    (In (EvIsUserAnAdmin false) (calls r) ->
     system_install = true
     /\ no_call (core is_mutate) (calls r) = true
     /\ no_call is_uninstaller (calls r) = true
     /\ exists version,
          In (EvGetWinVersion version) (calls r)
          /\ if (WINVERSION_VISTA C <=? version)
                && negb (HasSwitch X cmd_line (kRunAsAdmin C))
             then exists code,
                    last (calls r) EvAtExit =
                      EvExecuteExeAsAdmin (program X cmd_line)
                        (command_line ++ " --" ++ kRunAsAdmin C) code
                    /\ returned r = Some (wrap_int32 code)
                    /\ no_call (core is_write_result) (calls r) = true
             else last (calls r) EvAtExit =
                    Core (EvWriteInstallerResult true INSUFFICIENT_RIGHTS
                            (IDS_INSTALL_INSUFFICIENT_RIGHTS_BASE C) None)
                  /\ returned r = Some (status_int K INSUFFICIENT_RIGHTS))
    /\ (system_install = false -> no_call is_admin_query (calls r) = true).
Proof.
  intros cmd_line command_line prefs sys w r. subst r.
  unfold wWinMain_with_com. unfold_setup.
  destruct (ext_IsChromeSxSProcess Y w) as [sxs w1].
  cbv beta iota zeta.
  destruct (sxs && sxs_unsupported X C cmd_line sys);
    cbv beta iota zeta; cbn [calls returned fst snd app].
  { split; [intros Hin; in_cases Hin | reflexivity]. }
  pose proof (HandleNonInstallCmdLineOptions_calls X K Y C cmd_line sys 0 w1)
    as Hh.
  pose proof (HandleNonInstallCmdLineOptions_not_handled X K Y C cmd_line sys
                0 w1) as Hnot.
  cbv zeta in Hnot.
  destruct (HandleNonInstallCmdLineOptions X K Y C cmd_line sys 0 w1)
    as [[[[handled code]|] w2] l];
    cbn [calls returned fst snd] in Hh, Hnot; cbv beta iota zeta.
  2: { cbn [calls returned fst snd app]. split.
       - intros Hin. in_trace Hin.
         pose proof (calls_In _ _ _ Hh Hin) as He. discriminate He.
       - intros _. rewrite app_nil_r. cbn. unfold no_call. revert Hh.
         apply calls_weaken.
         intros e; destruct e as [[]| | | | | | | | | | | | | | | | | | | | | | | | | | | ];
           cbn; congruence. }
  assert (Hadm : forall b, ~ In (EvIsUserAnAdmin b) l).
  { intros b Hin. pose proof (calls_In _ _ _ Hh Hin) as He. discriminate He. }
  assert (Hq : no_call is_admin_query l = true).
  { unfold no_call. revert Hh. apply calls_weaken.
    intros e; destruct e as [[]| | | | | | | | | | | | | | | | | | | | | | | | | | | ];
      cbn; congruence. }
  destruct handled; cbv beta iota zeta; cbn [calls returned fst snd app].
  { split.
    - intros Hin. in_trace Hin. now apply Hadm in Hin.
    - intros _. rewrite app_nil_r. cbn. exact Hq. }
  specialize (Hnot _ eq_refl). injection Hnot as _ _ ->.
  destruct sys; cbv beta iota zeta.
  - destruct (ext_IsUserAnAdmin Y w2) as [[|] w3];
      cbv beta iota zeta; cbn [negb].
    + pose proof (wWinMain_install_calls cmd_line command_line prefs true w3)
        as Hi.
      destruct (wWinMain_install X K Y C cmd_line command_line prefs true w3)
        as [[rc w4] li].
      cbn [calls returned fst snd app] in *.
      split; [|discriminate].
      intros Hin. exfalso. in_trace Hin.
      pose proof (calls_In _ _ _ Hi Hin) as He. discriminate He.
    + destruct (ext_GetWinVersion Y w3) as [version w4].
      cbv beta iota zeta.
      split; [|discriminate]. intros _.
      split; [reflexivity|].
      destruct ((WINVERSION_VISTA C <=? version)
                && negb (HasSwitch X cmd_line (kRunAsAdmin C))) eqn:Hv;
        cbv beta iota zeta.
      * destruct (ext_ExecuteExeAsAdmin Y _ _ _ w4) as [ec w5].
        cbn [calls returned fst snd app].
        split; [reflexivity|]. split; [reflexivity|].
        exists version. split; [now right; right; left|].
        rewrite Hv. eexists. split; [reflexivity|]. now split.
      * cbn [calls returned fst snd app map].
        split; [reflexivity|]. split; [reflexivity|].
        exists version. split; [now right; right; left|].
        rewrite Hv. now split.
  - pose proof (wWinMain_install_calls cmd_line command_line prefs false w2)
      as Hi.
    destruct (wWinMain_install X K Y C cmd_line command_line prefs false w2)
      as [[rc w4] li].
    cbn [calls returned fst snd app] in *.
    split.
    + intros Hin. exfalso. in_trace Hin.
      pose proof (calls_In _ _ _ Hi Hin) as He. discriminate He.
    + intros _. cbn. unfold no_call. revert Hi. apply calls_weaken.
      intros e; destruct e as [[]| | | | | | | | | | | | | | | | | | | | | | | | | | | ];
        cbn; congruence.
Qed.


(** X26.  With any of the seven options of
    [HandleNonInstallCmdLineOptions] on the command line, the COM part of
    [wWinMain] never gets to the install or uninstall, --uninstall or not:
    after the side-by-side question it either refuses, or makes the calls
    of the handler and returns the handler's exit code, which started as
    0.  When the handler does not return, neither does this part. *)
Theorem wWinMain_with_com_option_handled :
  forall cmd_line command_line prefs system_install w,
    let r := wWinMain_with_com X K Y C cmd_line command_line prefs
               system_install w in
    HasSwitch X cmd_line (kUpdateSetupExe C)
    || HasSwitch X cmd_line (kShowEula C)
    || HasSwitch X cmd_line (kRegisterChromeBrowser C)
    || HasSwitch X cmd_line (kRenameChromeExe C)
    || HasSwitch X cmd_line (kRemoveChromeRegistration C)
    || HasSwitch X cmd_line (kInactiveUserToast C)
    || HasSwitch X cmd_line (kSystemLevelToast C) = true ->
    no_call (core is_mutate) (calls r) = true
    /\ no_call is_uninstaller (calls r) = true
    /\ no_call is_admin_query (calls r) = true
    /\ ((calls r = [EvIsChromeSxSProcess true]
         /\ returned r = Some (status_int K SXS_OPTION_NOT_SUPPORTED))
        \/ exists sxs w1,
             let h := HandleNonInstallCmdLineOptions X K Y C cmd_line
                        system_install 0 w1 in
             calls r = EvIsChromeSxSProcess sxs :: calls h
             /\ returned r = option_map snd (returned h)).
Proof.
  intros cmd_line command_line prefs sys w r Hfound. subst r.
  unfold wWinMain_with_com. unfold_setup.
  destruct (ext_IsChromeSxSProcess Y w) as [sxs w1].
  cbv beta iota zeta.
  destruct (sxs && sxs_unsupported X C cmd_line sys) eqn:Hsxs;
    cbv beta iota zeta; cbn [calls returned fst snd app].
  { apply andb_true_iff in Hsxs as [-> _].
    repeat (split; [reflexivity|]). left. now split. }
  pose proof (HandleNonInstallCmdLineOptions_calls X K Y C cmd_line sys 0 w1)
    as Hh.
  pose proof (HandleNonInstallCmdLineOptions_handled cmd_line sys 0 w1)
    as Hhandled.
  rewrite Hfound in Hhandled.
  assert (Hq : forall p, (forall e, handle_event e = true -> p e = false) ->
                         no_call p
                           (calls (HandleNonInstallCmdLineOptions X K Y C
                                     cmd_line sys 0 w1)) = true).
  { intros p Hp. unfold no_call. revert Hh. apply calls_weaken.
    intros e He. now rewrite (Hp e He). }
  remember (HandleNonInstallCmdLineOptions X K Y C cmd_line sys 0 w1) as h
    eqn:Hdef.
  assert (Heq : h = (option_map (fun p => (true, snd p)) (returned h),
                     snd (fst h), calls h)).
  { clear Hdef Hq. destruct h as [[[[handled code]|] w2] l];
      cbn in Hhandled |- *; [|reflexivity].
    now rewrite (Hhandled _ _ eq_refl). }
  rewrite Heq. clear Heq.
  destruct (returned h) as [[handled code]|] eqn:Hret;
    cbv beta iota zeta; cbn [option_map calls returned fst snd app];
    rewrite app_nil_r;
    (split; [|split; [|split]]);
    try (right; exists sxs, w1; cbv zeta; rewrite <- Hdef, Hret;
         split; reflexivity);
    cbn; apply Hq;
    intros e; destruct e as [[]| | | | | | | | | | | | | | | | | | | | | | | | | | | ];
    cbn; congruence.
Qed.


(** X27.  The last part of [wWinMain] either uninstalls or installs, by
    --uninstall alone.  With --uninstall it never calls
    [InstallOrUpdateChrome], launches nothing, touches no file, and calls
    the uninstaller at most once.  Without it the uninstaller is never
    called and no message box is shown. *)
Theorem wWinMain_install_exclusive :
  forall cmd_line command_line prefs system_install w,
    let r := wWinMain_install X K Y C cmd_line command_line prefs
               system_install w in
    (HasSwitch X cmd_line (kUninstall C) = true ->
     no_call (core is_mutate) (calls r) = true
     /\ no_call (core is_launch) (calls r) = true
     /\ no_call (core is_file_op) (calls r) = true
     /\ (count_calls is_uninstaller (calls r) <= 1)%nat)
    /\ (HasSwitch X cmd_line (kUninstall C) = false ->
        no_call is_uninstaller (calls r) = true
        /\ no_call is_message_box (calls r) = true).
Proof.
  intros cmd_line command_line prefs sys w r. subst r.
  unfold wWinMain_install, UninstallChrome, ShowRebootDialog. unfold_setup.
  destruct (HasSwitch X cmd_line (kUninstall C)) eqn:Hun;
    (split; [intros Hsw|intros Hsw]; try discriminate Hsw); clear Hsw.
  - follow_main; cbn; repeat split; lia.
  - follow_main; cbn [calls snd app map];
      unfold no_call; cbn [forallb negb is_uninstaller is_message_box andb];
      rewrite ?forallb_app;
      (split;
       [ rewrite (quiet_Core is_uninstaller) by reflexivity
       | rewrite (quiet_Core is_message_box) by reflexivity ]);
      reflexivity.
Qed.

(** X28.  Without --uninstall the last part of [wWinMain] asks for the
    installed version at the level of the run, hands it to [InstallChrome]
    and returns the return code of the status [InstallChrome] returned;
    after [InstallChrome] it makes no call that changes the installation.
    When [InstallChrome] stopped at line 347, nothing is returned and no
    further call is made. *)
Theorem wWinMain_install_runs_InstallChrome :
  forall cmd_line command_line prefs system_install w,
    let r := wWinMain_install X K Y C cmd_line command_line prefs
               system_install w in
    HasSwitch X cmd_line (kUninstall C) = false ->
    exists version w1 rest,
      let run := InstallChrome X K cmd_line version prefs w1 in
      calls r =
        Core (EvGetChromeVersion system_install version)
        :: map Core (events run) ++ rest
      /\ no_call (core (fun _ => true)) rest = true
      /\ returned r =
           option_map (fun status => wrap_int32 (GetInstallReturnCode Y status))
             (result run)
      /\ (result run = None -> rest = []).
Proof.
  intros cmd_line command_line prefs sys w r Hun. subst r.
  unfold wWinMain_install, ShowRebootDialog. unfold_setup.
  rewrite Hun. cbv beta iota zeta.
  follow_main;
    try match goal with
        | H : negb (_ && false) = false |- _ =>
            rewrite andb_false_r in H; discriminate H
        end;
    match goal with
    | Heq : InstallChrome _ _ _ ?v _ ?w0 = _ |- _ =>
        exists v, w0; eexists; cbv zeta; rewrite Heq
    end;
    cbn [calls returned events result fst snd app map andb negb];
    rewrite ?andb_false_r; cbn [negb];
    (split; [reflexivity|]); (split; [reflexivity|]); split;
    first [reflexivity | intros Hnone; discriminate Hnone].
Qed.

(** X29.  With --uninstall the last part of [wWinMain] returns 0 when
    setup runs under MSI, whatever the uninstall did.  Otherwise it returns
    the return code of the status of the uninstall: the one the uninstaller
    returned, or [CHROME_NOT_INSTALLED] when the uninstaller was not
    called. *)
Theorem wWinMain_install_uninstall_code :
  forall cmd_line command_line prefs system_install w,
    let r := wWinMain_install X K Y C cmd_line command_line prefs
               system_install w in
    HasSwitch X cmd_line (kUninstall C) = true ->
    exists msi,
      last (calls r) EvAtExit = EvIsMSIProcess system_install msi
      /\ if msi then returned r = Some 0
         else exists status,
                returned r = Some (wrap_int32 (GetInstallReturnCode Y status))
                /\ ((exists exe level remove_all force params,
                        In (EvSetupUninstallChrome exe level remove_all force
                              params status) (calls r))
                    \/ (status = CHROME_NOT_INSTALLED
                        /\ no_call is_uninstaller (calls r) = true
                        /\ In (Core (EvWriteInstallerResult system_install
                                       CHROME_NOT_INSTALLED
                                       (IDS_UNINSTALL_FAILED_BASE C) None))
                             (calls r))).
Proof.
  intros cmd_line command_line prefs sys w r Hun. subst r.
  unfold wWinMain_install, UninstallChrome, ShowRebootDialog. unfold_setup.
  rewrite Hun. cbv beta iota zeta.
  follow_main;
    cbn [calls returned fst snd app map andb negb] in *;
    try discriminate;
    match goal with
    | H : negb (?b && true) = _ |- _ => destruct b; try discriminate H
    end;
    eexists; (split; [reflexivity|]); cbv beta iota;
    try reflexivity;
    eexists; (split; [reflexivity|]);
    first [ left; do 5 eexists; cbn; now eauto 8
          | right; split; [reflexivity|]; split; [reflexivity|];
            cbn; now eauto 8 ].
Qed.

(** X30.  The dialogs of the last part of [wWinMain] are for Chrome Frame
    without --force-uninstall only.  The message box is shown only for an
    uninstall, with the uninstall-complete text and the application name,
    and never together with the reboot dialog; in any other process, or
    with --force-uninstall, no dialog is shown and no token is opened. *)
Theorem wWinMain_install_dialogs :
  forall cmd_line command_line prefs system_install w,
    let r := wWinMain_install X K Y C cmd_line command_line prefs
               system_install w in
    let force := HasSwitch X cmd_line (kForceUninstall C) in
    (forall text caption,
        In (EvMessageBoxW text caption) (calls r) ->
        HasSwitch X cmd_line (kUninstall C) = true /\ force = false
        /\ In (EvIsChromeFrameProcess true) (calls r)
        /\ text = GetLocalizedString Y (IDS_UNINSTALL_COMPLETE_BASE C)
        /\ caption = GetApplicationName Y
        /\ no_call is_token_query (calls r) = true)
    /\ (forall opened,
           In (EvOpenProcessToken opened) (calls r) ->
           force = false /\ In (EvIsChromeFrameProcess true) (calls r)
           /\ no_call is_message_box (calls r) = true)
    /\ (force = true \/ In (EvIsChromeFrameProcess false) (calls r) ->
        no_call is_dialog (calls r) = true
        /\ no_call is_token_query (calls r) = true).
Proof.
  intros cmd_line command_line prefs sys w r force. subst r force.
  unfold wWinMain_install, UninstallChrome, ShowRebootDialog. unfold_setup.
  follow_main; cbn [calls returned fst snd app map] in *; settle; subst;
    repeat match goal with
           | H : HasSwitch _ _ _ = _ |- _ => rewrite H in *
           end;
    (split;
     [ intros text caption Hin; in_trace Hin;
       injection Hin as ? ?; subst;
       repeat (split; [first [reflexivity | find_in]|]);
       unfold no_call; cbn [forallb negb is_token_query andb];
       rewrite ?forallb_app;
       rewrite ?(quiet_Core is_token_query) by reflexivity; reflexivity
     |]);
    (split;
     [ intros opened Hin; in_trace Hin;
       repeat (split; [first [reflexivity | find_in]|]);
       unfold no_call; cbn [forallb negb is_message_box andb];
       rewrite ?forallb_app;
       rewrite ?(quiet_Core is_message_box) by reflexivity; reflexivity
     |]);
    (intros [Hf|Hin]; [try discriminate Hf | in_trace Hin]);
    unfold no_call; cbn [forallb negb is_dialog is_token_query andb];
    rewrite ?forallb_app;
    rewrite ?(quiet_Core is_dialog), ?(quiet_Core is_token_query)
      by reflexivity;
    split; reflexivity.
Qed.

End Main.

(** ** The further properties on the concrete machines *)

Import SetupMachine.

(** X2 where no temporary directory can be created. *)
Lemma InstallChrome_temp_dir_failure_witness :
  result (InstallChrome (machine no_temp_dir) constants setup_exe None None tt)
  = Some TEMP_DIR_FAILED.
Proof.
  exact (proj1 (InstallChrome_temp_dir_failure (machine no_temp_dir)
                  constants setup_exe None None tt _ _ _ _ eq_refl eq_refl)).
Defined.

(** X3 on the healthy machine, where no temporary directory can be
    created, and where the payload has no version. *)
Lemma InstallChrome_update_diff_status_witness :
  count is_update_diff
    (events (InstallChrome (machine healthy) constants setup_exe None None tt))
  = 1%nat
  /\ none is_schedule
       (events (InstallChrome (machine no_temp_dir) constants setup_exe None
                  None tt)) = true
  /\ none is_update_diff
       (events (InstallChrome (machine no_version) constants setup_exe None
                  None tt)) = true.
Proof.
  split; [|split].
  - exact (proj1 (proj1 (InstallChrome_update_diff_status (machine healthy)
                           constants setup_exe None None tt)
                    FIRST_INSTALL_SUCCESS eq_refl eq_refl)).
  - exact (proj2 (proj2 (proj1 (proj2 (InstallChrome_update_diff_status
                                         (machine no_temp_dir) constants
                                         setup_exe None None tt))
                           eq_refl))).
  - exact (proj1 (proj2 (proj2 (proj2 (InstallChrome_update_diff_status
                                         (machine no_version) constants
                                         setup_exe None None tt))
                           eq_refl))).
Defined.

(** X5 on the healthy machine: the first install writes its result with
    the quoted chrome.exe as launch command. *)
Lemma InstallChrome_launch_command_witness :
  let run := InstallChrome (machine healthy) constants setup_exe None None tt in
  In (EvWriteInstallerResult false FIRST_INSTALL_SUCCESS 0
        (Some (dquote ++ "C:\Users\u\Chromium\Application\chrome.exe"
               ++ dquote)%string)) (events run)
  /\ result run = Some FIRST_INSTALL_SUCCESS.
Proof.
  cbv zeta.
  assert (Hin : In (EvWriteInstallerResult false FIRST_INSTALL_SUCCESS 0
                      (Some (dquote
                             ++ "C:\Users\u\Chromium\Application\chrome.exe"
                             ++ dquote)%string))
                  (events (InstallChrome (machine healthy) constants setup_exe
                             None None tt))).
  { vm_compute. do 8 right. left. reflexivity. }
  split; [exact Hin|].
  exact (proj1 (proj2 (proj2 (InstallChrome_launch_command (machine healthy)
                                constants setup_exe None None tt _ _ _ _
                                Hin)))).
Defined.

(** X6 where the download unpacks to a patch and 9.0 is installed. *)
Lemma UnPackArchive_patches_installed_archive_witness :
  let u := UnPackArchive (machine patch_only) constants
             "C:\Downloads\chrome.packed.7z" false (Some [9; 0]%N)
             "C:\Temp\chrome_1" "C:\Temp\chrome_1\source" false tt in
  In (EvApplyDiffPatch
        "C:\Users\u\Chromium\Application\9.0\Installer\chrome.7z"
        "C:\Temp\chrome_1\chrome_patch.diff" "C:\Temp\chrome_1\chrome.7z" 0)
     (events u)
  /\ snd (result u) = true.
Proof.
  cbv zeta.
  assert (Hin : In (EvApplyDiffPatch
                      "C:\Users\u\Chromium\Application\9.0\Installer\chrome.7z"
                      "C:\Temp\chrome_1\chrome_patch.diff"
                      "C:\Temp\chrome_1\chrome.7z" 0)
                  (events (UnPackArchive (machine patch_only) constants
                             "C:\Downloads\chrome.packed.7z" false
                             (Some [9; 0]%N) "C:\Temp\chrome_1"
                             "C:\Temp\chrome_1\source" false tt))).
  { vm_compute. do 2 right. left. reflexivity. }
  split; [exact Hin|].
  destruct (UnPackArchive_patches_installed_archive (machine patch_only)
              constants _ _ _ _ _ _ _ _ _ _ _ Hin)
    as (v & _ & _ & _ & H & _).
  exact H.
Defined.

(** X12 in the ordinary session: the dialog is shown on the resource with
    the frame appended, and its outcome decides. *)
Lemma ShowEULADialog_status_witness :
  let r := ShowEULADialog (setup_machine healthy ordinary) "frame" tt in
  In (EvShowModal "C:\Temp\eula.html?innerframe=frame" ACCEPTED_OPT_IN)
     (calls r)
  /\ returned r = EULA_ACCEPTED_OPT_IN.
Proof.
  cbv zeta.
  assert (Hin : In (EvShowModal "C:\Temp\eula.html?innerframe=frame"
                      ACCEPTED_OPT_IN)
                  (calls (ShowEULADialog (setup_machine healthy ordinary)
                            "frame" tt))).
  { vm_compute. right. left. reflexivity. }
  split; [exact Hin|].
  destruct (proj2 (proj2 (ShowEULADialog_status (machine healthy)
                            (setup_machine healthy ordinary) "frame" tt))
              _ _ Hin) as (resource & _ & _ & _ & H).
  exact H.
Defined.

(** X13 in the ordinary session: the token opens and the privilege is
    granted. *)
Lemma ShowRebootDialog_outcome_witness :
  let r := ShowRebootDialog (setup_machine healthy ordinary) tt in
  returned r = true /\ last (calls r) EvAtExit = EvCloseHandle.
Proof.
  cbv zeta.
  pose proof (ShowRebootDialog_outcome (machine healthy)
                (setup_machine healthy ordinary) tt) as H.
  cbv zeta in H. destruct H as (_ & _ & H & _).
  split; [reflexivity|].
  refine (proj1 (H _)). vm_compute. left. reflexivity.
Defined.

(** X14 for the system-level toast with nothing installed: the version
    query answers null and the run returns nothing. *)
Lemma HandleNonInstallCmdLineOptions_found_witness :
  let r := HandleNonInstallCmdLineOptions (machine healthy) constants
             (setup_machine healthy ordinary) setup_constants
             (setup_with [("system-level-toast", EmptyString)]) true 0 tt in
  returned r = None
  /\ In (Core (EvGetChromeVersion true None)) (calls r).
Proof.
  cbv zeta. split; [reflexivity|].
  exact (proj1 (proj1 (proj2 (proj2 (proj2
                  (HandleNonInstallCmdLineOptions_found (machine healthy)
                     constants (setup_machine healthy ordinary)
                     setup_constants
                     (setup_with [("system-level-toast", EmptyString)])
                     true 0 tt))))) eq_refl).
Defined.

(** X16 on the healthy machine: the patch applies, the return code is 0. *)
Lemma HandleNonInstallCmdLineOptions_update_setup_exe_witness :
  returned
    (HandleNonInstallCmdLineOptions (machine healthy) constants
       (setup_machine healthy ordinary) setup_constants
       (setup_with [("update-setup-exe", "C:\Downloads\setup_patch.packed.7z");
                    ("new-setup-exe", "C:\Temp\new_setup.exe")])
       false 0 tt) = Some (true, 0).
Proof.
  exact (proj1 (HandleNonInstallCmdLineOptions_update_setup_exe
                  (machine healthy) constants (setup_machine healthy ordinary)
                  setup_constants
                  (setup_with
                     [("update-setup-exe",
                       "C:\Downloads\setup_patch.packed.7z");
                      ("new-setup-exe", "C:\Temp\new_setup.exe")])
                  false 0 tt eq_refl)).
Defined.

(** X17 in the ordinary session: the EULA is accepted and the consent
    recorded. *)
Lemma HandleNonInstallCmdLineOptions_show_eula_witness :
  let r := HandleNonInstallCmdLineOptions (machine healthy) constants
             (setup_machine healthy ordinary) setup_constants
             (setup_with [("show-eula", "frame")]) false 0 tt in
  In (EvSetEULAConsent true) (calls r)
  <-> returned r <> Some (true, status_int constants EULA_REJECTED).
Proof.
  exact (proj1 (proj2 (HandleNonInstallCmdLineOptions_show_eula
                         (machine healthy) constants
                         (setup_machine healthy ordinary) setup_constants
                         (setup_with [("show-eula", "frame")]) false 0 tt
                         eq_refl eq_refl))).
Defined.

(** X18 on the healthy machine. *)
Lemma HandleNonInstallCmdLineOptions_rename_witness :
  let r := HandleNonInstallCmdLineOptions (machine healthy) constants
             (setup_machine healthy ordinary) setup_constants
             (setup_with [("rename-chrome-exe", EmptyString)]) false 0 tt in
  calls r =
    map Core (events (RenameChromeExecutables (machine healthy) constants
                        false tt)).
Proof.
  exact (proj1 (HandleNonInstallCmdLineOptions_rename
                  (machine healthy) constants (setup_machine healthy ordinary)
                  setup_constants
                  (setup_with [("rename-chrome-exe", EmptyString)]) false 0 tt
                  eq_refl eq_refl eq_refl eq_refl)).
Defined.

(** X21 where the payload has no version: the run stops at line 347
    with COM initialized, and the exit manager does not run. *)
Lemma wWinMain_com_balance_witness :
  let r := wWinMain (machine no_version) constants
             (setup_machine no_version ordinary) setup_constants setup_exe
             EmptyString tt in
  returned r = None
  /\ In (EvCoInitializeEx S_OK) (calls r)
  /\ no_call is_com_uninit (calls r) = true
  /\ no_call is_at_exit (calls r) = true.
Proof.
  cbv zeta. split; [reflexivity|].
  exact (proj2 (proj2 (proj2 (wWinMain_com_balance (machine no_version)
                                constants (setup_machine no_version ordinary)
                                setup_constants setup_exe EmptyString tt)))
           eq_refl).
Defined.

(** X22 on a Windows older than XP. *)
Lemma wWinMain_os_not_supported_witness :
  returned (wWinMain (machine healthy) constants
              (setup_machine healthy old_windows) setup_constants setup_exe
              EmptyString tt)
  = Some (status_int constants OS_NOT_SUPPORTED).
Proof.
  refine (proj1 (wWinMain_os_not_supported (machine healthy) constants
                   (setup_machine healthy old_windows) setup_constants
                   setup_exe EmptyString tt _)).
  vm_compute. do 2 right. left. reflexivity.
Defined.

(** X23 where [CoInitializeEx] answers [S_FALSE]. *)
Lemma wWinMain_com_failure_witness :
  returned (wWinMain (machine healthy) constants
              (setup_machine healthy com_busy) setup_constants setup_exe
              EmptyString tt)
  = Some (status_int constants OS_ERROR).
Proof.
  refine (proj1 (wWinMain_com_failure (machine healthy) constants
                   (setup_machine healthy com_busy) setup_constants
                   setup_exe EmptyString tt 1 _ _)).
  - vm_compute. do 3 right. left. reflexivity.
  - vm_compute. discriminate.
Defined.

(** X24 for a side-by-side setup asked to force an uninstall. *)
Lemma wWinMain_with_com_sxs_witness :
  calls (wWinMain_with_com (machine healthy) constants
           (setup_machine healthy side_by_side) setup_constants
           (setup_with [("force-uninstall", EmptyString)]) EmptyString None
           false tt)
  = [EvIsChromeSxSProcess true].
Proof.
  refine (proj1 (wWinMain_with_com_sxs (machine healthy) constants
                   (setup_machine healthy side_by_side) setup_constants
                   (setup_with [("force-uninstall", EmptyString)])
                   EmptyString None false tt _ _)).
  - vm_compute. left. reflexivity.
  - right. exists "force-uninstall"%string. split.
    + vm_compute. left. reflexivity.
    + reflexivity.
Defined.

(** X25 for the system-level request of a user who is not an
    administrator, on Windows XP. *)
Lemma wWinMain_with_com_non_admin_witness :
  let r := wWinMain_with_com (machine healthy) constants
             (setup_machine healthy system_level_request) setup_constants
             setup_exe EmptyString (Some [("system_level", true)]) true tt in
  no_call (core is_mutate) (calls r) = true
  /\ no_call is_uninstaller (calls r) = true.
Proof.
  cbv zeta.
  pose proof (proj1 (wWinMain_with_com_non_admin (machine healthy) constants
                       (setup_machine healthy system_level_request)
                       setup_constants setup_exe EmptyString
                       (Some [("system_level", true)]) true tt)) as H.
  assert (Hin : In (EvIsUserAnAdmin false)
                  (calls (wWinMain_with_com (machine healthy) constants
                            (setup_machine healthy system_level_request)
                            setup_constants setup_exe EmptyString
                            (Some [("system_level", true)]) true tt))).
  { vm_compute. right. left. reflexivity. }
  destruct (H Hin) as (_ & A & B & _).
  exact (conj A B).
Defined.

(** X26 for --rename-chrome-exe on the healthy machine. *)
Lemma wWinMain_with_com_option_handled_witness :
  no_call (core is_mutate)
    (calls (wWinMain_with_com (machine healthy) constants
              (setup_machine healthy ordinary) setup_constants
              (setup_with [("rename-chrome-exe", EmptyString)]) EmptyString
              None false tt)) = true.
Proof.
  exact (proj1 (wWinMain_with_com_option_handled (machine healthy) constants
                  (setup_machine healthy ordinary) setup_constants
                  (setup_with [("rename-chrome-exe", EmptyString)])
                  EmptyString None false tt eq_refl)).
Defined.

(** X28 for a first install on the healthy machine. *)
Lemma wWinMain_install_runs_InstallChrome_witness :
  let r := wWinMain_install (machine healthy) constants
             (setup_machine healthy ordinary) setup_constants setup_exe
             EmptyString None false tt in
  exists version w1 rest,
    let run := InstallChrome (machine healthy) constants setup_exe version
                 None w1 in
    calls r =
      Core (EvGetChromeVersion false version)
      :: map Core (events run) ++ rest
    /\ no_call (core (fun _ => true)) rest = true
    /\ returned r =
         option_map
           (fun status =>
              wrap_int32
                (GetInstallReturnCode (setup_machine healthy ordinary) status))
           (result run)
    /\ (result run = None -> rest = []).
Proof.
  exact (wWinMain_install_runs_InstallChrome (machine healthy) constants
           (setup_machine healthy ordinary) setup_constants setup_exe
           EmptyString None false tt eq_refl).
Defined.

(** X29 for a Chrome Frame uninstall run by the Windows installer. *)
Lemma wWinMain_install_uninstall_code_witness :
  returned (wWinMain_install (machine healthy) constants
              (setup_machine healthy msi_frame_uninstall) setup_constants
              (setup_with [("uninstall", EmptyString)]) "--uninstall" None
              false tt) = Some 0.
Proof.
  destruct (wWinMain_install_uninstall_code (machine healthy) constants
              (setup_machine healthy msi_frame_uninstall) setup_constants
              (setup_with [("uninstall", EmptyString)]) "--uninstall" None
              false tt eq_refl) as (msi & Hlast & H).
  vm_compute in Hlast. injection Hlast as <-. exact H.
Defined.
